(** * Kyverno evaluation core: mutation, generation and the policy work queue

    A shallow embedding of
    - [engine.Mutate] (package engine),
    - [processGR], [applyGenerate], [applyGeneratePolicy], [applyRule],
      [handleData], [handleClone], [checkResource], [updateStatus],
      [generatePV] (package generate),
    - [handleErr] and [processNextWorkItem] (package controller),
    together with the properties the specification states about them.

    Functions of other packages that this code calls (the overlay engine,
    the matcher, the variable substitution, the resource store client, the
    status control, the work queue) are interfaces here: a type class lists
    them, the embedded functions are written against the class, and the
    general theorems hold for every instance.  One instance per class is
    given further down, to evaluate the functions on concrete inputs. *)

From Stdlib Require Import ZArith String Ascii List Bool Lia DecimalString.
From stdpp Require Import base decidable option list gmap strings.

Set Warnings "-register-all".
Local Open Scope Z_scope.

(** ** Go values *)

(** [strings.HasPrefix] and [strings.Contains]: [Contains s substr] reports
    whether [substr] occurs in [s]; the empty string occurs everywhere. *)
Definition HasPrefix (s pre : string) : bool := String.prefix pre s.

Fixpoint Contains (s substr : string) : bool :=
  HasPrefix s substr ||
  match s with
  | EmptyString => false
  | String _ s' => Contains s' substr
  end.

Arguments Contains : simpl never.

(** Go's [int] on the 64-bit targets the controller is built for. *)
Definition int_wrap (z : Z) : Z := (z + 2 ^ 63) mod 2 ^ 64 - 2 ^ 63.

(** [interface{}] holding decoded JSON: the values an overlay, a template
    or a resource is made of.  The nil interface is [VNull], which is also
    what JSON null decodes to.  A Go [map[string]interface{}] is the list
    of its entries; a key is looked up at its first entry. *)
Inductive value : Type :=
| VNull
| VBool (b : bool)
| VNumber (n : Z)
| VString (s : string)
| VSequence (l : list value)
| VMapping (m : list (string * value)).

Definition JSONMap : Type := list (string * value).

(** [v == nil] on an interface value, and on a map or a slice that is
    [None] when nil. *)
Definition isNil (v : value) : bool :=
  match v with VNull => true | _ => false end.

Definition isNone {A : Type} (o : option A) : bool :=
  match o with None => true | Some _ => false end.

Fixpoint mapGet (m : JSONMap) (k : string) : option value :=
  match m with
  | [] => None
  | (k', v) :: m' => if String.eqb k' k then Some v else mapGet m' k
  end.

Fixpoint mapSet (m : JSONMap) (k : string) (v : value) : JSONMap :=
  match m with
  | [] => [(k, v)]
  | (k', v') :: m' =>
      if String.eqb k' k then (k, v) :: m' else (k', v') :: mapSet m' k v
  end.

(** [unstructured.Unstructured]: the [Object] map.  A nil map and an empty
    map read alike and are both the empty list. *)
Definition Unstructured : Type := JSONMap.

(** [unstructured.NestedString] as the getters below use it: the empty
    string when the path is absent or does not hold a string. *)
Definition NestedString (u : Unstructured) (path : list string) : string :=
  match path with
  | [a] => match mapGet u a with Some (VString s) => s | _ => "" end
  | [a; b] =>
      match mapGet u a with
      | Some (VMapping m) =>
          match mapGet m b with Some (VString s) => s | _ => "" end
      | _ => ""
      end
  | _ => ""
  end.

Definition GetKind (u : Unstructured) : string := NestedString u ["kind"].
Definition GetAPIVersion (u : Unstructured) : string :=
  NestedString u ["apiVersion"].
Definition GetName (u : Unstructured) : string :=
  NestedString u ["metadata"; "name"].
Definition GetNamespace (u : Unstructured) : string :=
  NestedString u ["metadata"; "namespace"].

(** [UnstructuredContent] never returns a nil map. *)
Definition UnstructuredContent (u : Unstructured) : option JSONMap := Some u.

(** ** Errors *)

(** The reasons of an API status error that the code tells apart. *)
Inductive StatusReason : Type :=
| StatusReasonNotFound
| StatusReasonAlreadyExists
| StatusReasonUnknown.

(** Modelled from the spec: the error taxonomy of the reconciler.
    [ParseFailed], [NotFound], [ConfigNotFound] and [Violation] are the
    error types of package generate, with the fields their constructors are
    given at the call sites.  The other two are the dynamic types an
    [error] has besides: [StatusError] is the API machinery's error, on
    which [errors.IsNotFound] looks at the reason, and [ErrorString] is an
    error made by [fmt.Errorf] or [errors.New]. *)
Inductive error : Type :=
| ParseFailed (spec : value) (parseError : error)
| NotFound (kind namespace name : string)
| ConfigNotFound (config : value) (kind namespace name : string)
| Violation (rule : string) (err : error)
| StatusError (reason : StatusReason) (message : string)
| ErrorString (message : string).

Definition NewParseFailed := ParseFailed.
Definition NewNotFound := NotFound.
Definition NewConfigNotFound := ConfigNotFound.
Definition NewViolation := Violation.

(** [errors.IsNotFound]; a nil error is not a not-found error. *)
Definition IsNotFound (err : option error) : bool :=
  match err with
  | Some (StatusError StatusReasonNotFound _) => true
  | _ => false
  end.

(** [err.Error()]: the text of an error, fixed by packages that are not
    part of this development. *)
Class ErrorText := Error : error -> string.

(** ** The policy API (package kyverno/v1), as far as the code reads it *)

Record ResourceSpec : Type := mkResourceSpec {
  Kind : string;
  Namespace : string;
  Name : string
}.

(** The zero value, [var noGenResource kyverno.ResourceSpec]. *)
Definition noResourceSpec : ResourceSpec := mkResourceSpec "" "" "".

Record CloneFrom : Type := mkCloneFrom {
  CloneNamespace : string;
  CloneName : string
}.

Definition CloneFrom_isZero (c : CloneFrom) : bool :=
  String.eqb (CloneNamespace c) "" && String.eqb (CloneName c) "".

Record Generation : Type := mkGeneration {
  GenSpec : ResourceSpec;
  Data : value;
  Clone : CloneFrom
}.

Record Patch : Type := mkPatch {
  Path : string;
  Operation : string;
  PatchValue : value
}.

Record Mutation : Type := mkMutation {
  Overlay : value;
  Patches : option (list Patch)
}.

Record Condition : Type := mkCondition {
  Key : value;
  Operator : string;
  CondValue : value
}.

Record ResourceDescription : Type := mkResourceDescription {
  Kinds : list string;
  DescName : string;
  Namespaces : list string
}.

Record Rule : Type := mkRule {
  RuleName : string;
  MatchResources : ResourceDescription;
  Conditions : list Condition;
  RuleMutation : Mutation;
  RuleGeneration : Generation
}.

(** Modelled from the spec: a rule has the mutation capability, and the
    generate capability, when the field is not the zero value of its type
    (the methods [HasMutate] and [HasGenerate] of package kyverno/v1). *)
Definition HasMutate (r : Rule) : bool :=
  negb (isNil (Overlay (RuleMutation r)) && isNone (Patches (RuleMutation r))).

Definition HasGenerate (r : Rule) : bool :=
  let g := RuleGeneration r in
  negb (String.eqb (Kind (GenSpec g)) "" && String.eqb (Namespace (GenSpec g)) ""
        && String.eqb (Name (GenSpec g)) ""
        && isNil (Data g)
        && CloneFrom_isZero (Clone g)).

Record ClusterPolicy : Type := mkClusterPolicy {
  PolicyName : string;
  PolicyCreationTimestamp : Z;
  Rules : list Rule
}.

(** [kyverno.RequestInfo]: the roles of the caller of an admission request
    and the fields of its [UserInfo].  Slices and maps are [None] when
    nil, which [reflect.DeepEqual] tells from empty. *)
Record RequestInfo : Type := mkRequestInfo {
  Roles : option (list string);
  ClusterRoles : option (list string);
  Username : string;
  UID : string;
  Groups : option (list string);
  Extra : option (list (string * list string))
}.

Definition emptyRequestInfo : RequestInfo :=
  mkRequestInfo None None "" "" None None.

#[export] Instance RequestInfo_eq_dec : EqDecision RequestInfo.
Proof. solve_decision. Defined.

(** Modelled from the spec: the EvaluationContext of package
    engine/context, built fresh per evaluation: it holds the triggering
    resource, the caller's user info and the service-account identity that
    [AddResource], [AddUserInfo] and [AddSA] have stored. *)
Record EvalContext : Type := mkEvalContext {
  ctxResource : option Unstructured;
  ctxUserInfo : option RequestInfo;
  ctxServiceAccount : option string
}.

Definition NewContext : EvalContext := mkEvalContext None None None.
Definition AddResource (r : Unstructured) (c : EvalContext) : EvalContext :=
  mkEvalContext (Some r) (ctxUserInfo c) (ctxServiceAccount c).
Definition AddUserInfo (u : RequestInfo) (c : EvalContext) : EvalContext :=
  mkEvalContext (ctxResource c) (Some u) (ctxServiceAccount c).
Definition AddSA (sa : string) (c : EvalContext) : EvalContext :=
  mkEvalContext (ctxResource c) (ctxUserInfo c) (Some sa).

Record PolicyContext : Type := mkPolicyContext {
  Policy : ClusterPolicy;
  NewResource : Unstructured;
  AdmissionInfo : RequestInfo;
  Ctx : EvalContext
}.

(** ** Engine responses (package response) *)

Record RuleResponse : Type := mkRuleResponse {
  RespName : string;
  RespType : string;
  Message : string;
  RespPatches : option (list Patch);
  Success : bool
}.

Definition zeroRuleResponse : RuleResponse :=
  mkRuleResponse "" "" "" None false.

Record PolicyResponse : Type := mkPolicyResponse {
  RespPolicy : string;
  RespResource : ResourceSpec;
  RespAPIVersion : string;
  RulesAppliedCount : Z;
  RespRules : list RuleResponse
}.

Record EngineResponse : Type := mkEngineResponse {
  PatchedResource : Unstructured;
  PolicyResp : PolicyResponse
}.

(** ** Package engine: [Mutate] *)

(** The overlay argument of [mutate.ProcessOverlay] is an [interface{}]:
    [Mutate] passes the substituted overlay of the rule in the overlay
    phase and the rule value [podTemplateRule] itself in the autogen
    phase. *)
Inductive overlayArg : Type :=
| OverlayValue (v : value)
| OverlayRule (r : Rule).

(** The functions of packages engine, mutate and variables that [Mutate]
    calls. *)
Class EngineDeps : Type := {
  MatchesResourceDescription :
    Unstructured -> Rule -> RequestInfo -> option error;
  EvaluateConditions : EvalContext -> list Condition -> bool;
  SubstituteVars : EvalContext -> value -> value + error;
  ProcessOverlay :
    string -> overlayArg -> Unstructured -> RuleResponse * Unstructured;
  ProcessPatches : Rule -> Unstructured -> RuleResponse * Unstructured
}.

Definition PodControllers : string := "DaemonSet,Deployment,Job,StatefulSet".
Definition PodControllersAnnotation : string :=
  "pod-policies.kyverno.io/autogen-controllers".
Definition PodTemplateAnnotation : string :=
  "pod-policies.kyverno.io/autogen-applied".

Definition emptyResourceDescription : ResourceDescription :=
  mkResourceDescription [] "" [].
Definition emptyGeneration : Generation :=
  mkGeneration noResourceSpec VNull (mkCloneFrom "" "").

Definition podTemplateRule : Rule :=
  mkRule "autogen-annotate-podtemplate" emptyResourceDescription []
    (mkMutation
       (VMapping [("spec", VMapping [("template", VMapping [("metadata",
          VMapping [("annotations", VMapping
            [("+(pod-policies.kyverno.io/autogen-applied)", VString "true")])])])])])
       None)
    emptyGeneration.

(** Modelled from the spec: [copyConditions] of package engine gives the
    evaluator a copy of the conditions of the rule; values are immutable
    here, and the copy is the list. *)
Definition copyConditions (cs : list Condition) : list Condition := cs.

Definition incrementAppliedRuleCount (resp : PolicyResponse) : PolicyResponse :=
  mkPolicyResponse (RespPolicy resp) (RespResource resp) (RespAPIVersion resp)
    (int_wrap (RulesAppliedCount resp + 1)) (RespRules resp).

(** [resp.PolicyResponse.Rules = append(resp.PolicyResponse.Rules, r)] *)
Definition appendRule (r : RuleResponse) (resp : PolicyResponse) : PolicyResponse :=
  mkPolicyResponse (RespPolicy resp) (RespResource resp) (RespAPIVersion resp)
    (RulesAppliedCount resp) (RespRules resp ++ [r]).

Definition zeroPolicyResponse : PolicyResponse :=
  mkPolicyResponse "" noResourceSpec "" 0 [].

Definition startMutateResultResponse (resp : PolicyResponse)
    (policy : ClusterPolicy) (resource : Unstructured) : PolicyResponse :=
  mkPolicyResponse (PolicyName policy)
    (mkResourceSpec (GetKind resource) (GetNamespace resource) (GetName resource))
    (GetAPIVersion resource)
    (RulesAppliedCount resp) (RespRules resp).

(** The state of the loop over the rules: the response built so far and
    [patchedResource]. *)
Definition mutateState : Type := PolicyResponse * Unstructured.

(** How a phase of the loop body ends: with [continue], or by falling
    through to the next phase. *)
Inductive flow : Type :=
| Continue (st : mutateState)
| Proceed (st : mutateState).

Section Engine.
Context `{EngineDeps} `{ErrorText}.

(** "Process Overlay": lines 63 to 90. *)
Definition overlayPhase (ctx : EvalContext) (rule : Rule) (st : mutateState) : flow :=
  let '(resp, patchedResource) := st in
  let overlay := Overlay (RuleMutation rule) in
  if isNil overlay then Proceed st
  else
    match SubstituteVars ctx overlay with
    | inr err =>
        let ruleResponse := mkRuleResponse "" "" (Error err) None false in
        Continue (appendRule ruleResponse resp, patchedResource)
    | inl overlay' =>
        let '(ruleResponse, patchedResource') :=
          ProcessOverlay (RuleName rule) (OverlayValue overlay') patchedResource in
        if Success ruleResponse && isNone (RespPatches ruleResponse)
        then Continue (resp, patchedResource')
        else Proceed (incrementAppliedRuleCount (appendRule ruleResponse resp),
                      patchedResource')
    end.

(** "Process Patches": lines 92 to 99. *)
Definition patchesPhase (rule : Rule) (st : mutateState) : mutateState :=
  let '(resp, patchedResource) := st in
  if isNone (Patches (RuleMutation rule)) then st
  else
    let '(ruleResponse, patchedResource') := ProcessPatches rule patchedResource in
    (incrementAppliedRuleCount (appendRule ruleResponse resp), patchedResource').

(** The pod template annotation: lines 101 to 119. *)
Definition autogenPhase (pc : PolicyContext) (rule : Rule) (st : mutateState) : mutateState :=
  let '(resp, patchedResource) := st in
  if bool_decide (AdmissionInfo pc = emptyRequestInfo) then st
  else if Contains PodControllers (GetKind (NewResource pc)) then
    let '(ruleResponse, patchedResource') :=
      ProcessOverlay (RuleName rule) (OverlayRule podTemplateRule) patchedResource in
    if negb (Success ruleResponse) then (resp, patchedResource')
    else if Success ruleResponse && negb (isNone (RespPatches ruleResponse))
    then (appendRule ruleResponse resp, patchedResource')
    else (resp, patchedResource')
  else st.

(** The body of the loop over [policy.Spec.Rules]. *)
Definition mutateRule (pc : PolicyContext) (st : mutateState) (rule : Rule) : mutateState :=
  let resource := NewResource pc in
  let ctx := Ctx pc in
  if negb (HasMutate rule) && negb (Contains PodControllers (GetKind resource))
  then st
  else
    match MatchesResourceDescription resource rule (AdmissionInfo pc) with
    | Some _ => st
    | None =>
        if negb (EvaluateConditions ctx (copyConditions (Conditions rule)))
        then st
        else
          match overlayPhase ctx rule st with
          | Continue st' => st'
          | Proceed st' => autogenPhase pc rule (patchesPhase rule st')
          end
    end.

(** [Mutate], without the processing time that [endMutateResultResponse]
    reads off the clock. *)
Definition Mutate (pc : PolicyContext) : EngineResponse :=
  let policy := Policy pc in
  let resource := NewResource pc in
  let resp := startMutateResultResponse zeroPolicyResponse policy resource in
  let '(resp', patchedResource) :=
    fold_left (mutateRule pc) (Rules policy) (resp, NewResource pc) in
  mkEngineResponse patchedResource resp'.
End Engine.

(** ** Package generate *)

(** [kyverno.GenerateRequestState] is a string; the empty string is the
    state of a request that was never processed. *)
Definition GenerateRequestState : Type := string.
Definition Completed : GenerateRequestState := "Completed".
Definition Failed : GenerateRequestState := "Failed".

Record GenerateRequest : Type := mkGenerateRequest {
  SpecPolicy : string;
  SpecResource : ResourceSpec;
  UserRequestInfo : RequestInfo;
  State : GenerateRequestState
}.

Record ViolatedRule : Type := mkViolatedRule {
  ViolatedName : string;
  ViolatedType : string;
  ViolatedMessage : string
}.

(** [policyviolation.Info] *)
Record PVInfo : Type := mkPVInfo {
  Blocked : bool;
  PVPolicyName : string;
  PVResource : Unstructured;
  PVRules : list ViolatedRule
}.

(** The calls that leave the reconciler, in the order they are made. *)
Inductive Call : Type :=
| CreateResourceCall (kind namespace : string) (obj : Unstructured) (dryRun : bool)
| PVAddCall (pv : PVInfo)
| ReportEventsCall (err : option error) (gr : GenerateRequest) (resource : Unstructured)
| StatusFailedCall (gr : GenerateRequest) (message : string)
    (genResources : list ResourceSpec)
| StatusSuccessCall (gr : GenerateRequest) (genResources : list ResourceSpec).

Definition isCreate (c : Call) : bool :=
  match c with CreateResourceCall _ _ _ _ => true | _ => false end.

Definition isPVAdd (c : Call) : bool :=
  match c with PVAddCall _ => true | _ => false end.

Definition isStatusWrite (c : Call) : bool :=
  match c with
  | StatusFailedCall _ _ _ | StatusSuccessCall _ _ => true
  | _ => false
  end.

(** What the reconciler calls outside its own file: the resource store
    client, the policy lister, [engine.GenerateNew], the variable
    substitution, the converter and the validator, the setters of
    [unstructured.Unstructured], and the status control.  A value read or
    written as JSON bytes is the value itself. *)
Class GenerateDeps : Type := {
  Client : Type;
  GetResource : Client -> string -> string -> string -> Unstructured + error;
  CreateResource :
    Client -> string -> string -> Unstructured -> bool -> Client * option error;
  getResource : Client -> ResourceSpec -> Unstructured + error;
  pListerGet : string -> ClusterPolicy + error;
  MarshalJSON : Unstructured -> Unstructured + error;
  GenerateNew : PolicyContext -> EngineResponse;
  SubstituteVariables : EvalContext -> value -> value;
  ToUnstructured : value -> option JSONMap * option error;
  ValidateResourceWithPattern :
    EvalContext -> Unstructured -> value -> string * option error;
  GetCreationTimestamp : Unstructured -> Z;
  SetUnstructuredContent : option JSONMap -> Unstructured;
  SetName : string -> Unstructured -> Unstructured;
  SetNamespace : string -> Unstructured -> Unstructured;
  SetResourceVersion : string -> Unstructured -> Unstructured;
  statusControlFailed :
    GenerateRequest -> string -> list ResourceSpec -> option error;
  statusControlSuccess : GenerateRequest -> list ResourceSpec -> option error
}.

(** The world the reconciler runs in: the store behind the client and the
    calls made so far. *)
Record World `{GenerateDeps} : Type := mkWorld {
  client : Client;
  calls : list Call
}.

(** Computations that read and change the world. *)
Definition M `{GenerateDeps} (A : Type) : Type := World -> A * World.

Definition ret `{GenerateDeps} {A : Type} (a : A) : M A := fun w => (a, w).

Definition bind `{GenerateDeps} {A B : Type} (m : M A) (k : A -> M B) : M B :=
  fun w => let '(a, w') := m w in k a w'.

Notation "'do' x <- m ; k" := (bind m (fun x => k))
  (at level 10, x pattern, m at level 99, k at level 200).

Definition getClient `{GenerateDeps} : M Client := fun w => (client w, w).

Definition emit `{GenerateDeps} (c : Call) : M unit :=
  fun w => (tt, mkWorld _ (client w) (calls w ++ [c])).

(** [client.CreateResource]: the call is recorded, and the store changes as
    the client says. *)
Definition createResource `{GenerateDeps} (kind namespace : string)
    (obj : Unstructured) (dryRun : bool) : M (option error) :=
  fun w =>
    let '(c', err) := CreateResource (client w) kind namespace obj dryRun in
    (err, mkWorld _ c' (calls w ++ [CreateResourceCall kind namespace obj dryRun])).

(** The cases of the type switch in [applyRule] after [handleData]. *)
Definition isHandledDataError (e : error) : bool :=
  match e with
  | ParseFailed _ _ | NotFound _ _ _ | ConfigNotFound _ _ _ _ => true
  | _ => false
  end.

(** How a block of [applyRule] ends: with a [return], or by falling through
    with the current [rdata] and [err]. *)
Inductive block : Type :=
| Return (r : ResourceSpec * option error)
| Fall (rdata : option JSONMap) (err : option error).

(** [fmt.Errorf("policy %s, dont not apply to resource %v", ...)] *)
Definition notApplyError (policy : string) (r : ResourceSpec) : error :=
  ErrorString ("policy " +:+ policy +:+ ", dont not apply to resource {"
               +:+ Kind r +:+ " " +:+ Namespace r +:+ " " +:+ Name r +:+ "}").

Section Generate.
Context `{GenerateDeps} `{ErrorText}.

Definition variableSubsitutionForAttributes (gen : Generation)
    (ctx : EvalContext) : Generation :=
  let name := Name (GenSpec gen) in
  let namespace := Namespace (GenSpec gen) in
  let name' :=
    match SubstituteVariables ctx (VString name) with
    | VString newName => newName
    | _ => name
    end in
  let namespace' :=
    match SubstituteVariables ctx (VString namespace) with
    | VString newNamespace => newNamespace
    | _ => namespace
    end in
  let cloneName := CloneName (Clone gen) in
  let cloneNamespace := CloneNamespace (Clone gen) in
  let cloneName' :=
    match SubstituteVariables ctx (VString cloneName) with
    | VString newcloneName => newcloneName
    | _ => cloneName
    end in
  let cloneNamespace' :=
    match SubstituteVariables ctx (VString cloneNamespace) with
    | VString newcloneNamespace => newcloneNamespace
    | _ => cloneNamespace
    end in
  mkGeneration (mkResourceSpec (Kind (GenSpec gen)) namespace' name')
    (Data gen) (mkCloneFrom cloneNamespace' cloneName').

Definition checkResource (ctx : EvalContext) (newResourceSpec : value)
    (resource : Unstructured) : bool * option error :=
  match ValidateResourceWithPattern ctx resource newResourceSpec with
  | (_, Some err) => (false, Some err)
  | (_, None) => (true, None)
  end.

Definition handleData (ruleName : string) (generateRule : Generation)
    (c : Client) (resource : Unstructured) (ctx : EvalContext)
    (state : GenerateRequestState) : option JSONMap * option error :=
  let newData := SubstituteVariables ctx (Data generateRule) in
  let kind := Kind (GenSpec generateRule) in
  let namespace := Namespace (GenSpec generateRule) in
  let name := Name (GenSpec generateRule) in
  match GetResource c kind namespace name with
  | inr err =>
      if IsNotFound (Some err) then
        if String.eqb state "" then
          match ToUnstructured newData with
          | (_, Some err') => (None, Some (NewParseFailed newData err'))
          | (rdata, None) => (rdata, None)
          end
        else (None, Some (NewViolation ruleName (NewNotFound kind namespace name)))
      else (None, Some err)
  | inl obj =>
      match checkResource ctx newData obj with
      | (_, Some err) => (None, Some err)
      | (ok, None) =>
          if negb ok
          then (None, Some (NewConfigNotFound newData kind namespace name))
          else (None, None)
      end
  end.

Definition handleClone (generateRule : Generation) (c : Client)
    (resource : Unstructured) (ctx : EvalContext)
    (state : GenerateRequestState) : option JSONMap * option error :=
  let kind := Kind (GenSpec generateRule) in
  match GetResource c kind (Namespace (GenSpec generateRule))
          (Name (GenSpec generateRule)) with
  | inl _ => (None, None)
  | inr err =>
      if negb (IsNotFound (Some err)) then (None, Some err)
      else
        let cloneNamespace := CloneNamespace (Clone generateRule) in
        let cloneName := CloneName (Clone generateRule) in
        match GetResource c kind cloneNamespace cloneName with
        | inr err' =>
            if IsNotFound (Some err')
            then (None, Some (NewNotFound kind cloneNamespace cloneName))
            else (None, Some err')
        | inl obj => (UnstructuredContent obj, None)
        end
  end.

(** "DATA": lines 146 to 165 of [applyRule]. *)
Definition dataBlock (rule : Rule) (gen : Generation) (c : Client)
    (resource : Unstructured) (ctx : EvalContext)
    (state : GenerateRequestState) (newGenResource : ResourceSpec) : block :=
  if isNil (Data gen) then Fall None None
  else
    let '(rdata, err) := handleData (RuleName rule) gen c resource ctx state in
    match err with
    | Some e =>
        if isHandledDataError e then
          if isNone rdata then Return (newGenResource, None) else Fall rdata err
        else Return (noResourceSpec, Some e)
    | None =>
        if isNone rdata then Return (newGenResource, None) else Fall rdata err
    end.

(** "CLONE": lines 166 to 183 of [applyRule]. *)
Definition cloneBlock (gen : Generation) (c : Client) (resource : Unstructured)
    (ctx : EvalContext) (state : GenerateRequestState)
    (newGenResource : ResourceSpec) (rdata : option JSONMap)
    (err : option error) : block :=
  if CloneFrom_isZero (Clone gen) then Fall rdata err
  else
    let '(rdata', err') := handleClone gen c resource ctx state in
    match err' with
    | Some e => Return (noResourceSpec, Some e)
    | None =>
        if isNone rdata' then Return (newGenResource, None) else Fall rdata' err'
    end.

Definition applyRule (rule : Rule) (resource : Unstructured) (ctx : EvalContext)
    (state : GenerateRequestState) (processExisting : bool)
    : M (ResourceSpec * option error) :=
  let gen := variableSubsitutionForAttributes (RuleGeneration rule) ctx in
  let newGenResource :=
    mkResourceSpec (Kind (GenSpec gen)) (Namespace (GenSpec gen))
      (Name (GenSpec gen)) in
  do c <- getClient;
  match dataBlock rule gen c resource ctx state newGenResource with
  | Return r => ret r
  | Fall rdata err =>
      match cloneBlock gen c resource ctx state newGenResource rdata err with
      | Return r => ret r
      | Fall rdata' err' =>
          if processExisting then ret (noResourceSpec, err')
          else
            let newResource :=
              SetResourceVersion ""
                (SetNamespace (Namespace (GenSpec gen))
                   (SetName (Name (GenSpec gen))
                      (SetUnstructuredContent rdata'))) in
            do cerr <- createResource (Kind (GenSpec gen))
                         (Namespace (GenSpec gen)) newResource false;
            match cerr with
            | Some e => ret (noResourceSpec, Some e)
            | None => ret (newGenResource, None)
            end
      end
  end.

(** The loop of [applyGeneratePolicy] over [policy.Spec.Rules], from the
    rules still to visit and the [genResources] collected so far. *)
Fixpoint applyGenerateRules (rules : list Rule) (resource : Unstructured)
    (ctx : EvalContext) (state : GenerateRequestState) (processExisting : bool)
    (genResources : list ResourceSpec) : M (list ResourceSpec * option error) :=
  match rules with
  | [] => ret (genResources, None)
  | rule :: rules' =>
      if negb (HasGenerate rule)
      then applyGenerateRules rules' resource ctx state processExisting genResources
      else
        do r <- applyRule rule resource ctx state processExisting;
        match r with
        | (_, Some err) => ret ([], Some err)
        | (genResource, None) =>
            applyGenerateRules rules' resource ctx state processExisting
              (genResources ++ [genResource])
        end
  end.

Definition processExistingOf (policy : ClusterPolicy) (resource : Unstructured) : bool :=
  let rcreationTime := GetCreationTimestamp resource in
  let pcreationTime := PolicyCreationTimestamp policy in
  rcreationTime <? pcreationTime.

Definition applyGeneratePolicy (policyContext : PolicyContext)
    (state : GenerateRequestState) : M (list ResourceSpec * option error) :=
  let policy := Policy policyContext in
  let resource := NewResource policyContext in
  let ctx := Ctx policyContext in
  let processExisting := processExistingOf policy resource in
  applyGenerateRules (Rules policy) resource ctx state processExisting [].

Definition applyGenerate (resource : Unstructured) (gr : GenerateRequest)
    : M (list ResourceSpec * option error) :=
  match pListerGet (SpecPolicy gr) with
  | inr _ => ret ([], None)
  | inl policy =>
      match MarshalJSON resource with
      | inr err => ret ([], Some err)
      | inl resourceRaw =>
          let ctx :=
            AddSA (Username (UserRequestInfo gr))
              (AddUserInfo (UserRequestInfo gr)
                 (AddResource resourceRaw NewContext)) in
          let policyContext :=
            mkPolicyContext policy resource (UserRequestInfo gr) ctx in
          let engineResponse := GenerateNew policyContext in
          if (length (RespRules (PolicyResp engineResponse)) =? 0)%nat
          then ret ([], Some (notApplyError (SpecPolicy gr) (SpecResource gr)))
          else applyGeneratePolicy policyContext (State gr)
      end
  end.

Definition updateStatus (gr : GenerateRequest) (err : option error)
    (genResources : list ResourceSpec) : M (option error) :=
  match err with
  | Some e =>
      do _ <- emit (StatusFailedCall gr (Error e) genResources);
      ret (statusControlFailed gr (Error e) genResources)
  | None =>
      do _ <- emit (StatusSuccessCall gr genResources);
      ret (statusControlSuccess gr genResources)
  end.

(** [generatePV] is given a [*Violation]: [rule] is the field of that
    error. *)
Definition generatePV (gr : GenerateRequest) (resource : Unstructured)
    (rule : string) (cause : error) : PVInfo :=
  mkPVInfo false (SpecPolicy gr) resource
    [mkViolatedRule rule "Generation" (Error (Violation rule cause))].

Definition processGR (gr : GenerateRequest) : M (option error) :=
  do c <- getClient;
  match getResource c (SpecResource gr) with
  | inr err => ret (Some err)
  | inl resource =>
      do r <- applyGenerate resource gr;
      let '(genResources, err) := r in
      do _ <- match err with
              | Some (Violation rule cause) =>
                  emit (PVAddCall (generatePV gr resource rule cause))
              | _ => ret tt
              end;
      do _ <- emit (ReportEventsCall err gr resource);
      updateStatus gr err genResources
  end.
End Generate.

(** ** Package controller: the policy work queue *)

(** The rate limited work queue of client-go, as [PolicyController] uses
    it.  [queue] holds the items ready to be handed out, in order; [dirty]
    and [processing] are the sets the queue keeps to hand out no item
    twice at a time; [failures] is the rate limiter's count of requeues of
    each item; [waiting] holds the items added with a delay that has not
    elapsed yet.  The length of a delay is not represented. *)
Record WorkQueue : Type := mkWorkQueue {
  queue : list string;
  dirty : gset string;
  processing : gset string;
  failures : gmap string nat;
  waiting : list string;
  shuttingDown : bool
}.

Definition emptyWorkQueue : WorkQueue :=
  mkWorkQueue [] ∅ ∅ ∅ [] false.

Definition Add (item : string) (q : WorkQueue) : WorkQueue :=
  if shuttingDown q then q
  else if bool_decide (item ∈ dirty q) then q
  else if bool_decide (item ∈ processing q)
  then mkWorkQueue (queue q) ({[item]} ∪ dirty q) (processing q) (failures q)
         (waiting q) (shuttingDown q)
  else mkWorkQueue (queue q ++ [item]) ({[item]} ∪ dirty q) (processing q)
         (failures q) (waiting q) (shuttingDown q).

(** [Get] without the blocking: [None] when no item is ready. *)
Definition Get (q : WorkQueue) : option (string * WorkQueue) :=
  match queue q with
  | [] => None
  | item :: rest =>
      Some (item, mkWorkQueue rest (dirty q ∖ {[item]}) ({[item]} ∪ processing q)
                    (failures q) (waiting q) (shuttingDown q))
  end.

Definition Done (item : string) (q : WorkQueue) : WorkQueue :=
  if bool_decide (item ∈ dirty q)
  then mkWorkQueue (queue q ++ [item]) (dirty q) (processing q ∖ {[item]})
         (failures q) (waiting q) (shuttingDown q)
  else mkWorkQueue (queue q) (dirty q) (processing q ∖ {[item]})
         (failures q) (waiting q) (shuttingDown q).

Definition NumRequeues (item : string) (q : WorkQueue) : Z :=
  Z.of_nat (default 0%nat (failures q !! item)).

(** [AddRateLimited]: the rate limiter counts one more requeue of the item
    and the item is added once the delay it answers has elapsed. *)
Definition AddRateLimited (item : string) (q : WorkQueue) : WorkQueue :=
  mkWorkQueue (queue q) (dirty q) (processing q)
    (<[item := S (default 0%nat (failures q !! item))]> (failures q))
    (waiting q ++ [item]) (shuttingDown q).

Definition Forget (item : string) (q : WorkQueue) : WorkQueue :=
  mkWorkQueue (queue q) (dirty q) (processing q) (delete item (failures q))
    (waiting q) (shuttingDown q).

(** The delays of all waiting items elapse: each is added. *)
Definition elapse (q : WorkQueue) : WorkQueue :=
  fold_left (fun q' item => Add item q') (waiting q)
    (mkWorkQueue (queue q) (dirty q) (processing q) (failures q) []
       (shuttingDown q)).

(** What [PolicyController] needs from outside the file: the retry limit,
    a constant of the package, the policy lister, the key splitter of the
    cache package, and the text [fmt] gives a value under the verb
    [%#v]. *)
Class ControllerDeps : Type := {
  policyWorkQueueRetryLimit : Z;
  policyListerGet : string -> ClusterPolicy + error;
  SplitMetaNamespaceKey : string -> (string * string) + error;
  formatGoSyntax : value -> string
}.

(** The controller: its queue, and the errors given to
    [utilruntime.HandleError], which logs them.  The items of the queue are
    the keys [enqueuePolicy] adds, which are strings; [syncHandler] is
    handed an item as the [interface{}] it is. *)
Record PolicyController : Type := mkPolicyController {
  pcQueue : WorkQueue;
  handledErrors : list error
}.

Section Controller.
Context `{ControllerDeps}.

Definition handleErr (err : option error) (key : string)
    (pc : PolicyController) : PolicyController :=
  match err with
  | None => mkPolicyController (Forget key (pcQueue pc)) (handledErrors pc)
  | Some e =>
      if NumRequeues key (pcQueue pc) <? policyWorkQueueRetryLimit
      then mkPolicyController (AddRateLimited key (pcQueue pc)) (handledErrors pc)
      else mkPolicyController (Forget key (pcQueue pc)) (handledErrors pc ++ [e])
  end.

(** The error of [syncHandler] and the errors it hands to
    [utilruntime.HandleError]; [processPolicy] does not touch the queue
    and returns nothing.  The type assertion [obj.(string)] holds of the
    values that are a string. *)
Definition syncHandler (obj : value) : option error * list error :=
  match obj with
  | VString key =>
      match SplitMetaNamespaceKey key with
      | inr _ => (None, [ErrorString ("invalid policy key: " +:+ key)])
      | inl (_, name) =>
          match policyListerGet name with
          | inr err =>
              if IsNotFound (Some err)
              then (None, [ErrorString ("policy '" +:+ key
                                        +:+ "' in work queue no longer exists")])
              else (Some err, [])
          | inl _ => (None, [])
          end
      end
  | _ =>
      (Some (ErrorString ("expected string in workqueue but got "
                          +:+ formatGoSyntax obj)), [])
  end.

(** [processNextWorkItem]: [None] when there is nothing to get. *)
Definition processNextWorkItem (pc : PolicyController) : option PolicyController :=
  match Get (pcQueue pc) with
  | None => None
  | Some (obj, q) =>
      let '(err, handled) := syncHandler (VString obj) in
      let pc1 := mkPolicyController q (handledErrors pc ++ handled) in
      let pc2 := handleErr err obj pc1 in
      Some (mkPolicyController (Done obj (pcQueue pc2)) (handledErrors pc2))
  end.

(** One turn of a worker once the pending delays have elapsed; a worker
    that finds no item leaves the controller as it is. *)
Definition workerTurn (pc : PolicyController) : PolicyController :=
  let pc' := mkPolicyController (elapse (pcQueue pc)) (handledErrors pc) in
  default pc' (processNextWorkItem pc').
End Controller.

Arguments syncHandler : simpl never.

(** ** Package controller: [processPolicy] *)

(** The policy type of this file, [types.Policy] of the v1alpha1 API, as
    far as [processPolicy] reads it.  A rule has its kinds, the name
    pattern of its resource description, which is [None] when nil, and its
    label selector as the value it was decoded from. *)
Record AlphaRule : Type := mkAlphaRule {
  AlphaRuleName : string;
  AlphaKinds : list string;
  AlphaResourceName : option string;
  AlphaSelector : value
}.

Record AlphaPolicy : Type := mkAlphaPolicy {
  AlphaPolicyName : string;
  AlphaRules : list AlphaRule
}.

Record GroupVersionKind : Type := mkGroupVersionKind {
  Group : string;
  Version : string;
  GVKKind : string
}.

Record resourceInfo : Type := mkResourceInfo {
  rawResource : Unstructured;
  gvk : GroupVersionKind
}.

(** What [processPolicy] calls: the client, for the resource name of a kind
    and for the listing of a resource name in all namespaces under a
    selector; the marshaller and the group-version-kind of a resource; and
    the wildcard matcher.  The store does not change during the listing. *)
Class ProcessDeps : Type := {
  GetGVRFromKind : string -> string;
  ListResource : string -> string -> value -> list Unstructured + error;
  MarshalResource : Unstructured -> Unstructured + error;
  GetGroupVersionKind : Unstructured -> GroupVersionKind;
  wildcardMatch : string -> string -> bool
}.

(** A call of [applyPolicy]. *)
Inductive ApplyCall : Type :=
| ApplyPolicyCall (p : AlphaPolicy) (rawResource : Unstructured)
    (gvk : GroupVersionKind).

Section ProcessPolicy.
Context `{ProcessDeps}.

(** The body of the loop over [list.Items]. *)
Definition selectResource (rule : AlphaRule) (resources : list resourceInfo)
    (resource : Unstructured) : list resourceInfo :=
  let name := AlphaResourceName rule in
  let gvk := GetGroupVersionKind resource in
  match MarshalResource resource with
  | inr _ => resources
  | inl rawResource =>
      match name with
      | Some pattern =>
          if negb (wildcardMatch pattern (GetName resource)) then resources
          else resources ++ [mkResourceInfo rawResource gvk]
      | None => resources ++ [mkResourceInfo rawResource gvk]
      end
  end.

(** The body of the loop over [rule.Kinds]. *)
Definition selectKind (rule : AlphaRule) (resources : list resourceInfo)
    (k : string) : list resourceInfo :=
  match ListResource (GetGVRFromKind k) "" (AlphaSelector rule) with
  | inr _ => resources
  | inl items => fold_left (selectResource rule) items resources
  end.

(** The body of the loop over [p.Spec.Rules]. *)
Definition selectRule (resources : list resourceInfo) (rule : AlphaRule)
    : list resourceInfo :=
  fold_left (selectKind rule) (AlphaKinds rule) resources.

(** [resources] when the first loop of [processPolicy] is through. *)
Definition selectedResources (p : AlphaPolicy) : list resourceInfo :=
  fold_left selectRule (AlphaRules p) [].

(** [processPolicy]: the calls of [applyPolicy] it makes, in order. *)
Definition processPolicy (p : AlphaPolicy) : list ApplyCall :=
  map (fun r => ApplyPolicyCall p (rawResource r) (gvk r)) (selectedResources p).
End ProcessPolicy.

(** ** An instance of the interfaces

    The collaborators of the three packages, written after the component
    descriptions of the specification, over an in-memory resource store.
    The embedded functions above are evaluated with them on concrete
    policies and resources. *)
Module InMemory.

(** *** Variable references *)

Fixpoint splitOn (sep : ascii) (s : string) : list string :=
  match s with
  | EmptyString => [EmptyString]
  | String c s' =>
      if Ascii.eqb c sep then EmptyString :: splitOn sep s'
      else
        match splitOn sep s' with
        | [] => [String c EmptyString]
        | w :: ws => String c w :: ws
        end
  end.

Definition HasSuffix (s suffix : string) : bool :=
  let n := String.length s in
  let k := String.length suffix in
  (k <=? n)%nat && String.eqb (String.substring (n - k) k s) suffix.

(** Modelled from the spec: the variable-reference syntax of
    VariableSubstitution.  A string of the form [{{a.b.c}}] refers to the
    dot-path [a.b.c]. *)
Definition variablePath (s : string) : option (list string) :=
  if HasPrefix s "{{" && HasSuffix s "}}" && (4 <=? String.length s)%nat
  then Some (splitOn "." (String.substring 2 (String.length s - 4) s))
  else None.

Fixpoint lookupPath (v : value) (path : list string) : option value :=
  match path with
  | [] => Some v
  | k :: path' =>
      match v with
      | VMapping m =>
          match mapGet m k with
          | Some v' => lookupPath v' path'
          | None => None
          end
      | _ => None
      end
  end.

Definition stringsValue (l : option (list string)) : value :=
  match l with
  | None => VNull
  | Some l => VSequence (map VString l)
  end.

Definition userInfoValue (u : RequestInfo) : value :=
  VMapping [("roles", stringsValue (Roles u));
            ("clusterRoles", stringsValue (ClusterRoles u));
            ("userInfo", VMapping [("username", VString (Username u));
                                   ("uid", VString (UID u));
                                   ("groups", stringsValue (Groups u))])].

(** Modelled from the spec: the document an EvaluationContext holds, the
    triggering resource under [request.object], the caller's user info
    under [request], and the service-account identity. *)
Definition contextValue (ctx : EvalContext) : value :=
  let object :=
    match ctxResource ctx with
    | Some r => [("object", VMapping r)]
    | None => []
    end in
  let user :=
    match ctxUserInfo ctx with
    | Some u =>
        match userInfoValue u with VMapping m => m | _ => [] end
    | None => []
    end in
  let sa :=
    match ctxServiceAccount ctx with
    | Some s => [("serviceAccountName", VString s)]
    | None => []
    end in
  VMapping (("request", VMapping (object ++ user)) :: sa).

(** Modelled from the spec: VariableSubstitution on the overlay path.  It
    walks a nested value; a string that is a variable reference is
    resolved by dot-path lookup in the context, other strings pass
    through, and an unresolved reference is an error. *)
Fixpoint substituteVars (ctx : EvalContext) (v : value) : value + error :=
  match v with
  | VString s =>
      match variablePath s with
      | None => inl v
      | Some path =>
          match lookupPath (contextValue ctx) path with
          | Some v' => inl v'
          | None => inr (ErrorString ("could not resolve variable " +:+ s))
          end
      end
  | VSequence l =>
      let fix go (l : list value) : list value + error :=
        match l with
        | [] => inl []
        | x :: l' =>
            match substituteVars ctx x, go l' with
            | inl x', inl l'' => inl (x' :: l'')
            | inr e, _ => inr e
            | _, inr e => inr e
            end
        end in
      match go l with inl l' => inl (VSequence l') | inr e => inr e end
  | VMapping m =>
      let fix go (m : list (string * value)) : list (string * value) + error :=
        match m with
        | [] => inl []
        | (k, x) :: m' =>
            match substituteVars ctx x, go m' with
            | inl x', inl m'' => inl ((k, x') :: m'')
            | inr e, _ => inr e
            | _, inr e => inr e
            end
        end in
      match go m with inl m' => inl (VMapping m') | inr e => inr e end
  | _ => inl v
  end.

(** Modelled from the spec: VariableSubstitution as the generation
    attributes and the condition operands use it: the same walk, with the
    nil value in place of a reference that does not resolve. *)
Fixpoint substituteVariables (ctx : EvalContext) (v : value) : value :=
  match v with
  | VString s =>
      match variablePath s with
      | None => v
      | Some path => default VNull (lookupPath (contextValue ctx) path)
      end
  | VSequence l => VSequence (map (substituteVariables ctx) l)
  | VMapping m =>
      VMapping (map (fun kv => (fst kv, substituteVariables ctx (snd kv))) m)
  | _ => v
  end.

(** Structural equality of values. *)
Fixpoint value_eqb (a b : value) : bool :=
  match a, b with
  | VNull, VNull => true
  | VBool x, VBool y => Bool.eqb x y
  | VNumber x, VNumber y => (x =? y)%Z
  | VString x, VString y => String.eqb x y
  | VSequence l, VSequence l' =>
      (fix go (l l' : list value) : bool :=
         match l, l' with
         | [], [] => true
         | x :: l, y :: l' => value_eqb x y && go l l'
         | _, _ => false
         end) l l'
  | VMapping m, VMapping m' =>
      (fix go (m m' : list (string * value)) : bool :=
         match m, m' with
         | [], [] => true
         | (k, x) :: m, (k', y) :: m' =>
             String.eqb k k' && value_eqb x y && go m m'
         | _, _ => false
         end) m m'
  | _, _ => false
  end.

(** Modelled from the spec: ConditionEvaluator.  Variables are
    substituted into both operands, then the operator is applied; every
    condition must hold, and a condition with an operand that did not
    resolve or an unknown operator does not hold. *)
Definition evaluateCondition (ctx : EvalContext) (c : Condition) : bool :=
  let k := substituteVariables ctx (Key c) in
  let v := substituteVariables ctx (CondValue c) in
  if isNil k || isNil v then false
  else if String.eqb (Operator c) "Equal" then value_eqb k v
  else if String.eqb (Operator c) "NotEqual" then negb (value_eqb k v)
  else false.

Definition evaluateConditions (ctx : EvalContext) (cs : list Condition) : bool :=
  forallb (evaluateCondition ctx) cs.

(** Modelled from the spec: ResourceMatcher, on the criteria a
    [ResourceDescription] has here: the kind, the name when the rule
    gives one (["*"] matches every name), and the namespace when the rule
    gives any.  A mismatch is a reason, not a failure. *)
Definition matchesResourceDescription (resource : Unstructured) (rule : Rule)
    (admissionInfo : RequestInfo) : option error :=
  let d := MatchResources rule in
  if negb (existsb (String.eqb (GetKind resource)) (Kinds d))
  then Some (ErrorString "kind does not match")
  else if negb (String.eqb (DescName d) "" || String.eqb (DescName d) "*"
                || String.eqb (DescName d) (GetName resource))
  then Some (ErrorString "name does not match")
  else if negb (isNone (head (Namespaces d))
                || existsb (String.eqb (GetNamespace resource)) (Namespaces d))
  then Some (ErrorString "namespace does not match")
  else None.

(** *** The overlay engine *)

(** Modelled from the spec: the authoring convention [+(name)] of an
    overlay key, insert only if the field is absent. *)
Definition addAnchor (k : string) : option string :=
  if HasPrefix k "+(" && HasSuffix k ")" && (3 <=? String.length k)%nat
  then Some (String.substring 2 (String.length k - 3) k)
  else None.

(** A subtree that is added whole carries its keys without the
    convention. *)
Fixpoint stripAnchors (v : value) : value :=
  match v with
  | VSequence l => VSequence (map stripAnchors l)
  | VMapping m =>
      VMapping (map (fun kv => (default (fst kv) (addAnchor (fst kv)),
                                stripAnchors (snd kv))) m)
  | _ => v
  end.

Inductive shape : Type := ScalarShape | SequenceShape | MappingShape.

Definition shapeOf (v : value) : shape :=
  match v with
  | VSequence _ => SequenceShape
  | VMapping _ => MappingShape
  | _ => ScalarShape
  end.

Definition shape_eqb (a b : shape) : bool :=
  match a, b with
  | ScalarShape, ScalarShape
  | SequenceShape, SequenceShape
  | MappingShape, MappingShape => true
  | _, _ => false
  end.

Definition indexString (i : nat) : string :=
  match i with
  | O => "0"
  | _ => NilEmpty.string_of_uint (Nat.to_uint i)
  end.

Definition child (path k : string) : string := path +:+ "/" +:+ k.

(** Modelled from the spec: the rules of OverlayPatchEngine.  The patch
    that makes the overlapping fields of [target] match [overlay], with
    the patched value, or the path-qualified message of a structural
    mismatch.
    - Scalars: the pattern value replaces a different target value.
    - Mappings: each pattern key against the same key of the target; a
      missing key is added, a present one is processed recursively; a key
      written [+(name)] is added when [name] is absent and left alone
      when it is present.
    - Sequences: element by element at equal indexes; an element of
      another shape than the target's is a failure. *)
Fixpoint applyOverlay (overlay target : value) (path : string) {struct overlay}
    : (list Patch * value) + string :=
  match overlay, target with
  | VMapping om, VMapping tm =>
      let fix go (om : list (string * value)) (tm : JSONMap) (acc : list Patch)
          : (list Patch * JSONMap) + string :=
        match om with
        | [] => inl (acc, tm)
        | (k, v) :: om' =>
            match addAnchor k with
            | Some name =>
                match mapGet tm name with
                | Some _ => go om' tm acc
                | None =>
                    go om' (mapSet tm name (stripAnchors v))
                      (acc ++ [mkPatch (child path name) "add" (stripAnchors v)])
                end
            | None =>
                match mapGet tm k with
                | None =>
                    go om' (mapSet tm k (stripAnchors v))
                      (acc ++ [mkPatch (child path k) "add" (stripAnchors v)])
                | Some tv =>
                    match applyOverlay v tv (child path k) with
                    | inr msg => inr msg
                    | inl (ps, tv') => go om' (mapSet tm k tv') (acc ++ ps)
                    end
                end
            end
        end in
      match go om tm [] with
      | inl (ps, tm') => inl (ps, VMapping tm')
      | inr msg => inr msg
      end
  | VSequence ol, VSequence tl =>
      let fix go (ol tl : list value) (i : nat) : (list Patch * list value) + string :=
        match ol with
        | [] => inl ([], tl)
        | o :: ol' =>
            let here := child path (indexString i) in
            match tl with
            | [] =>
                match go ol' [] (S i) with
                | inl (ps, rest) =>
                    inl (mkPatch here "add" (stripAnchors o) :: ps,
                         stripAnchors o :: rest)
                | inr msg => inr msg
                end
            | t :: tl' =>
                if negb (shape_eqb (shapeOf o) (shapeOf t))
                then inr ("overlay does not fit the resource at " +:+ here)
                else
                  match applyOverlay o t here with
                  | inr msg => inr msg
                  | inl (ps, t') =>
                      match go ol' tl' (S i) with
                      | inl (ps', rest) => inl (ps ++ ps', t' :: rest)
                      | inr msg => inr msg
                      end
                  end
            end
        end in
      match go ol tl O with
      | inl (ps, tl') => inl (ps, VSequence tl')
      | inr msg => inr msg
      end
  | _, _ =>
      if value_eqb overlay target then inl ([], target)
      else inl ([mkPatch path "replace" (stripAnchors overlay)],
                stripAnchors overlay)
  end.

(** Modelled from the spec: the result of [ProcessOverlay].  Nil patches
    and success when the target already satisfies the pattern, the
    patches and the patched resource on success, a response without
    success and the resource as it was on a structural mismatch.  The
    overlay of a rule value is the overlay of its mutation. *)
Definition processOverlay (ruleName : string) (overlay : overlayArg)
    (resource : Unstructured) : RuleResponse * Unstructured :=
  let pattern :=
    match overlay with
    | OverlayValue v => v
    | OverlayRule r => Overlay (RuleMutation r)
    end in
  match applyOverlay pattern (VMapping resource) "" with
  | inr msg => (mkRuleResponse ruleName "Mutation" msg None false, resource)
  | inl ([], _) =>
      (mkRuleResponse ruleName "Mutation" "resource satisfies the overlay"
         None true, resource)
  | inl (ps, VMapping m) =>
      (mkRuleResponse ruleName "Mutation" "overlay applied" (Some ps) true, m)
  | inl (_, _) =>
      (mkRuleResponse ruleName "Mutation" "overlay is not a mapping" None false,
       resource)
  end.

(** *** Literal patches *)

Fixpoint mapRemove (m : JSONMap) (k : string) : JSONMap :=
  match m with
  | [] => []
  | (k', v) :: m' =>
      if String.eqb k' k then mapRemove m' k else (k', v) :: mapRemove m' k
  end.

(** One operation at a path through mappings; [None] when it fails. *)
Fixpoint applyAt (op : string) (path : list string) (new : value) (v : value)
    : option value :=
  match path, v with
  | [k], VMapping m =>
      if String.eqb op "add" then Some (VMapping (mapSet m k new))
      else if String.eqb op "replace" then
        match mapGet m k with
        | Some _ => Some (VMapping (mapSet m k new))
        | None => None
        end
      else if String.eqb op "remove" then
        match mapGet m k with
        | Some _ => Some (VMapping (mapRemove m k))
        | None => None
        end
      else if String.eqb op "test" then
        match mapGet m k with
        | Some old => if value_eqb old new then Some v else None
        | None => None
        end
      else None
  | k :: path', VMapping m =>
      match mapGet m k with
      | Some sub =>
          match applyAt op path' new sub with
          | Some sub' => Some (VMapping (mapSet m k sub'))
          | None => None
          end
      | None => None
      end
  | _, _ => None
  end.

Definition applyPatch (p : Patch) (v : value) : option value :=
  match splitOn "/" (Path p) with
  | "" :: path => applyAt (Operation p) path (PatchValue p) v
  | _ => None
  end.

(** Modelled from the spec: RawPatchApplier.  The operations of the rule
    are applied in order, all or nothing: when one fails the resource is
    left as it was and the response carries the failure. *)
Definition processPatches (rule : Rule) (resource : Unstructured)
    : RuleResponse * Unstructured :=
  let ops := default [] (Patches (RuleMutation rule)) in
  let step (acc : option value) (p : Patch) : option value :=
    match acc with
    | Some v => applyPatch p v
    | None => None
    end in
  match fold_left step ops (Some (VMapping resource)) with
  | Some (VMapping m) =>
      (mkRuleResponse (RuleName rule) "Mutation" "patches applied" (Some ops) true, m)
  | _ =>
      (mkRuleResponse (RuleName rule) "Mutation" "a patch operation failed"
         None false, resource)
  end.

(** *** The instances for package engine *)

(** Modelled from the spec: the texts of the errors of the reconciler, one
    per kind of the taxonomy; a [Violation] and a [ParseFailed] quote their
    cause. *)
#[export] Instance errorText : ErrorText :=
  fix text (e : error) : string :=
    match e with
    | ParseFailed _ e' => "failed to parse the resource spec: " +:+ text e'
    | NotFound k ns n => "resource " +:+ k +:+ "/" +:+ ns +:+ "/" +:+ n +:+ " not present"
    | ConfigNotFound _ k ns n =>
        "configuration not present in resource " +:+ k +:+ "/" +:+ ns +:+ "/" +:+ n
    | Violation r e' => "creating Violation; error " +:+ text e'
    | StatusError _ msg => msg
    | ErrorString msg => msg
    end.

#[export] Instance engineDeps : EngineDeps := {|
  MatchesResourceDescription := matchesResourceDescription;
  EvaluateConditions := evaluateConditions;
  SubstituteVars := substituteVars;
  ProcessOverlay := processOverlay;
  ProcessPatches := processPatches
|}.

(** *** The resource store and the instances for package generate *)

(** Modelled from the spec: the resource-store contract.  [get] answers the
    object or NotFound; [create] answers an error when the object exists
    already and, unless it is a dry run, stores the object otherwise. *)
Definition storeGet (c : gmap (string * string * string) Unstructured)
    (kind namespace name : string) : Unstructured + error :=
  match c !! (kind, namespace, name) with
  | Some u => inl u
  | None =>
      inr (StatusError StatusReasonNotFound
             (kind +:+ " " +:+ namespace +:+ "/" +:+ name +:+ " not found"))
  end.

Definition storeCreate (c : gmap (string * string * string) Unstructured)
    (kind namespace : string) (obj : Unstructured) (dryRun : bool)
    : gmap (string * string * string) Unstructured * option error :=
  match c !! (kind, namespace, GetName obj) with
  | Some _ =>
      (c, Some (StatusError StatusReasonAlreadyExists
                  (kind +:+ " " +:+ namespace +:+ "/" +:+ GetName obj
                   +:+ " already exists")))
  | None =>
      if dryRun then (c, None)
      else (<[(kind, namespace, GetName obj) := obj]> c, None)
  end.

(** Modelled from the spec: subset validation.  The fields of the pattern
    must all be present with equal values in the resource; sequences are
    compared element by element.  The answer is the path of the first field
    that is not, if any. *)
Fixpoint subsetAt (pattern resource : value) (path : string) {struct pattern}
    : option string :=
  match pattern, resource with
  | VMapping pm, VMapping rm =>
      (fix go (pm : list (string * value)) : option string :=
         match pm with
         | [] => None
         | (k, v) :: pm' =>
             match mapGet rm k with
             | None => Some (child path k)
             | Some rv =>
                 match subsetAt v rv (child path k) with
                 | Some bad => Some bad
                 | None => go pm'
                 end
             end
         end) pm
  | VSequence pl, VSequence rl =>
      (fix go (pl rl : list value) (i : nat) : option string :=
         match pl, rl with
         | [], _ => None
         | _ :: _, [] => Some (child path (indexString i))
         | v :: pl', rv :: rl' =>
             match subsetAt v rv (child path (indexString i)) with
             | Some bad => Some bad
             | None => go pl' rl' (S i)
             end
         end) pl rl O
  | _, _ => if value_eqb pattern resource then None else Some path
  end.

Definition validateResourceWithPattern (ctx : EvalContext)
    (resource : Unstructured) (pattern : value) : string * option error :=
  match subsetAt pattern (VMapping resource) "" with
  | Some bad => (bad, Some (ErrorString ("validation failed at " +:+ bad)))
  | None => ("", None)
  end.

(** [runtime.DefaultUnstructuredConverter.ToUnstructured] of the API
    machinery, which [handleData] calls on a pointer to the substituted
    template, with a map as the destination.  A mapping converts to itself, and nil to the nil
    map, both without an error; a sequence does not convert, and the
    converter answers an error.  On a text, a number or a boolean the
    converter panics; a panic is not among the answers of this function,
    which is to be read on mappings, sequences and nil only, as the
    templates of the examples are. *)
Definition toUnstructured (v : value) : option JSONMap * option error :=
  match v with
  | VMapping m => (Some m, None)
  | VNull => (None, None)
  | VSequence _ => (None, Some (ErrorString "cannot convert slice to: map"))
  | VBool _ | VNumber _ | VString _ =>
      (None, Some (ErrorString "panic: reflect.Set: value is not assignable to a map"))
  end.

Definition metadataOf (u : Unstructured) : JSONMap :=
  match mapGet u "metadata" with
  | Some (VMapping m) => m
  | _ => []
  end.

(** A setter of a metadata field of [unstructured.Unstructured] of the API
    machinery.  The empty string removes the field, and
    creates no metadata where there is none; another string is written
    into the metadata, which is created when the object has none.  An
    object whose [metadata] is not a mapping is left as it is. *)
Definition setMetadata (field v : string) (u : Unstructured) : Unstructured :=
  match mapGet u "metadata" with
  | Some (VMapping m) =>
      mapSet u "metadata"
        (VMapping (if String.eqb v "" then mapRemove m field
                   else mapSet m field (VString v)))
  | Some _ => u
  | None =>
      if String.eqb v "" then u
      else mapSet u "metadata" (VMapping [(field, VString v)])
  end.

(** The creation time of a stored object is the number under
    [metadata.creationTimestamp], and zero without one. *)
Definition getCreationTimestamp (u : Unstructured) : Z :=
  match mapGet (metadataOf u) "creationTimestamp" with
  | Some (VNumber n) => n
  | _ => 0
  end.

Definition listerGet (policies : list ClusterPolicy) (name : string)
    : ClusterPolicy + error :=
  match find (fun p => String.eqb (PolicyName p) name) policies with
  | Some p => inl p
  | None => inr (StatusError StatusReasonNotFound ("policy " +:+ name +:+ " not found"))
  end.

(** Modelled from the spec: [engine.GenerateNew], by which the reconciler
    checks that the policy still applies to the resource.  It answers one
    response for each generate rule of the policy whose resource
    description the resource matches. *)
Definition generateNew (pc : PolicyContext) : EngineResponse :=
  let resource := NewResource pc in
  let matching :=
    filter (fun r => HasGenerate r
                     && isNone (matchesResourceDescription resource r (AdmissionInfo pc)))
      (Rules (Policy pc)) in
  mkEngineResponse resource
    (mkPolicyResponse (PolicyName (Policy pc))
       (mkResourceSpec (GetKind resource) (GetNamespace resource) (GetName resource))
       (GetAPIVersion resource) 0
       (map (fun r => mkRuleResponse (RuleName r) "Generation" "" None true) matching)).

(** The collaborators of the reconciler over the store, for the policies
    the lister knows.  The status control accepts every write. *)
Definition generateDeps (policies : list ClusterPolicy) : GenerateDeps := {|
  Client := gmap (string * string * string) Unstructured;
  GetResource := storeGet;
  CreateResource := storeCreate;
  getResource := fun c r => storeGet c (Kind r) (Namespace r) (Name r);
  pListerGet := listerGet policies;
  MarshalJSON := inl;
  GenerateNew := generateNew;
  SubstituteVariables := substituteVariables;
  ToUnstructured := toUnstructured;
  ValidateResourceWithPattern := validateResourceWithPattern;
  GetCreationTimestamp := getCreationTimestamp;
  SetUnstructuredContent := default [];
  SetName := setMetadata "name";
  SetNamespace := setMetadata "namespace";
  SetResourceVersion := setMetadata "resourceVersion";
  statusControlFailed := fun _ _ _ => None;
  statusControlSuccess := fun _ _ => None
|}.

(** *** The instance for package controller *)

Definition splitMetaNamespaceKey (key : string) : (string * string) + error :=
  match splitOn "/" key with
  | [name] => inl ("", name)
  | [namespace; name] => inl (namespace, name)
  | _ => inr (ErrorString ("unexpected key format: " +:+ key))
  end.

Definition quoted (s : string) : string :=
  String (ascii_of_nat 34) s +:+ String (ascii_of_nat 34) EmptyString.

(** The text of a value in Go syntax, as [fmt] prints the values decoded
    from JSON under [%#v]; the entries of a mapping are printed in their
    order here. *)
Fixpoint goSyntax (v : value) : string :=
  match v with
  | VNull => "<nil>"
  | VBool b => if b then "true" else "false"
  | VNumber n =>
      if n <? 0 then "-" +:+ indexString (Z.to_nat (- n))
      else indexString (Z.to_nat n)
  | VString s => quoted s
  | VSequence l =>
      "[]interface {}{"
      +:+ (fix go (l : list value) : string :=
             match l with
             | [] => ""
             | [x] => goSyntax x
             | x :: l' => goSyntax x +:+ ", " +:+ go l'
             end) l
      +:+ "}"
  | VMapping m =>
      "map[string]interface {}{"
      +:+ (fix go (m : list (string * value)) : string :=
             match m with
             | [] => ""
             | [(k, x)] => quoted k +:+ ":" +:+ goSyntax x
             | (k, x) :: m' => quoted k +:+ ":" +:+ goSyntax x +:+ ", " +:+ go m'
             end) m
      +:+ "}"
  end.

Definition controllerDeps (limit : Z) (lister : string -> ClusterPolicy + error)
    : ControllerDeps := {|
  policyWorkQueueRetryLimit := limit;
  policyListerGet := lister;
  SplitMetaNamespaceKey := splitMetaNamespaceKey;
  formatGoSyntax := goSyntax
|}.
End InMemory.

(** ** Notions the properties are stated with *)

(** The three gates at the head of the loop body of [Mutate], lines 40 to
    61: they read the resource of the request and its evaluation context,
    and nothing of the state of the loop. *)
Definition ruleGate `{EngineDeps} (pc : PolicyContext) (rule : Rule) : bool :=
  (HasMutate rule || Contains PodControllers (GetKind (NewResource pc)))
  && isNone (MatchesResourceDescription (NewResource pc) rule (AdmissionInfo pc))
  && EvaluateConditions (Ctx pc) (copyConditions (Conditions rule)).

(** The collaborators of [Mutate] with another matcher and another
    condition evaluator. *)
Definition withGates (E : EngineDeps)
    (matcher : Unstructured -> Rule -> RequestInfo -> option error)
    (evaluator : EvalContext -> list Condition -> bool) : EngineDeps := {|
  MatchesResourceDescription := matcher;
  EvaluateConditions := evaluator;
  SubstituteVars := @SubstituteVars E;
  ProcessOverlay := @ProcessOverlay E;
  ProcessPatches := @ProcessPatches E
|}.

(** The reading of the specification of the loop of [Mutate]: a rule is
    evaluated against the resource as the rules before it have patched it,
    by its matcher and its conditions as well as by its overlay. *)
Definition mutateRuleThreaded `{EngineDeps} `{ErrorText} (pc : PolicyContext)
    (st : mutateState) (rule : Rule) : mutateState :=
  let patchedResource := snd st in
  mutateRule
    (mkPolicyContext (Policy pc) patchedResource (AdmissionInfo pc)
       (AddResource patchedResource (Ctx pc)))
    st rule.

Definition MutateThreaded `{EngineDeps} `{ErrorText} (pc : PolicyContext)
    : EngineResponse :=
  let resp :=
    startMutateResultResponse zeroPolicyResponse (Policy pc) (NewResource pc) in
  let '(resp', patchedResource) :=
    fold_left (mutateRuleThreaded pc) (Rules (Policy pc)) (resp, NewResource pc) in
  mkEngineResponse patchedResource resp'.

(** The reading of the specification of what a rule hands on to the next:
    the resource it was given when it does not pass the gates; otherwise
    the resource it was given after the overlay of the rule, then after
    its literal patches applied to the result of the overlay, then, for a
    caller identity and a pod-controller kind, after the autogen overlay
    applied to the result of the patches.  The rule ends after its overlay
    when the substitution of the overlay fails, which leaves the resource as it
    was given, and when the overlay succeeds without patches. *)
Definition threadedResource `{EngineDeps} (pc : PolicyContext)
    (patched : Unstructured) (rule : Rule) : Unstructured :=
  if negb (ruleGate pc rule) then patched
  else
    let overlay := Overlay (RuleMutation rule) in
    let overlaid : Unstructured * bool :=
      if isNil overlay then (patched, true)
      else
        match SubstituteVars (Ctx pc) overlay with
        | inr _ => (patched, false)
        | inl overlay' =>
            let '(rr, patched') :=
              ProcessOverlay (RuleName rule) (OverlayValue overlay') patched in
            (patched', negb (Success rr && isNone (RespPatches rr)))
        end in
    if negb (snd overlaid) then fst overlaid
    else
      let patched1 :=
        if isNone (Patches (RuleMutation rule)) then fst overlaid
        else snd (ProcessPatches rule (fst overlaid)) in
      if bool_decide (AdmissionInfo pc = emptyRequestInfo) then patched1
      else if Contains PodControllers (GetKind (NewResource pc))
      then snd (ProcessOverlay (RuleName rule) (OverlayRule podTemplateRule) patched1)
      else patched1.

(** The state a phase of the loop body leaves, however it ends. *)
Definition flowState (f : flow) : mutateState :=
  match f with
  | Continue st => st
  | Proceed st => st
  end.

(** The overlay of the rule, if it has one, goes through the variable
    substitution. *)
Definition overlaySubstitutes `{EngineDeps} (ctx : EvalContext) (rule : Rule) : Prop :=
  isNil (Overlay (RuleMutation rule)) = true
  \/ exists overlay' : value,
       SubstituteVars ctx (Overlay (RuleMutation rule)) = inl overlay'.

(** [n] increments of the applied count. *)
Definition incremented (n : nat) (count : Z) : Z :=
  Nat.iter n (fun c => int_wrap (c + 1)) count.

(** The responses of a list that carry patches. *)
Definition withPatches (rs : list RuleResponse) : list RuleResponse :=
  filter (fun r => negb (isNone (RespPatches r))) rs.

(** [sub] occurs in [s]. *)
Definition occursIn (sub s : string) : Prop :=
  exists pre post : string, s = pre +:+ sub +:+ post.

(** The calls a computation adds to the calls made before it. *)
Definition callsAdded `{GenerateDeps} (before after : World) (added : list Call) : Prop :=
  calls after = calls before ++ added.

(** The calls of a violation record: one for a [Violation], none for
    another error or for none. *)
Definition violationCalls `{ErrorText} (gr : GenerateRequest)
    (resource : Unstructured) (err : option error) : list Call :=
  match err with
  | Some (Violation rule cause) => [PVAddCall (generatePV gr resource rule cause)]
  | _ => []
  end.

(** The terminal status call of a pass that ends with [err]. *)
Definition statusCall `{ErrorText} (gr : GenerateRequest) (err : option error)
    (gens : list ResourceSpec) : Call :=
  match err with
  | Some e => StatusFailedCall gr (Error e) gens
  | None => StatusSuccessCall gr gens
  end.

(** Modelled from the spec: the status-control collaborator, whose
    [success] and [failed] are each a single terminal write: the state a
    status call leaves the request in. *)
Definition stateWritten (c : Call) : option GenerateRequestState :=
  match c with
  | StatusFailedCall _ _ _ => Some Failed
  | StatusSuccessCall _ _ => Some Completed
  | _ => None
  end.

(** The state of the request after a pass: the state of the last status
    call the pass made, and the state the request had when none was made. *)
Definition stateAfter (gr : GenerateRequest) (added : list Call) : GenerateRequestState :=
  default (State gr) (last (omap stateWritten added)).

(** The controller after [enqueuePolicy] has added the key to the empty
    queue. *)
Definition enqueued (key : string) : PolicyController :=
  mkPolicyController (Add key emptyWorkQueue) [].

(** The controller with the key ready to be handed out and the requeue
    counts [f]. *)
Definition readyController (key : string) (f : gmap string nat) : PolicyController :=
  mkPolicyController (mkWorkQueue [key] ({[key]} ∪ ∅) ∅ f [] false) [].



(** [n] turns of a worker. *)
Definition turns `{ControllerDeps} (n : nat) (pc : PolicyController)
    : PolicyController :=
  Nat.iter n workerTurn pc.

(** The part of a response that names the policy and the resource. *)
Definition header (resp : PolicyResponse) : string * ResourceSpec * string :=
  (RespPolicy resp, RespResource resp, RespAPIVersion resp).

(** The request with other rules in its policy. *)
Definition withRules (rules : list Rule) (pc : PolicyContext) : PolicyContext :=
  mkPolicyContext
    (mkClusterPolicy (PolicyName (Policy pc)) (PolicyCreationTimestamp (Policy pc))
       rules)
    (NewResource pc) (AdmissionInfo pc) (Ctx pc).

(** The response [resp'] is [resp] with at most [n] responses appended and
    its count incremented [k] times, where [k] is at most [m] and at most
    the number of responses appended. *)
Definition extends (n m : nat) (resp resp' : PolicyResponse) : Prop :=
  exists (added : list RuleResponse) (k : nat),
    RespRules resp' = RespRules resp ++ added
    /\ (length added <= n)%nat
    /\ (k <= length added)%nat
    /\ (k <= m)%nat
    /\ RulesAppliedCount resp' = incremented k (RulesAppliedCount resp).

(** The object [applyRule] hands to [CreateResource]: the payload with the
    name and the namespace of the rule and without a resource version. *)
Definition newResourceOf `{GenerateDeps} (gen : Generation)
    (rdata : option JSONMap) : Unstructured :=
  SetResourceVersion ""
    (SetNamespace (Namespace (GenSpec gen))
       (SetName (Name (GenSpec gen)) (SetUnstructuredContent rdata))).

(** The [ResourceSpec] of the target of a rule. *)
Definition targetOf (gen : Generation) : ResourceSpec :=
  mkResourceSpec (Kind (GenSpec gen)) (Namespace (GenSpec gen)) (Name (GenSpec gen)).

(** The policy context [applyGenerate] builds for a request. *)
Definition contextFor (policy : ClusterPolicy) (resource raw : Unstructured)
    (gr : GenerateRequest) : PolicyContext :=
  mkPolicyContext policy resource (UserRequestInfo gr)
    (AddSA (Username (UserRequestInfo gr))
       (AddUserInfo (UserRequestInfo gr) (AddResource raw NewContext))).

(** What a listed resource contributes under a rule: itself, marshalled
    and with its group-version-kind, when it marshals and its name matches
    the pattern of the rule, if the rule has one. *)
Definition chosen `{ProcessDeps} (rule : AlphaRule) (resource : Unstructured)
    : list resourceInfo :=
  match MarshalResource resource with
  | inr _ => []
  | inl raw =>
      if match AlphaResourceName rule with
         | Some pattern => wildcardMatch pattern (GetName resource)
         | None => true
         end
      then [mkResourceInfo raw (GetGroupVersionKind resource)]
      else []
  end.

(** The items of the listing of a kind under a rule, none when the listing
    fails. *)
Definition listed `{ProcessDeps} (rule : AlphaRule) (k : string) : list Unstructured :=
  match ListResource (GetGVRFromKind k) "" (AlphaSelector rule) with
  | inl items => items
  | inr _ => []
  end.

(** ** Policies, resources and requests the functions are evaluated on *)
Module Examples.
Import InMemory.

Definition admin : RequestInfo := mkRequestInfo None None "admin" "" None None.

(** *** Mutation *)

Definition pod : Unstructured :=
  [("apiVersion", VString "v1"); ("kind", VString "Pod");
   ("metadata", VMapping [("name", VString "web"); ("labels", VMapping [])]);
   ("spec", VMapping [("containers", VSequence [VString "nginx"])])].

Definition podWithLabel : Unstructured :=
  [("apiVersion", VString "v1"); ("kind", VString "Pod");
   ("metadata", VMapping [("name", VString "web");
                          ("labels", VMapping [("a", VString "1")])]);
   ("spec", VMapping [("containers", VSequence [VString "nginx"])])].

Definition anyPod : ResourceDescription := mkResourceDescription ["Pod"] "" [].

Definition labelOverlay (k v : string) : value :=
  VMapping [("metadata", VMapping [("labels", VMapping [(k, VString v)])])].

(** R1 adds the label [a=1]. *)
Definition addLabel : Rule :=
  mkRule "add-label" anyPod [] (mkMutation (labelOverlay "a" "1") None)
    emptyGeneration.

(** A rule that adds the label [b=2] without a condition. *)
Definition addSecondLabel : Rule :=
  mkRule "add-second-label" anyPod [] (mkMutation (labelOverlay "b" "2") None)
    emptyGeneration.

(** R2 requires the label [a=1] of the resource of the request and adds
    the label [b=2]. *)
Definition needsLabel : Rule :=
  mkRule "needs-label" anyPod
    [mkCondition (VString "{{request.object.metadata.labels.a}}") "Equal"
       (VString "1")]
    (mkMutation (labelOverlay "b" "2") None) emptyGeneration.

Definition requestFor (rules : list Rule) (resource : Unstructured)
    (who : RequestInfo) : PolicyContext :=
  mkPolicyContext (mkClusterPolicy "policy" 100 rules) resource who
    (AddSA (Username who) (AddUserInfo who (AddResource resource NewContext))).

(** An overlay whose sequence element is a mapping where the resource has
    a string: a structural mismatch. *)
Definition misfit : Rule :=
  mkRule "misfit" anyPod []
    (mkMutation
       (VMapping [("spec", VMapping [("containers",
          VSequence [VMapping [("name", VString "nginx")]])])]) None)
    emptyGeneration.

(** An overlay the pod satisfies already. *)
Definition compliant : Rule :=
  mkRule "compliant" anyPod []
    (mkMutation (VMapping [("kind", VString "Pod")]) None) emptyGeneration.

(** A literal patch that fails: it replaces a field the pod does not
    have. *)
Definition badPatch : Rule :=
  mkRule "bad-patch" anyPod []
    (mkMutation VNull (Some [mkPatch "/metadata/owner" "replace" (VString "x")]))
    emptyGeneration.

Definition deployment : Unstructured :=
  [("apiVersion", VString "apps/v1"); ("kind", VString "Deployment");
   ("metadata", VMapping [("name", VString "web")]);
   ("spec", VMapping [("template", VMapping [("metadata",
      VMapping [("labels", VMapping [])])])])].

(** A rule without a mutation, as a rule that only validates is. *)
Definition checkOnly (kind : string) : Rule :=
  mkRule "check-only" (mkResourceDescription [kind] "" []) []
    (mkMutation VNull None) emptyGeneration.

(** The response of the overlay engine to [misfit] on the pod. *)
Definition misfitResponse : RuleResponse :=
  mkRuleResponse "misfit" "Mutation"
    "overlay does not fit the resource at /spec/containers/0" None false.

(** The response of the overlay engine to [compliant] on the pod. *)
Definition compliantResponse : RuleResponse :=
  mkRuleResponse "compliant" "Mutation" "resource satisfies the overlay" None true.

(** The response of the autogen overlay on the deployment, and the
    deployment it leaves. *)
Definition autogenResponse : RuleResponse :=
  mkRuleResponse "check-only" "Mutation" "overlay applied"
    (Some [mkPatch "/spec/template/metadata/annotations" "add"
             (VMapping [("pod-policies.kyverno.io/autogen-applied", VString "true")])])
    true.

Definition annotatedDeployment : Unstructured :=
  [("apiVersion", VString "apps/v1"); ("kind", VString "Deployment");
   ("metadata", VMapping [("name", VString "web")]);
   ("spec", VMapping [("template", VMapping [("metadata",
      VMapping [("labels", VMapping []);
                ("annotations", VMapping
                   [("pod-policies.kyverno.io/autogen-applied", VString "true")])])])])].

(** A resource whose kind is a part of a controller kind's name. *)
Definition setResource : Unstructured :=
  [("apiVersion", VString "example.io/v1"); ("kind", VString "Set");
   ("metadata", VMapping [("name", VString "s")]);
   ("spec", VMapping [])].

(** The request of the sequential-visibility scenario: R1, then R2. *)
Definition sequentialRequest : PolicyContext :=
  requestFor [addLabel; needsLabel] pod admin.

(** A matcher and an evaluator that answer as the in-memory ones on the
    resource and the context of [sequentialRequest] and refuse everything
    else, the pod with the label included. *)
Definition strictMatcher (resource : Unstructured) (rule : Rule)
    (who : RequestInfo) : option error :=
  if value_eqb (VMapping resource) (VMapping pod)
  then matchesResourceDescription resource rule who
  else Some (ErrorString "not the resource of the request").

Definition strictEvaluator (ctx : EvalContext) (cs : list Condition) : bool :=
  if value_eqb (contextValue ctx) (contextValue (Ctx sequentialRequest))
  then evaluateConditions ctx cs
  else false.

(** *** Generation *)

Definition namespaceAt (created : Z) : Unstructured :=
  [("apiVersion", VString "v1"); ("kind", VString "Namespace");
   ("metadata", VMapping [("name", VString "dev");
                          ("creationTimestamp", VNumber created)])].

Definition anyNamespace : ResourceDescription :=
  mkResourceDescription ["Namespace"] "" [].

Definition configTemplate : value :=
  VMapping [("data", VMapping [("k", VString "v")])].

(** Data mode: a ConfigMap named [defaults] in the namespace that triggers
    the rule. *)
Definition dataRule : Rule :=
  mkRule "default-config" anyNamespace [] (mkMutation VNull None)
    (mkGeneration
       (mkResourceSpec "ConfigMap" "{{request.object.metadata.name}}" "defaults")
       configTemplate (mkCloneFrom "" "")).

(** Data mode with a template that is a sequence, not a mapping. *)
Definition listRule : Rule :=
  mkRule "list-config" anyNamespace [] (mkMutation VNull None)
    (mkGeneration
       (mkResourceSpec "ConfigMap" "{{request.object.metadata.name}}" "notes")
       (VSequence [VMapping [("data", VMapping [("k", VString "v")])]])
       (mkCloneFrom "" "")).

(** Clone mode: a Secret copied from [default/regcred]. *)
Definition cloneRule : Rule :=
  mkRule "clone-secret" anyNamespace [] (mkMutation VNull None)
    (mkGeneration
       (mkResourceSpec "Secret" "{{request.object.metadata.name}}" "regcred")
       VNull (mkCloneFrom "default" "regcred")).

Definition policyOf (rules : list Rule) : ClusterPolicy :=
  mkClusterPolicy "generate-defaults" 100 rules.

Definition requestIn (state : GenerateRequestState) : GenerateRequest :=
  mkGenerateRequest "generate-defaults" (mkResourceSpec "Namespace" "" "dev")
    admin state.

(** The store with the namespace, created after the policy or before
    it. *)
Definition storeWith (created : Z) : gmap (string * string * string) Unstructured :=
  <[("Namespace", "", "dev") := namespaceAt created]> ∅.

Definition configMap : Unstructured :=
  [("data", VMapping [("k", VString "v")]);
   ("metadata", VMapping [("name", VString "defaults");
                          ("namespace", VString "dev")])].

Definition configMapSpec : ResourceSpec := mkResourceSpec "ConfigMap" "dev" "defaults".

Definition contextOf (resource : Unstructured) : EvalContext :=
  AddSA (Username admin) (AddUserInfo admin (AddResource resource NewContext)).

Definition worldOf (rules : list Rule)
    (store : gmap (string * string * string) Unstructured) (made : list Call)
    : @World (generateDeps [policyOf rules]) :=
  @mkWorld (generateDeps [policyOf rules]) store made.

(** The collaborators when the lister knows the policy with the rule in
    data mode. *)
Definition dataDeps : GenerateDeps := generateDeps [policyOf [dataRule]].

(** The answer of the store for the ConfigMap it does not hold. *)
Definition missingConfigMap : error :=
  StatusError StatusReasonNotFound "ConfigMap dev/defaults not found".

(** The world of the original delivery: the namespace, created after the
    policy, and no call made. *)
Definition firstWorld : @World dataDeps := @mkWorld dataDeps (storeWith 200) [].

(** The world of a triggering resource that is older than the policy. *)
Definition oldWorld : @World dataDeps := @mkWorld dataDeps (storeWith 50) [].

Definition requestContext (created : Z) : PolicyContext :=
  mkPolicyContext (policyOf [dataRule]) (namespaceAt created) admin
    (contextOf (namespaceAt created)).

(** The collaborators when the lister knows the policy with the rule whose
    template is a sequence, and the world of its delivery. *)
Definition listDeps : GenerateDeps := generateDeps [policyOf [listRule]].

Definition listWorld : @World listDeps := @mkWorld listDeps (storeWith 200) [].

(** The answer of the store for the ConfigMap [notes] it does not hold, and
    the answer of the converter for the sequence. *)
Definition missingNotes : error :=
  StatusError StatusReasonNotFound "ConfigMap dev/notes not found".

Definition noMap : error := ErrorString "cannot convert slice to: map".

Definition notesSpec : ResourceSpec := mkResourceSpec "ConfigMap" "dev" "notes".

(** A policy with a rule in data mode and then a rule in clone mode whose
    source does not exist. *)
Definition pairDeps : GenerateDeps := generateDeps [policyOf [dataRule; cloneRule]].

Definition pairWorld : @World pairDeps := @mkWorld pairDeps (storeWith 200) [].

(** The store with the namespace and the ConfigMap of the template. *)
Definition storeWithConfigMap : gmap (string * string * string) Unstructured :=
  <[("ConfigMap", "dev", "defaults") := configMap]> (storeWith 200).

Definition configMapWorld : @World dataDeps :=
  @mkWorld dataDeps storeWithConfigMap [].

(** The answer of [handleClone] for the Secret that is not there to copy. *)
Definition missingSource : error := NotFound "Secret" "default" "regcred".

(** The world the pass over the two rules leaves: the ConfigMap is in the
    store, and the call that created it is recorded. *)
Definition pairWorldAfter : @World pairDeps :=
  @mkWorld pairDeps storeWithConfigMap
    [CreateResourceCall "ConfigMap" "dev" configMap false].

(** *** The work queue *)

Definition retryLimit : Z := 3.

Definition noPolicies (name : string) : ClusterPolicy + error :=
  inr (ErrorString "the lister is not reachable").

Definition controller : ControllerDeps := controllerDeps retryLimit noPolicies.

(** A controller whose queue has seen [n] requeues of the key. *)
Definition requeued (n : nat) (key : string) : PolicyController :=
  mkPolicyController
    (mkWorkQueue [] ∅ {[key]} (<[key := n]> ∅) [] false) [].
End Examples.

(** ** Further requests and stores *)
Module MoreExamples.
Import InMemory Examples.

(** The secret the rule in clone mode copies, and the store that has it
    besides the namespace. *)
Definition regcred : Unstructured :=
  [("apiVersion", VString "v1"); ("kind", VString "Secret");
   ("metadata", VMapping [("name", VString "regcred");
                          ("namespace", VString "default");
                          ("resourceVersion", VString "41")]);
   ("data", VMapping [("token", VString "c2VjcmV0")])].

Definition storeWithSecret : gmap (string * string * string) Unstructured :=
  <[("Secret", "default", "regcred") := regcred]> (storeWith 200).

Definition cloneWorld : @World dataDeps := @mkWorld dataDeps storeWithSecret [].

(** A store that cannot be reached: every lookup fails with an error that
    is not a not-found error. *)
Definition timeout : error := StatusError StatusReasonUnknown "request timed out".

Definition unreachableDeps : GenerateDeps := {|
  Client := unit;
  GetResource := fun _ _ _ _ => inr timeout;
  CreateResource := fun c _ _ _ _ => (c, Some timeout);
  getResource := fun _ _ => inr timeout;
  pListerGet := listerGet [policyOf [dataRule]];
  MarshalJSON := inl;
  GenerateNew := generateNew;
  SubstituteVariables := substituteVariables;
  ToUnstructured := toUnstructured;
  ValidateResourceWithPattern := validateResourceWithPattern;
  GetCreationTimestamp := getCreationTimestamp;
  SetUnstructuredContent := default [];
  SetName := setMetadata "name";
  SetNamespace := setMetadata "namespace";
  SetResourceVersion := setMetadata "resourceVersion";
  statusControlFailed := fun _ _ _ => None;
  statusControlSuccess := fun _ _ => None
|}.

Definition unreachableWorld : @World unreachableDeps := @mkWorld unreachableDeps tt [].

(** The collaborators when the lister knows no policy. *)
Definition noPolicyDeps : GenerateDeps := generateDeps [].

Definition noPolicyWorld : @World noPolicyDeps :=
  @mkWorld noPolicyDeps (storeWith 200) [].

(** A policy whose generate rule is for pods, so that it does not apply to
    the namespace. *)
Definition podRule : Rule :=
  mkRule "pod-config" anyPod [] (mkMutation VNull None)
    (mkGeneration (mkResourceSpec "ConfigMap" "default" "pod-defaults")
       configTemplate (mkCloneFrom "" "")).

Definition podPolicyDeps : GenerateDeps := generateDeps [policyOf [podRule]].

Definition podPolicyWorld : @World podPolicyDeps :=
  @mkWorld podPolicyDeps (storeWith 200) [].

(** A controller whose lister knows no policy: every policy is gone. *)
Definition goneController : ControllerDeps := controllerDeps 3 (listerGet []).

Definition gonePolicy : error :=
  ErrorString "policy 'policy' in work queue no longer exists".

(** A wildcard matcher with [*] for any run of characters and [?] for one
    character; [fuel] bounds the steps. *)
Fixpoint wildcardFuel (fuel : nat) (pattern name : string) : bool :=
  match fuel with
  | O => false
  | S fuel' =>
      match pattern, name with
      | EmptyString, EmptyString => true
      | EmptyString, String _ _ => false
      | String "*" pattern', EmptyString => wildcardFuel fuel' pattern' name
      | String "*" pattern', String _ name' =>
          wildcardFuel fuel' pattern' name || wildcardFuel fuel' pattern name'
      | String _ _, EmptyString => false
      | String c pattern', String d name' =>
          (Ascii.eqb c "?" || Ascii.eqb c d) && wildcardFuel fuel' pattern' name'
      end
  end.

(** Two pods and a deployment, listed by kind; the listing of every other
    kind fails. *)
Definition podNamed (name : string) : Unstructured :=
  [("apiVersion", VString "v1"); ("kind", VString "Pod");
   ("metadata", VMapping [("name", VString name)])].

Definition processDeps : ProcessDeps := {|
  GetGVRFromKind := fun k => if String.eqb k "Pod" then "pods"
                             else if String.eqb k "Deployment" then "deployments"
                             else "";
  ListResource := fun resource _ _ =>
    if String.eqb resource "pods" then inl [podNamed "web-1"; podNamed "db-1"]
    else if String.eqb resource "deployments" then inl [deployment]
    else inr (ErrorString "the server could not find the requested resource");
  MarshalResource := inl;
  GetGroupVersionKind := fun u =>
    match splitOn "/" (GetAPIVersion u) with
    | [version] => mkGroupVersionKind "" version (GetKind u)
    | [group; version] => mkGroupVersionKind group version (GetKind u)
    | _ => mkGroupVersionKind "" "" (GetKind u)
    end;
  wildcardMatch := fun pattern name =>
    wildcardFuel (S (String.length pattern + String.length name)) pattern name
|}.

(** A policy with a rule for the pods named [web-*] and for a kind that
    cannot be listed, and a rule for all pods and deployments. *)
Definition listingPolicy : AlphaPolicy :=
  mkAlphaPolicy "listing"
    [mkAlphaRule "web-pods" ["Pod"; "Gadget"] (Some "web-*") VNull;
     mkAlphaRule "all" ["Deployment"; "Pod"] None VNull].
End MoreExamples.

(** * Properties *)

(** ** [strings.Contains] *)

Lemma append_String (c : ascii) (a b : string) :
  String c a +:+ b = String c (a +:+ b).
Proof. reflexivity. Qed.

Lemma prefix_occurs (p s : string) :
  String.prefix p s = true <-> exists post : string, s = p +:+ post.
Proof.
  revert s. induction p as [|a p IH]; intros s.
  - split; [intros _; exists s; reflexivity | intros _; destruct s; reflexivity].
  - destruct s as [|b s]; simpl.
    + split; [discriminate | intros [post Hpost]; discriminate].
    + destruct (ascii_dec a b) as [->|Hab].
      * rewrite IH. split; intros [post Hpost]; exists post;
          rewrite append_String in *; congruence.
      * split; [discriminate |].
        intros [post Hpost]. rewrite append_String in Hpost. congruence.
Qed.

Lemma Contains_String (c : ascii) (s sub : string) :
  Contains (String c s) sub = HasPrefix (String c s) sub || Contains s sub.
Proof. reflexivity. Qed.

Lemma Contains_empty (sub : string) : Contains "" sub = HasPrefix "" sub.
Proof. change (Contains "" sub) with (HasPrefix "" sub || false). apply orb_false_r. Qed.

Lemma Contains_occurs (s sub : string) :
  Contains s sub = true <-> occursIn sub s.
Proof.
  unfold occursIn. induction s as [|c s IH].
  - rewrite Contains_empty. unfold HasPrefix. rewrite prefix_occurs. split.
    + intros [post Hpost]. exists ""%string, post. exact Hpost.
    + intros [pre [post Hs]]. destruct pre; [exists post; exact Hs | discriminate].
  - rewrite Contains_String, orb_true_iff, IH. unfold HasPrefix.
    rewrite prefix_occurs. split.
    + intros [[post Hpost] | [pre [post Hs]]].
      * exists ""%string, post. exact Hpost.
      * exists (String c pre), post. rewrite append_String. congruence.
    + intros [pre [post Hs]]. destruct pre as [|c' pre].
      * left. exists post. exact Hs.
      * right. rewrite append_String in Hs. exists pre, post. congruence.
Qed.

(** ** [Mutate]: the body of the loop *)

Section MutateFacts.
Context `{E : EngineDeps} `{T : ErrorText}.

Lemma mutateRule_gate_false (pc : PolicyContext) (st : mutateState) (rule : Rule) :
  ruleGate pc rule = false -> mutateRule pc st rule = st.
Proof.
  unfold ruleGate, mutateRule. intros Hgate.
  destruct (HasMutate rule); simpl in *;
    destruct (Contains PodControllers (GetKind (NewResource pc))); simpl in *;
    try reflexivity;
    destruct (MatchesResourceDescription (NewResource pc) rule (AdmissionInfo pc));
    simpl in *; try reflexivity; rewrite Hgate; reflexivity.
Qed.

Lemma mutateRule_gate_true (pc : PolicyContext) (st : mutateState) (rule : Rule) :
  ruleGate pc rule = true ->
  mutateRule pc st rule =
    match overlayPhase (Ctx pc) rule st with
    | Continue st' => st'
    | Proceed st' => autogenPhase pc rule (patchesPhase rule st')
    end.
Proof.
  unfold ruleGate, mutateRule. intros Hgate.
  apply andb_true_iff in Hgate as [Hgate Hcond].
  apply andb_true_iff in Hgate as [Hkind Hmatch].
  rewrite Hcond. simpl.
  destruct (MatchesResourceDescription (NewResource pc) rule (AdmissionInfo pc));
    [discriminate|].
  destruct (HasMutate rule); simpl in *; [reflexivity|].
  rewrite Hkind. reflexivity.
Qed.

Lemma overlayPhase_no_overlay (ctx : EvalContext) (rule : Rule) (st : mutateState) :
  isNil (Overlay (RuleMutation rule)) = true -> overlayPhase ctx rule st = Proceed st.
Proof. unfold overlayPhase. intros ->. destruct st. reflexivity. Qed.

Lemma patchesPhase_no_patches (rule : Rule) (st : mutateState) :
  isNone (Patches (RuleMutation rule)) = true -> patchesPhase rule st = st.
Proof. unfold patchesPhase. intros ->. destruct st. reflexivity. Qed.

Lemma HasMutate_false (rule : Rule) :
  HasMutate rule = false ->
  isNil (Overlay (RuleMutation rule)) = true
  /\ isNone (Patches (RuleMutation rule)) = true.
Proof.
  unfold HasMutate. intros Hm. apply negb_false_iff, andb_true_iff in Hm. exact Hm.
Qed.

Lemma autogenPhase_count (pc : PolicyContext) (rule : Rule) (st : mutateState) :
  RulesAppliedCount (fst (autogenPhase pc rule st)) = RulesAppliedCount (fst st).
Proof.
  unfold autogenPhase. destruct st as [resp patched].
  destruct (bool_decide (AdmissionInfo pc = emptyRequestInfo)); [reflexivity|].
  destruct (Contains PodControllers (GetKind (NewResource pc))); [|reflexivity].
  destruct (ProcessOverlay (RuleName rule) (OverlayRule podTemplateRule) patched)
    as [rr patched'].
  destruct (Success rr); simpl; [|reflexivity].
  destruct (isNone (RespPatches rr)); reflexivity.
Qed.

Lemma autogenPhase_runs (pc : PolicyContext) (rule : Rule)
    (resp : PolicyResponse) (patched : Unstructured) :
  AdmissionInfo pc <> emptyRequestInfo ->
  Contains PodControllers (GetKind (NewResource pc)) = true ->
  autogenPhase pc rule (resp, patched) =
    (let '(rr, patched') :=
       ProcessOverlay (RuleName rule) (OverlayRule podTemplateRule) patched in
     if Success rr && negb (isNone (RespPatches rr))
     then (appendRule rr resp, patched')
     else (resp, patched')).
Proof.
  intros Hwho Hkind. unfold autogenPhase.
  rewrite bool_decide_eq_false_2 by exact Hwho. rewrite Hkind.
  destruct (ProcessOverlay (RuleName rule) (OverlayRule podTemplateRule) patched)
    as [rr patched'].
  destruct (Success rr); reflexivity.
Qed.

Lemma autogenPhase_skipped (pc : PolicyContext) (rule : Rule) (st : mutateState) :
  AdmissionInfo pc = emptyRequestInfo
  \/ Contains PodControllers (GetKind (NewResource pc)) = false ->
  autogenPhase pc rule st = st.
Proof.
  unfold autogenPhase. destruct st as [resp patched]. intros [Hwho | Hkind].
  - rewrite bool_decide_eq_true_2 by exact Hwho. reflexivity.
  - rewrite Hkind. destruct (bool_decide _); reflexivity.
Qed.

(** C10.  Whether a kind belongs to the pod controllers is decided by
    [strings.Contains] on the constant ["DaemonSet,Deployment,Job,StatefulSet"],
    and by nothing else: the test is true exactly of the kinds that occur
    somewhere in that constant.  For a resource whose kind occurs in it,
    the autogen overlay is applied on the threaded resource after every
    rule that reaches that phase, and a rule without a mutation passes the
    first gate of [Mutate] and has that overlay as its whole body, exactly
    as for the four kinds themselves.  For a resource whose kind does not
    occur in it, the autogen phase does nothing and a rule without a
    mutation is skipped. *)
Theorem pod_controller_kind_by_substring (pc : PolicyContext) (rule : Rule)
    (resp : PolicyResponse) (patched : Unstructured) :
  MatchesResourceDescription (NewResource pc) rule (AdmissionInfo pc) = None ->
  EvaluateConditions (Ctx pc) (Conditions rule) = true ->
  AdmissionInfo pc <> emptyRequestInfo ->
  (Contains PodControllers (GetKind (NewResource pc)) = true
   <-> occursIn (GetKind (NewResource pc)) PodControllers)
  /\ (occursIn (GetKind (NewResource pc)) PodControllers ->
      autogenPhase pc rule (resp, patched) =
        (let '(rr, patched') :=
           ProcessOverlay (RuleName rule) (OverlayRule podTemplateRule) patched in
         if Success rr && negb (isNone (RespPatches rr))
         then (appendRule rr resp, patched')
         else (resp, patched'))
      /\ (HasMutate rule = false ->
          ruleGate pc rule = true
          /\ mutateRule pc (resp, patched) rule =
               (let '(rr, patched') :=
                  ProcessOverlay (RuleName rule) (OverlayRule podTemplateRule) patched in
                if Success rr && negb (isNone (RespPatches rr))
                then (appendRule rr resp, patched')
                else (resp, patched'))))
  /\ (~ occursIn (GetKind (NewResource pc)) PodControllers ->
      autogenPhase pc rule (resp, patched) = (resp, patched)
      /\ (HasMutate rule = false ->
          ruleGate pc rule = false
          /\ mutateRule pc (resp, patched) rule = (resp, patched))).
Proof.
  intros Hmatch Hcond Hwho.
  split; [apply Contains_occurs | split].
  - intros Hkind. apply Contains_occurs in Hkind.
    split; [apply autogenPhase_runs; assumption |].
    intros Hmut.
    assert (Hgate : ruleGate pc rule = true).
    { unfold ruleGate, copyConditions. rewrite Hkind, Hmatch, Hcond, orb_true_r.
      reflexivity. }
    split; [exact Hgate |].
    destruct (HasMutate_false rule Hmut) as [Hov Hpa].
    rewrite (mutateRule_gate_true pc _ rule Hgate).
    rewrite (overlayPhase_no_overlay _ rule _ Hov).
    rewrite (patchesPhase_no_patches rule _ Hpa).
    apply autogenPhase_runs; assumption.
  - intros Hkind.
    assert (Hno : Contains PodControllers (GetKind (NewResource pc)) = false).
    { destruct (Contains PodControllers (GetKind (NewResource pc))) eqn:Hc;
        [|reflexivity].
      exfalso. apply Hkind, Contains_occurs. exact Hc. }
    split; [apply autogenPhase_skipped; right; exact Hno |].
    intros Hmut.
    assert (Hgate : ruleGate pc rule = false).
    { unfold ruleGate. rewrite Hmut, Hno. reflexivity. }
    split; [exact Hgate | apply mutateRule_gate_false; exact Hgate].
Qed.
End MutateFacts.

(** ** [Mutate]: what is threaded through the rules *)

Lemma mutateRule_withGates (E : EngineDeps) (T : ErrorText)
    (m m' : Unstructured -> Rule -> RequestInfo -> option error)
    (e e' : EvalContext -> list Condition -> bool)
    (pc : PolicyContext) (st : mutateState) (rule : Rule) :
  m (NewResource pc) rule (AdmissionInfo pc)
    = m' (NewResource pc) rule (AdmissionInfo pc) ->
  e (Ctx pc) (Conditions rule) = e' (Ctx pc) (Conditions rule) ->
  @mutateRule (withGates E m e) T pc st rule
    = @mutateRule (withGates E m' e') T pc st rule.
Proof.
  intros Hm He. unfold mutateRule, copyConditions. simpl.
  rewrite Hm, He. reflexivity.
Qed.

Lemma fold_mutateRule_withGates (E : EngineDeps) (T : ErrorText)
    (m m' : Unstructured -> Rule -> RequestInfo -> option error)
    (e e' : EvalContext -> list Condition -> bool)
    (pc : PolicyContext) (rules : list Rule) (st : mutateState) :
  (forall rule, m (NewResource pc) rule (AdmissionInfo pc)
                = m' (NewResource pc) rule (AdmissionInfo pc)) ->
  (forall cs, e (Ctx pc) cs = e' (Ctx pc) cs) ->
  fold_left (@mutateRule (withGates E m e) T pc) rules st
    = fold_left (@mutateRule (withGates E m' e') T pc) rules st.
Proof.
  intros Hm He. revert st. induction rules as [|rule rules IH]; intros st.
  - reflexivity.
  - simpl. rewrite (mutateRule_withGates E T m m' e e' pc st rule (Hm rule) (He _)).
    apply IH.
Qed.

Section Threading.
Context `{E : EngineDeps} `{T : ErrorText}.

Lemma overlayPhase_target (ctx : EvalContext) (rule : Rule)
    (resp : PolicyResponse) (patched : Unstructured) (overlay' : value) :
  isNil (Overlay (RuleMutation rule)) = false ->
  SubstituteVars ctx (Overlay (RuleMutation rule)) = inl overlay' ->
  snd (flowState (overlayPhase ctx rule (resp, patched)))
    = snd (ProcessOverlay (RuleName rule) (OverlayValue overlay') patched).
Proof.
  intros Hov Hsub. unfold overlayPhase. rewrite Hov, Hsub.
  destruct (ProcessOverlay (RuleName rule) (OverlayValue overlay') patched)
    as [rr patched'].
  destruct (Success rr && isNone (RespPatches rr)); reflexivity.
Qed.

Lemma patchesPhase_target (rule : Rule) (resp : PolicyResponse)
    (patched : Unstructured) :
  isNone (Patches (RuleMutation rule)) = false ->
  snd (patchesPhase rule (resp, patched)) = snd (ProcessPatches rule patched).
Proof.
  intros Hpa. unfold patchesPhase. rewrite Hpa.
  destruct (ProcessPatches rule patched). reflexivity.
Qed.

Lemma autogenPhase_target (pc : PolicyContext) (rule : Rule)
    (resp : PolicyResponse) (patched : Unstructured) :
  AdmissionInfo pc <> emptyRequestInfo ->
  Contains PodControllers (GetKind (NewResource pc)) = true ->
  snd (autogenPhase pc rule (resp, patched))
    = snd (ProcessOverlay (RuleName rule) (OverlayRule podTemplateRule) patched).
Proof.
  intros Hwho Hkind. rewrite (autogenPhase_runs pc rule resp patched Hwho Hkind).
  destruct (ProcessOverlay (RuleName rule) (OverlayRule podTemplateRule) patched)
    as [rr patched'].
  destruct (Success rr && negb (isNone (RespPatches rr))); reflexivity.
Qed.
End Threading.

Section ThreadedResource.
Context `{E : EngineDeps} `{T : ErrorText}.

Lemma mutateRule_threads (pc : PolicyContext) (st : mutateState) (rule : Rule) :
  snd (mutateRule pc st rule) = threadedResource pc (snd st) rule.
Proof.
  unfold threadedResource. destruct (ruleGate pc rule) eqn:Hgate.
  - rewrite (mutateRule_gate_true pc st rule Hgate).
    destruct st as [resp patched].
    unfold overlayPhase, patchesPhase, autogenPhase. cbn [snd fst negb].
    repeat case_match; simplify_eq; cbn [snd fst negb] in *;
      try reflexivity; try congruence.
    all: repeat (match goal with
                 | Heq : ?x = (_, _) |- context [?x] => rewrite Heq
                 end; cbn [snd fst]); reflexivity.
  - rewrite (mutateRule_gate_false pc st rule Hgate). reflexivity.
Qed.

Lemma fold_mutateRule_threads (pc : PolicyContext) (rules : list Rule)
    (st : mutateState) :
  snd (fold_left (mutateRule pc) rules st)
  = fold_left (threadedResource pc) rules (snd st).
Proof.
  revert st. induction rules as [|rule rules IH]; intros st; [reflexivity|].
  simpl. rewrite IH, mutateRule_threads. reflexivity.
Qed.

Lemma Mutate_threads (pc : PolicyContext) :
  PatchedResource (Mutate pc)
  = fold_left (threadedResource pc) (Rules (Policy pc)) (NewResource pc).
Proof.
  unfold Mutate.
  pose proof (fold_mutateRule_threads pc (Rules (Policy pc))
                (startMutateResultResponse zeroPolicyResponse (Policy pc)
                   (NewResource pc), NewResource pc)) as Hfold.
  destruct (fold_left (mutateRule pc) (Rules (Policy pc)) _) as [resp' patched].
  exact Hfold.
Qed.
End ThreadedResource.

(** C1, amended.  [Mutate] visits the rules in declared order and threads
    the patched resource through the phases that patch: the resource it
    answers is the resource of the request handed from rule to rule in the
    order of the policy, each rule applying its overlay, its literal
    patches and the autogen overlay to what the rule before it handed on;
    so the last of the rules works on what [Mutate] answers for the rules
    before it.  The matcher is asked about the resource of the request
    only and the conditions about the evaluation context of the request
    only: two matchers that agree on that resource, and two evaluators
    that agree on that context, give the same [Mutate], whatever they
    answer on a patched resource. *)
Theorem Mutate_threads_patch_targets_only (E : EngineDeps) (T : ErrorText)
    (matcher matcher' : Unstructured -> Rule -> RequestInfo -> option error)
    (evaluator evaluator' : EvalContext -> list Condition -> bool)
    (pc : PolicyContext) :
  (forall rule, matcher (NewResource pc) rule (AdmissionInfo pc)
                = matcher' (NewResource pc) rule (AdmissionInfo pc)) ->
  (forall cs, evaluator (Ctx pc) cs = evaluator' (Ctx pc) cs) ->
  @Mutate (withGates E matcher evaluator) T pc
    = @Mutate (withGates E matcher' evaluator') T pc
  /\ PatchedResource (@Mutate E T pc)
     = fold_left (@threadedResource E pc) (Rules (Policy pc)) (NewResource pc)
  /\ (forall (rules : list Rule) (rule : Rule),
        PatchedResource (@Mutate E T (withRules (rules ++ [rule]) pc))
        = @threadedResource E pc
            (PatchedResource (@Mutate E T (withRules rules pc))) rule)
  /\ (forall (rule : Rule) (resp : PolicyResponse) (patched : Unstructured),
        (forall overlay' : value,
           isNil (Overlay (RuleMutation rule)) = false ->
           @SubstituteVars E (Ctx pc) (Overlay (RuleMutation rule)) = inl overlay' ->
           snd (flowState (@overlayPhase E T (Ctx pc) rule (resp, patched)))
             = snd (@ProcessOverlay E (RuleName rule) (OverlayValue overlay') patched))
        /\ (isNone (Patches (RuleMutation rule)) = false ->
            snd (@patchesPhase E rule (resp, patched))
              = snd (@ProcessPatches E rule patched))
        /\ (AdmissionInfo pc <> emptyRequestInfo ->
            Contains PodControllers (GetKind (NewResource pc)) = true ->
            snd (@autogenPhase E pc rule (resp, patched))
              = snd (@ProcessOverlay E (RuleName rule) (OverlayRule podTemplateRule)
                       patched))).
Proof.
  intros Hm He. split; [|split; [|split]].
  - unfold Mutate.
    rewrite (fold_mutateRule_withGates E T matcher matcher' evaluator evaluator'
               pc (Rules (Policy pc)) _ Hm He).
    reflexivity.
  - apply Mutate_threads.
  - intros rules rule. rewrite !Mutate_threads. simpl.
    rewrite fold_left_app. reflexivity.
  - intros rule resp patched. split; [|split].
    + intros overlay'. apply overlayPhase_target.
    + apply patchesPhase_target.
    + apply autogenPhase_target.
Qed.

Section SequentialVisibility.
Import InMemory Examples.

Lemma Mutate_threads_patch_targets_only_witness :
  (forall rule,
     matchesResourceDescription (NewResource sequentialRequest) rule
       (AdmissionInfo sequentialRequest)
     = strictMatcher (NewResource sequentialRequest) rule
         (AdmissionInfo sequentialRequest))
  /\ (forall cs,
        evaluateConditions (Ctx sequentialRequest) cs
        = strictEvaluator (Ctx sequentialRequest) cs)
  /\ @Mutate (withGates engineDeps matchesResourceDescription evaluateConditions)
       errorText sequentialRequest
     = @Mutate (withGates engineDeps strictMatcher strictEvaluator)
         errorText sequentialRequest
  /\ PatchedResource (@Mutate engineDeps errorText sequentialRequest)
     = fold_left (@threadedResource engineDeps sequentialRequest)
         [addLabel; needsLabel] pod.
Proof.
  assert (Hm : forall rule,
             matchesResourceDescription (NewResource sequentialRequest) rule
               (AdmissionInfo sequentialRequest)
             = strictMatcher (NewResource sequentialRequest) rule
                 (AdmissionInfo sequentialRequest))
    by (intros rule; reflexivity).
  assert (He : forall cs,
             evaluateConditions (Ctx sequentialRequest) cs
             = strictEvaluator (Ctx sequentialRequest) cs)
    by (intros cs; reflexivity).
  split; [exact Hm | split; [exact He |]].
  pose proof (Mutate_threads_patch_targets_only engineDeps errorText
                matchesResourceDescription strictMatcher
                evaluateConditions strictEvaluator sequentialRequest Hm He)
    as [Hgates [Hthreads _]].
  split; [exact Hgates | exact Hthreads].
Defined.

(** The second overlay is applied to the pod as the first overlay left
    it: the pod [Mutate] answers carries both labels. *)
Example second_overlay_works_on_the_first :
  PatchedResource (Mutate (requestFor [addLabel; addSecondLabel] pod admin))
  = [("apiVersion", VString "v1"); ("kind", VString "Pod");
     ("metadata", VMapping [("name", VString "web");
                            ("labels", VMapping [("a", VString "1");
                                                 ("b", VString "2")])]);
     ("spec", VMapping [("containers", VSequence [VString "nginx"])])]
  /\ map RespName
       (RespRules (PolicyResp (Mutate (requestFor [addLabel; addSecondLabel] pod admin))))
     = ["add-label"; "add-second-label"]%string.
Proof. split; vm_compute; reflexivity. Qed.

(** C1 as stated fails.  R1 adds the label [a=1] and R2 requires it: on
    the pod as R1 patched it the condition of R2 holds, and under the
    reading of the specification R2 answers after R1; in [Mutate] R2 does
    not match, because its condition is evaluated on the context of the
    request, in which the pod has no label. *)
Lemma sequential_visibility_fails :
  PatchedResource (Mutate (requestFor [addLabel] pod admin)) = podWithLabel
  /\ evaluateConditions (contextOf podWithLabel) (Conditions needsLabel) = true
  /\ map RespName (RespRules (PolicyResp (MutateThreaded sequentialRequest)))
     = ["add-label"; "needs-label"]%string
  /\ map RespName (RespRules (PolicyResp (Mutate sequentialRequest)))
     = ["add-label"]%string
  /\ PatchedResource (Mutate sequentialRequest) = podWithLabel
  /\ Mutate sequentialRequest <> MutateThreaded sequentialRequest.
Proof.
  repeat split; try (vm_compute; reflexivity).
  intros Heq.
  apply (f_equal (fun r => length (RespRules (PolicyResp r)))) in Heq.
  vm_compute in Heq. discriminate Heq.
Qed.
End SequentialVisibility.

(** ** [Mutate]: the applied count *)

Section AppliedCount.
Context `{E : EngineDeps} `{T : ErrorText}.

Lemma overlayPhase_substitution_fails (ctx : EvalContext) (rule : Rule)
    (resp : PolicyResponse) (patched : Unstructured) (err : error) :
  isNil (Overlay (RuleMutation rule)) = false ->
  SubstituteVars ctx (Overlay (RuleMutation rule)) = inr err ->
  overlayPhase ctx rule (resp, patched)
    = Continue (appendRule (mkRuleResponse "" "" (Error err) None false) resp,
                patched).
Proof. intros Hov Hsub. unfold overlayPhase. rewrite Hov, Hsub. reflexivity. Qed.

Lemma overlayPhase_processed (ctx : EvalContext) (rule : Rule)
    (resp : PolicyResponse) (patched patched' : Unstructured)
    (overlay' : value) (rr : RuleResponse) :
  isNil (Overlay (RuleMutation rule)) = false ->
  SubstituteVars ctx (Overlay (RuleMutation rule)) = inl overlay' ->
  ProcessOverlay (RuleName rule) (OverlayValue overlay') patched = (rr, patched') ->
  overlayPhase ctx rule (resp, patched)
    = if Success rr && isNone (RespPatches rr)
      then Continue (resp, patched')
      else Proceed (incrementAppliedRuleCount (appendRule rr resp), patched').
Proof.
  intros Hov Hsub Hpo. unfold overlayPhase. rewrite Hov, Hsub, Hpo. reflexivity.
Qed.

Lemma patchesPhase_processed (rule : Rule) (resp : PolicyResponse)
    (patched patched' : Unstructured) (rr : RuleResponse) :
  isNone (Patches (RuleMutation rule)) = false ->
  ProcessPatches rule patched = (rr, patched') ->
  patchesPhase rule (resp, patched)
    = (incrementAppliedRuleCount (appendRule rr resp), patched').
Proof. intros Hpa Hpp. unfold patchesPhase. rewrite Hpa, Hpp. reflexivity. Qed.

Lemma mutateRule_count (pc : PolicyContext) (st : mutateState) (rule : Rule) :
  AdmissionInfo pc = emptyRequestInfo ->
  overlaySubstitutes (Ctx pc) rule ->
  exists k : nat,
    length (RespRules (fst (mutateRule pc st rule)))
    = (length (RespRules (fst st)) + k)%nat
    /\ RulesAppliedCount (fst (mutateRule pc st rule))
       = incremented k (RulesAppliedCount (fst st)).
Proof.
  intros Hwho Hsub. destruct (ruleGate pc rule) eqn:Hgate.
  - rewrite (mutateRule_gate_true pc st rule Hgate).
    destruct st as [resp patched]. unfold overlayPhase.
    destruct (isNil (Overlay (RuleMutation rule))) eqn:Hov.
    + rewrite autogenPhase_skipped by (left; exact Hwho).
      unfold patchesPhase. destruct (isNone (Patches (RuleMutation rule))).
      * exists 0%nat. simpl. split; [lia | reflexivity].
      * destruct (ProcessPatches rule patched) as [rr patched'].
        exists 1%nat. simpl. rewrite length_app. simpl. split; [lia | reflexivity].
    + destruct Hsub as [Hnil | [overlay' Hsub]]; [congruence|]. rewrite Hsub.
      destruct (ProcessOverlay (RuleName rule) (OverlayValue overlay') patched)
        as [rr patched'].
      destruct (Success rr && isNone (RespPatches rr)).
      * exists 0%nat. simpl. split; [lia | reflexivity].
      * rewrite autogenPhase_skipped by (left; exact Hwho).
        unfold patchesPhase. destruct (isNone (Patches (RuleMutation rule))).
        -- exists 1%nat. simpl. rewrite length_app. simpl. split; [lia | reflexivity].
        -- destruct (ProcessPatches rule patched') as [rr' patched''].
           exists 2%nat. simpl. rewrite !length_app. simpl. split; [lia | reflexivity].
  - rewrite (mutateRule_gate_false pc st rule Hgate).
    exists 0%nat. simpl. split; [lia | reflexivity].
Qed.

Lemma fold_mutateRule_count (pc : PolicyContext) (rules : list Rule)
    (st : mutateState) :
  AdmissionInfo pc = emptyRequestInfo ->
  (forall rule, In rule rules -> overlaySubstitutes (Ctx pc) rule) ->
  exists k : nat,
    length (RespRules (fst (fold_left (mutateRule pc) rules st)))
    = (length (RespRules (fst st)) + k)%nat
    /\ RulesAppliedCount (fst (fold_left (mutateRule pc) rules st))
       = incremented k (RulesAppliedCount (fst st)).
Proof.
  intros Hwho. revert st. induction rules as [|rule rules IH]; intros st Hsub.
  - exists 0%nat. simpl. split; [lia | reflexivity].
  - simpl.
    destruct (mutateRule_count pc st rule Hwho (Hsub rule (or_introl eq_refl)))
      as [k [Hlen Hcount]].
    destruct (IH (mutateRule pc st rule) (fun r Hr => Hsub r (or_intror Hr)))
      as [k' [Hlen' Hcount']].
    exists (k' + k)%nat. rewrite Hlen', Hlen, Hcount', Hcount.
    split; [lia |]. unfold incremented. rewrite Nat.iter_add. reflexivity.
Qed.

(** C3, amended.  The applied count is incremented once with every
    response the overlay phase or the literal-patch phase records, with or
    without patches, successful or not.  The overlay phase records and
    counts the response of [ProcessOverlay] unless it is a success with nil
    patches; that response is neither recorded nor counted, and the rule
    ends there.  The literal-patch phase records and counts the response of
    [ProcessPatches] always.  A substitution failure is recorded without
    being counted, and the autogen phase never changes the count.  So
    without a caller identity and without a substitution failure the
    applied count of [Mutate] is the number of responses it recorded. *)
Theorem applied_count_follows_recorded_responses (pc : PolicyContext)
    (rule : Rule) (resp : PolicyResponse) (patched : Unstructured) :
  (forall (overlay' : value) (rr : RuleResponse) (patched' : Unstructured),
     isNil (Overlay (RuleMutation rule)) = false ->
     SubstituteVars (Ctx pc) (Overlay (RuleMutation rule)) = inl overlay' ->
     ProcessOverlay (RuleName rule) (OverlayValue overlay') patched = (rr, patched') ->
     overlayPhase (Ctx pc) rule (resp, patched)
       = if Success rr && isNone (RespPatches rr)
         then Continue (resp, patched')
         else Proceed (incrementAppliedRuleCount (appendRule rr resp), patched'))
  /\ (forall err : error,
        isNil (Overlay (RuleMutation rule)) = false ->
        SubstituteVars (Ctx pc) (Overlay (RuleMutation rule)) = inr err ->
        overlayPhase (Ctx pc) rule (resp, patched)
          = Continue (appendRule (mkRuleResponse "" "" (Error err) None false) resp,
                      patched))
  /\ (forall (rr : RuleResponse) (patched' : Unstructured),
        isNone (Patches (RuleMutation rule)) = false ->
        ProcessPatches rule patched = (rr, patched') ->
        patchesPhase rule (resp, patched)
          = (incrementAppliedRuleCount (appendRule rr resp), patched'))
  /\ RulesAppliedCount (fst (autogenPhase pc rule (resp, patched)))
     = RulesAppliedCount resp
  /\ (AdmissionInfo pc = emptyRequestInfo ->
      (forall r, In r (Rules (Policy pc)) -> overlaySubstitutes (Ctx pc) r) ->
      RulesAppliedCount (PolicyResp (Mutate pc))
      = incremented (length (RespRules (PolicyResp (Mutate pc)))) 0).
Proof.
  split; [|split; [|split; [|split]]].
  - intros overlay' rr patched'. apply overlayPhase_processed.
  - intros err. apply overlayPhase_substitution_fails.
  - intros rr patched'. apply patchesPhase_processed.
  - apply (autogenPhase_count pc rule (resp, patched)).
  - intros Hwho Hsub. unfold Mutate.
    destruct (fold_mutateRule_count pc (Rules (Policy pc))
                (startMutateResultResponse zeroPolicyResponse (Policy pc)
                   (NewResource pc), NewResource pc) Hwho Hsub)
      as [k [Hlen Hcount]].
    destruct (fold_left (mutateRule pc) (Rules (Policy pc)) _) as [resp' patched'].
    simpl in *. rewrite Hlen, Hcount. reflexivity.
Qed.

(** C6, amended.  The autogen overlay is tried only with a caller identity
    and only for a resource whose kind occurs in the pod-controller
    constant.  When it succeeds with patches its response is appended; when
    it fails or has nothing to patch, nothing is recorded and the rule goes
    on as it was.  In no case does it change the applied count. *)
Theorem autogen_appends_without_counting (pc : PolicyContext) (rule : Rule)
    (resp : PolicyResponse) (patched : Unstructured) :
  (AdmissionInfo pc = emptyRequestInfo
   \/ Contains PodControllers (GetKind (NewResource pc)) = false ->
   autogenPhase pc rule (resp, patched) = (resp, patched))
  /\ (forall (rr : RuleResponse) (patched' : Unstructured),
        AdmissionInfo pc <> emptyRequestInfo ->
        Contains PodControllers (GetKind (NewResource pc)) = true ->
        ProcessOverlay (RuleName rule) (OverlayRule podTemplateRule) patched
          = (rr, patched') ->
        autogenPhase pc rule (resp, patched)
          = (if Success rr && negb (isNone (RespPatches rr))
             then appendRule rr resp else resp, patched'))
  /\ RulesAppliedCount (fst (autogenPhase pc rule (resp, patched)))
     = RulesAppliedCount resp.
Proof.
  split; [|split].
  - apply autogenPhase_skipped.
  - intros rr patched' Hwho Hkind Hpo.
    rewrite (autogenPhase_runs pc rule resp patched Hwho Hkind), Hpo.
    destruct (Success rr && negb (isNone (RespPatches rr))); reflexivity.
  - apply (autogenPhase_count pc rule (resp, patched)).
Qed.
End AppliedCount.

Section AppliedCountExamples.
Import InMemory Examples.

Lemma applied_count_follows_recorded_responses_witness :
  isNil (Overlay (RuleMutation misfit)) = false
  /\ SubstituteVars (Ctx (requestFor [misfit] pod emptyRequestInfo))
       (Overlay (RuleMutation misfit)) = inl (Overlay (RuleMutation misfit))
  /\ ProcessOverlay (RuleName misfit) (OverlayValue (Overlay (RuleMutation misfit))) pod
     = (misfitResponse, pod)
  /\ overlayPhase (Ctx (requestFor [misfit] pod emptyRequestInfo)) misfit
       (zeroPolicyResponse, pod)
     = Proceed (incrementAppliedRuleCount (appendRule misfitResponse zeroPolicyResponse),
                pod).
Proof.
  split; [reflexivity | split; [reflexivity | split; [reflexivity |]]].
  exact (proj1 (applied_count_follows_recorded_responses
                  (requestFor [misfit] pod emptyRequestInfo) misfit
                  zeroPolicyResponse pod)
           (Overlay (RuleMutation misfit)) misfitResponse pod
           eq_refl eq_refl eq_refl).
Defined.

(** C3 as stated fails.  The overlay of [misfit] does not fit the pod: the
    phase produces no patches, and the count is incremented.  A literal
    patch that fails is counted as well.  The overlay of [compliant] is a
    success with nil patches, and its response is not recorded. *)
Lemma applied_count_counts_failures :
  fst (ProcessOverlay "misfit" (OverlayValue (Overlay (RuleMutation misfit))) pod)
    = misfitResponse
  /\ RespPatches misfitResponse = None
  /\ RespRules (PolicyResp (Mutate (requestFor [misfit] pod emptyRequestInfo)))
     = [misfitResponse]
  /\ RulesAppliedCount (PolicyResp (Mutate (requestFor [misfit] pod emptyRequestInfo)))
     = 1
  /\ withPatches
       (RespRules (PolicyResp (Mutate (requestFor [badPatch] pod emptyRequestInfo))))
     = []
  /\ RulesAppliedCount (PolicyResp (Mutate (requestFor [badPatch] pod emptyRequestInfo)))
     = 1
  /\ fst (ProcessOverlay "compliant" (OverlayValue (Overlay (RuleMutation compliant))) pod)
     = compliantResponse
  /\ RespRules (PolicyResp (Mutate (requestFor [compliant] pod emptyRequestInfo)))
     = [].
Proof. repeat split; vm_compute; reflexivity. Qed.

Lemma autogen_appends_without_counting_witness :
  AdmissionInfo (requestFor [checkOnly "Deployment"] deployment admin)
    <> emptyRequestInfo
  /\ Contains PodControllers
       (GetKind (NewResource (requestFor [checkOnly "Deployment"] deployment admin)))
     = true
  /\ ProcessOverlay (RuleName (checkOnly "Deployment")) (OverlayRule podTemplateRule)
       deployment
     = (autogenResponse, annotatedDeployment)
  /\ autogenPhase (requestFor [checkOnly "Deployment"] deployment admin)
       (checkOnly "Deployment") (zeroPolicyResponse, deployment)
     = (appendRule autogenResponse zeroPolicyResponse, annotatedDeployment).
Proof.
  assert (Hwho : AdmissionInfo (requestFor [checkOnly "Deployment"] deployment admin)
                 <> emptyRequestInfo) by discriminate.
  split; [exact Hwho | split; [reflexivity | split; [reflexivity |]]].
  exact (proj1 (proj2 (autogen_appends_without_counting
                         (requestFor [checkOnly "Deployment"] deployment admin)
                         (checkOnly "Deployment") zeroPolicyResponse deployment))
           autogenResponse annotatedDeployment Hwho eq_refl eq_refl).
Defined.

(** C6 as stated fails.  With a caller identity the autogen overlay on the
    deployment succeeds with patches and its response is appended; the
    applied count stays zero.  Without a caller identity nothing is
    appended. *)
Lemma autogen_response_is_not_counted :
  RespRules (PolicyResp (Mutate (requestFor [checkOnly "Deployment"] deployment admin)))
    = [autogenResponse]
  /\ Success autogenResponse = true
  /\ withPatches [autogenResponse] = [autogenResponse]
  /\ RulesAppliedCount
       (PolicyResp (Mutate (requestFor [checkOnly "Deployment"] deployment admin)))
     = 0
  /\ RespRules
       (PolicyResp (Mutate (requestFor [checkOnly "Deployment"] deployment
                              emptyRequestInfo)))
     = [].
Proof. repeat split; vm_compute; reflexivity. Qed.
End AppliedCountExamples.

Section SubstringKinds.
Import InMemory Examples.

Lemma pod_controller_kind_by_substring_witness :
  AdmissionInfo (requestFor [checkOnly "Set"] setResource admin) <> emptyRequestInfo
  /\ occursIn (GetKind (NewResource (requestFor [checkOnly "Set"] setResource admin)))
       PodControllers
  /\ HasMutate (checkOnly "Set") = false
  /\ Contains PodControllers
       (GetKind (NewResource (requestFor [checkOnly "Set"] setResource admin))) = true
  /\ ruleGate (requestFor [checkOnly "Set"] setResource admin) (checkOnly "Set") = true
  /\ mutateRule (requestFor [checkOnly "Set"] setResource admin)
       (zeroPolicyResponse, setResource) (checkOnly "Set")
     = (let '(rr, patched') :=
          ProcessOverlay (RuleName (checkOnly "Set")) (OverlayRule podTemplateRule)
            setResource in
        if Success rr && negb (isNone (RespPatches rr))
        then (appendRule rr zeroPolicyResponse, patched')
        else (zeroPolicyResponse, patched'))
  /\ ~ occursIn (GetKind (NewResource (requestFor [checkOnly "Pod"] pod admin)))
         PodControllers
  /\ ruleGate (requestFor [checkOnly "Pod"] pod admin) (checkOnly "Pod") = false
  /\ mutateRule (requestFor [checkOnly "Pod"] pod admin) (zeroPolicyResponse, pod)
       (checkOnly "Pod")
     = (zeroPolicyResponse, pod)
  /\ autogenPhase (requestFor [addLabel] pod admin) addLabel (zeroPolicyResponse, pod)
     = (zeroPolicyResponse, pod).
Proof.
  assert (Hkind : occursIn
            (GetKind (NewResource (requestFor [checkOnly "Set"] setResource admin)))
            PodControllers)
    by (exists "Daemon"%string, ",Deployment,Job,StatefulSet"%string; reflexivity).
  assert (Hwho : AdmissionInfo (requestFor [checkOnly "Set"] setResource admin)
                 <> emptyRequestInfo) by discriminate.
  assert (Hwho' : AdmissionInfo (requestFor [checkOnly "Pod"] pod admin)
                  <> emptyRequestInfo) by discriminate.
  assert (Hwho'' : AdmissionInfo (requestFor [addLabel] pod admin)
                   <> emptyRequestInfo) by discriminate.
  pose proof (pod_controller_kind_by_substring
                (requestFor [checkOnly "Set"] setResource admin) (checkOnly "Set")
                zeroPolicyResponse setResource eq_refl eq_refl Hwho)
    as [Hiff [Hin _]].
  pose proof (pod_controller_kind_by_substring
                (requestFor [checkOnly "Pod"] pod admin) (checkOnly "Pod")
                zeroPolicyResponse pod eq_refl eq_refl Hwho')
    as [Hiff' [_ Hout]].
  pose proof (pod_controller_kind_by_substring
                (requestFor [addLabel] pod admin) addLabel
                zeroPolicyResponse pod eq_refl eq_refl Hwho'')
    as [_ [_ Hout'']].
  assert (Hpod : ~ occursIn (GetKind (NewResource (requestFor [checkOnly "Pod"] pod admin)))
                     PodControllers)
    by (intros Hocc; apply Hiff' in Hocc; vm_compute in Hocc; discriminate Hocc).
  split; [exact Hwho | split; [exact Hkind | split; [reflexivity |]]].
  split; [exact (proj2 Hiff Hkind) |].
  split; [exact (proj1 (proj2 (Hin Hkind) eq_refl)) |].
  split; [exact (proj2 (proj2 (Hin Hkind) eq_refl)) |].
  split; [exact Hpod |].
  split; [exact (proj1 (proj2 (Hout Hpod) eq_refl)) |].
  split; [exact (proj2 (proj2 (Hout Hpod) eq_refl)) |].
  exact (proj1 (Hout'' Hpod)).
Defined.

(** Parts of the constant that are no kind of a pod controller, among them
    the separator and the empty string, and a kind that is no part of it. *)
Example parts_of_PodControllers :
  Contains PodControllers "Set" = true
  /\ Contains PodControllers "Deploy" = true
  /\ Contains PodControllers "," = true
  /\ Contains PodControllers "" = true
  /\ Contains PodControllers "Deployment" = true
  /\ Contains PodControllers "Pod" = false.
Proof. repeat split; vm_compute; reflexivity. Qed.

(** The autogen overlay is applied to a resource of kind [Set]. *)
Example autogen_on_kind_Set :
  map RespName
    (RespRules (PolicyResp (Mutate (requestFor [checkOnly "Set"] setResource admin))))
  = ["check-only"]%string.
Proof. vm_compute. reflexivity. Qed.
End SubstringKinds.

(** ** The reconciler: one rule *)

Section GenerateFacts.
Context `{D : GenerateDeps} `{T : ErrorText}.

Lemma handleData_error_without_data (ruleName : string) (gen : Generation)
    (c : Client) (resource : Unstructured) (ctx : EvalContext)
    (state : GenerateRequestState) (rdata : option JSONMap) (e : error) :
  handleData ruleName gen c resource ctx state = (rdata, Some e) -> rdata = None.
Proof.
  unfold handleData, checkResource.
  destruct (GetResource c _ _ _) as [obj | err].
  - destruct (ValidateResourceWithPattern ctx obj _) as [path [verr|]]; simpl;
      intros Heq; inversion Heq; reflexivity.
  - destruct (IsNotFound (Some err)).
    + destruct (String.eqb state "").
      * destruct (ToUnstructured _) as [m [perr|]]; intros Heq; inversion Heq;
          reflexivity.
      * intros Heq; inversion Heq; reflexivity.
    + intros Heq; inversion Heq; reflexivity.
Qed.

Lemma handleData_replay (ruleName : string) (gen : Generation) (c : Client)
    (resource : Unstructured) (ctx : EvalContext) (state : GenerateRequestState)
    (err : error) :
  GetResource c (Kind (GenSpec gen)) (Namespace (GenSpec gen)) (Name (GenSpec gen))
    = inr err ->
  IsNotFound (Some err) = true ->
  state <> ""%string ->
  handleData ruleName gen c resource ctx state
    = (None, Some (Violation ruleName
                     (NotFound (Kind (GenSpec gen)) (Namespace (GenSpec gen))
                        (Name (GenSpec gen))))).
Proof.
  intros Hget Hnf Hstate. unfold handleData. rewrite Hget, Hnf.
  apply String.eqb_neq in Hstate. rewrite Hstate. reflexivity.
Qed.

Lemma handleData_first_time (ruleName : string) (gen : Generation) (c : Client)
    (resource : Unstructured) (ctx : EvalContext) (err : error) (m : JSONMap) :
  GetResource c (Kind (GenSpec gen)) (Namespace (GenSpec gen)) (Name (GenSpec gen))
    = inr err ->
  IsNotFound (Some err) = true ->
  ToUnstructured (SubstituteVariables ctx (Data gen)) = (Some m, None) ->
  handleData ruleName gen c resource ctx "" = (Some m, None).
Proof.
  intros Hget Hnf Hconv. unfold handleData. rewrite Hget, Hnf, Hconv. reflexivity.
Qed.

Lemma dataBlock_falls_without_error (rule : Rule) (gen : Generation) (c : Client)
    (resource : Unstructured) (ctx : EvalContext) (state : GenerateRequestState)
    (spec : ResourceSpec) (rdata : option JSONMap) (err : option error) :
  dataBlock rule gen c resource ctx state spec = Fall rdata err -> err = None.
Proof.
  unfold dataBlock. destruct (isNil (Data gen)).
  - intros Heq; inversion Heq; reflexivity.
  - destruct (handleData (RuleName rule) gen c resource ctx state) as [rd [e|]] eqn:Hd.
    + rewrite (handleData_error_without_data _ _ _ _ _ _ _ _ Hd).
      destruct (isHandledDataError e); discriminate.
    + destruct (isNone rd); intros Heq; inversion Heq; reflexivity.
Qed.

Lemma cloneBlock_falls_without_error (gen : Generation) (c : Client)
    (resource : Unstructured) (ctx : EvalContext) (state : GenerateRequestState)
    (spec : ResourceSpec) (rdata rdata' : option JSONMap) (err' : option error) :
  cloneBlock gen c resource ctx state spec rdata None = Fall rdata' err' ->
  err' = None.
Proof.
  unfold cloneBlock. destruct (CloneFrom_isZero (Clone gen)).
  - intros Heq; inversion Heq; reflexivity.
  - destruct (handleClone gen c resource ctx state) as [rd [e|]].
    + discriminate.
    + destruct (isNone rd); intros Heq; inversion Heq; reflexivity.
Qed.

(** What [applyRule] does: either the existence checks decide, and they do
    so whatever [processExisting] is and without a call; or the creation is
    due, which [processExisting] turns into the empty answer and which is
    one call of [CreateResource] otherwise. *)
Lemma applyRule_cases (rule : Rule) (resource : Unstructured) (ctx : EvalContext)
    (state : GenerateRequestState) (w : World) :
  (exists r, forall pe, applyRule rule resource ctx state pe w = (r, w))
  \/ (exists (obj : Unstructured),
        applyRule rule resource ctx state true w = ((noResourceSpec, None), w)
        /\ applyRule rule resource ctx state false w
           = (let gen := variableSubsitutionForAttributes (RuleGeneration rule) ctx in
              let kind := Kind (GenSpec gen) in
              let namespace := Namespace (GenSpec gen) in
              let '(c', cerr) := CreateResource (client w) kind namespace obj false in
              (match cerr with
               | Some e => (noResourceSpec, Some e)
               | None => (mkResourceSpec kind namespace (Name (GenSpec gen)), None)
               end,
               mkWorld _ c' (calls w ++ [CreateResourceCall kind namespace obj false])))).
Proof.
  unfold applyRule, bind, getClient, ret, createResource.
  set (gen := variableSubsitutionForAttributes (RuleGeneration rule) ctx).
  set (spec := mkResourceSpec _ _ _).
  destruct (dataBlock rule gen (client w) resource ctx state spec)
    as [r | rdata err] eqn:Hd.
  - left. exists r. reflexivity.
  - pose proof (dataBlock_falls_without_error _ _ _ _ _ _ _ _ _ Hd) as ->.
    destruct (cloneBlock gen (client w) resource ctx state spec rdata None)
      as [r | rdata' err'] eqn:Hc.
    + left. exists r. reflexivity.
    + pose proof (cloneBlock_falls_without_error _ _ _ _ _ _ _ _ _ Hc) as ->.
      right.
      exists (SetResourceVersion ""
                (SetNamespace (Namespace (GenSpec gen))
                   (SetName (Name (GenSpec gen)) (SetUnstructuredContent rdata')))).
      split; [reflexivity|].
      cbv zeta. subst spec.
      destruct (CreateResource (client w) _ _ _ false) as [c' [e|]]; reflexivity.
Qed.

Lemma applyRule_processExisting (rule : Rule) (resource : Unstructured)
    (ctx : EvalContext) (state : GenerateRequestState) (w : World) :
  snd (applyRule rule resource ctx state true w) = w.
Proof.
  destruct (applyRule_cases rule resource ctx state w) as [[r Hr] | [obj [Ht _]]].
  - rewrite Hr. reflexivity.
  - rewrite Ht. reflexivity.
Qed.

(** [applyRule] makes no call but [CreateResource], and at most one. *)
Lemma applyRule_calls (rule : Rule) (resource : Unstructured) (ctx : EvalContext)
    (state : GenerateRequestState) (pe : bool) (w : World) :
  exists cs : list Call,
    calls (snd (applyRule rule resource ctx state pe w)) = calls w ++ cs
    /\ forallb isCreate cs = true /\ (length cs <= 1)%nat.
Proof.
  destruct (applyRule_cases rule resource ctx state w) as [[r Hr] | [obj [Ht Hf]]].
  - exists []. rewrite Hr, app_nil_r. simpl. repeat split; lia.
  - destruct pe.
    + exists []. rewrite Ht, app_nil_r. simpl. repeat split; lia.
    + rewrite Hf. simpl. destruct (CreateResource _ _ _ _ _) as [c' cerr].
      eexists [_]. simpl. repeat split; lia.
Qed.
End GenerateFacts.

(** ** The reconciler: a pass *)

Section PassFacts.
Context `{D : GenerateDeps} `{T : ErrorText}.

Lemma applyGenerateRules_processExisting (rules : list Rule)
    (resource : Unstructured) (ctx : EvalContext) (state : GenerateRequestState)
    (gens : list ResourceSpec) (w : World) :
  snd (applyGenerateRules rules resource ctx state true gens w) = w.
Proof.
  revert gens. induction rules as [|rule rules IH]; intros gens; simpl.
  - reflexivity.
  - destruct (HasGenerate rule); simpl; [|apply IH].
    unfold bind.
    pose proof (applyRule_processExisting rule resource ctx state w) as Hw.
    destruct (applyRule rule resource ctx state true w) as [[spec [e|]] w'];
      simpl in Hw; subst w'.
    + reflexivity.
    + apply IH.
Qed.

Lemma applyGenerateRules_error (rules : list Rule) (resource : Unstructured)
    (ctx : EvalContext) (state : GenerateRequestState) (pe : bool)
    (gens gens' : list ResourceSpec) (e : error) (w w' : World) :
  applyGenerateRules rules resource ctx state pe gens w = ((gens', Some e), w') ->
  gens' = [].
Proof.
  revert gens w. induction rules as [|rule rules IH]; intros gens w; simpl.
  - unfold ret. intros Heq; inversion Heq.
  - destruct (HasGenerate rule); simpl; [|apply IH].
    unfold bind.
    destruct (applyRule rule resource ctx state pe w) as [[spec [e'|]] w1].
    + unfold ret. intros Heq; inversion Heq; reflexivity.
    + apply IH.
Qed.

Lemma applyGenerateRules_calls (rules : list Rule) (resource : Unstructured)
    (ctx : EvalContext) (state : GenerateRequestState) (pe : bool)
    (gens : list ResourceSpec) (w : World) :
  exists cs : list Call,
    calls (snd (applyGenerateRules rules resource ctx state pe gens w)) = calls w ++ cs
    /\ forallb isCreate cs = true.
Proof.
  revert gens w. induction rules as [|rule rules IH]; intros gens w; simpl.
  - exists []. rewrite app_nil_r. split; reflexivity.
  - destruct (HasGenerate rule); simpl; [|apply IH].
    unfold bind.
    destruct (applyRule_calls rule resource ctx state pe w) as [cs [Hcs [Hcreate _]]].
    destruct (applyRule rule resource ctx state pe w) as [[spec [e'|]] w1];
      simpl in Hcs.
    + exists cs. split; assumption.
    + destruct (IH (gens ++ [spec]) w1) as [cs' [Hcs' Hcreate']].
      exists (cs ++ cs'). rewrite Hcs', Hcs, app_assoc. split; [reflexivity|].
      rewrite forallb_app, Hcreate, Hcreate'. reflexivity.
Qed.

Lemma applyGenerate_error (resource : Unstructured) (gr : GenerateRequest)
    (gens : list ResourceSpec) (e : error) (w w' : World) :
  applyGenerate resource gr w = ((gens, Some e), w') -> gens = [].
Proof.
  unfold applyGenerate, applyGeneratePolicy.
  destruct (pListerGet (SpecPolicy gr)) as [policy | perr].
  - destruct (MarshalJSON resource) as [raw | merr].
    + destruct (length _ =? 0)%nat.
      * unfold ret. intros Heq; inversion Heq; reflexivity.
      * apply applyGenerateRules_error.
    + unfold ret. intros Heq; inversion Heq; reflexivity.
  - unfold ret. intros Heq; inversion Heq.
Qed.

Lemma applyGenerate_calls (resource : Unstructured) (gr : GenerateRequest)
    (w : World) :
  exists cs : list Call,
    calls (snd (applyGenerate resource gr w)) = calls w ++ cs
    /\ forallb isCreate cs = true.
Proof.
  unfold applyGenerate, applyGeneratePolicy.
  destruct (pListerGet (SpecPolicy gr)) as [policy | perr].
  - destruct (MarshalJSON resource) as [raw | merr].
    + destruct (length _ =? 0)%nat.
      * exists []. simpl. rewrite app_nil_r. split; reflexivity.
      * apply applyGenerateRules_calls.
    + exists []. simpl. rewrite app_nil_r. split; reflexivity.
  - exists []. simpl. rewrite app_nil_r. split; reflexivity.
Qed.

Lemma processGR_not_located (gr : GenerateRequest) (w : World) (err : error) :
  getResource (client w) (SpecResource gr) = inr err ->
  processGR gr w = (Some err, w).
Proof.
  intros Hget. unfold processGR, bind, getClient. rewrite Hget. reflexivity.
Qed.

Lemma processGR_located (gr : GenerateRequest) (w w1 : World)
    (resource : Unstructured) (gens : list ResourceSpec) (err : option error) :
  getResource (client w) (SpecResource gr) = inl resource ->
  applyGenerate resource gr w = ((gens, err), w1) ->
  processGR gr w
  = (match err with
     | Some e => statusControlFailed gr (Error e) gens
     | None => statusControlSuccess gr gens
     end,
     mkWorld _ (client w1)
       (calls w1 ++ violationCalls gr resource err
        ++ [ReportEventsCall err gr resource; statusCall gr err gens])).
Proof.
  intros Hget Happly. unfold processGR, bind, getClient. rewrite Hget, Happly.
  unfold updateStatus, violationCalls, statusCall, bind, emit, ret.
  destruct err as [e|]; simpl.
  - destruct e; simpl; rewrite <- ?app_assoc; reflexivity.
  - rewrite <- ?app_assoc. reflexivity.
Qed.
End PassFacts.

(** ** The reconciler: the properties of the specification *)

Section GenerateClaims.
Context `{D : GenerateDeps} `{T : ErrorText}.

Lemma applyRule_replay (rule : Rule) (resource : Unstructured) (ctx : EvalContext)
    (state : GenerateRequestState) (pe : bool) (w : World) (e : error) :
  let gen := variableSubsitutionForAttributes (RuleGeneration rule) ctx in
  isNil (Data gen) = false ->
  GetResource (client w) (Kind (GenSpec gen)) (Namespace (GenSpec gen))
    (Name (GenSpec gen)) = inr e ->
  IsNotFound (Some e) = true ->
  state <> ""%string ->
  applyRule rule resource ctx state pe w
  = ((noResourceSpec,
      Some (Violation (RuleName rule)
              (NotFound (Kind (GenSpec gen)) (Namespace (GenSpec gen))
                 (Name (GenSpec gen))))), w).
Proof.
  intros gen Hdata Hget Hnf Hstate.
  unfold applyRule, bind, getClient, ret. fold gen.
  unfold dataBlock. rewrite Hdata.
  rewrite (handleData_replay _ gen _ resource ctx state e Hget Hnf Hstate).
  reflexivity.
Qed.

Lemma applyRule_first_delivery (rule : Rule) (resource : Unstructured)
    (ctx : EvalContext) (w : World) (e : error) (m : JSONMap) :
  let gen := variableSubsitutionForAttributes (RuleGeneration rule) ctx in
  isNil (Data gen) = false ->
  CloneFrom_isZero (Clone gen) = true ->
  GetResource (client w) (Kind (GenSpec gen)) (Namespace (GenSpec gen))
    (Name (GenSpec gen)) = inr e ->
  IsNotFound (Some e) = true ->
  ToUnstructured (SubstituteVariables ctx (Data gen)) = (Some m, None) ->
  exists obj : Unstructured,
    calls (snd (applyRule rule resource ctx "" false w))
    = calls w ++ [CreateResourceCall (Kind (GenSpec gen)) (Namespace (GenSpec gen))
                    obj false].
Proof.
  intros gen Hdata Hclone Hget Hnf Hconv.
  unfold applyRule, bind, getClient, ret, createResource. fold gen.
  unfold dataBlock. rewrite Hdata.
  rewrite (handleData_first_time _ gen _ resource ctx e m Hget Hnf Hconv).
  simpl. unfold cloneBlock. rewrite Hclone.
  destruct (CreateResource (client w) _ _ _ false) as [c' [cerr|]];
    eexists; reflexivity.
Qed.

(** C2.  A rule in data mode whose target is missing.  On the original
    delivery, with the empty state and a template that converts, the rule
    makes one [CreateResource] call.  When the request comes again with the
    state Completed or Failed and the target is missing still, the rule
    answers a [Violation] for the missing target and makes no call,
    whatever [processExisting] is: the calls of the two deliveries together
    are the one [CreateResource] call of the first. *)
Theorem replay_raises_violation_without_create (rule : Rule)
    (resource : Unstructured) (ctx : EvalContext) (w : World) (pe : bool)
    (state' : GenerateRequestState) (c' : Client) (e e' : error) (m : JSONMap) :
  let gen := variableSubsitutionForAttributes (RuleGeneration rule) ctx in
  let kind := Kind (GenSpec gen) in
  let namespace := Namespace (GenSpec gen) in
  let name := Name (GenSpec gen) in
  isNil (Data gen) = false ->
  CloneFrom_isZero (Clone gen) = true ->
  GetResource (client w) kind namespace name = inr e ->
  IsNotFound (Some e) = true ->
  ToUnstructured (SubstituteVariables ctx (Data gen)) = (Some m, None) ->
  state' = Completed \/ state' = Failed ->
  GetResource c' kind namespace name = inr e' ->
  IsNotFound (Some e') = true ->
  let first := applyRule rule resource ctx "" false w in
  let replay := applyRule rule resource ctx state' pe (mkWorld _ c' (calls (snd first))) in
  fst replay = (noResourceSpec, Some (Violation (RuleName rule) (NotFound kind namespace name)))
  /\ client (snd replay) = c'
  /\ (exists obj : Unstructured,
        calls (snd replay) = calls w ++ [CreateResourceCall kind namespace obj false])
  /\ length (filter isCreate (calls (snd replay)))
     = S (length (filter isCreate (calls w))).
Proof.
  intros gen kind namespace name Hdata Hclone Hget Hnf Hconv Hstate Hget' Hnf'
    first replay.
  assert (Hne : state' <> ""%string)
    by (destruct Hstate as [-> | ->]; discriminate).
  destruct (applyRule_first_delivery rule resource ctx w e m Hdata Hclone Hget Hnf Hconv)
    as [obj Hfirst].
  subst replay.
  rewrite (applyRule_replay rule resource ctx state' pe
             (mkWorld _ c' (calls (snd first))) e' Hdata Hget' Hnf' Hne).
  simpl. subst first. rewrite Hfirst.
  repeat split.
  - exists obj. reflexivity.
  - rewrite filter_app, length_app. simpl. lia.
Qed.

(** C5.  When the triggering resource was created before the policy,
    [processExisting] is set and the pass makes no call: every rule leaves
    the world as it found it.  The existence and violation checks run all
    the same, with the answer they give otherwise; and where they call for
    the creation, the rule answers the empty [ResourceSpec] and no error in
    place of the [CreateResource] call it makes otherwise. *)
Theorem processExisting_suppresses_create (pctx : PolicyContext)
    (state : GenerateRequestState) (rule : Rule) (w : World) :
  GetCreationTimestamp (NewResource pctx) < PolicyCreationTimestamp (Policy pctx) ->
  let pe := processExistingOf (Policy pctx) (NewResource pctx) in
  let gen := variableSubsitutionForAttributes (RuleGeneration rule) (Ctx pctx) in
  pe = true
  /\ snd (applyGeneratePolicy pctx state w) = w
  /\ snd (applyRule rule (NewResource pctx) (Ctx pctx) state pe w) = w
  /\ (applyRule rule (NewResource pctx) (Ctx pctx) state pe w
      = applyRule rule (NewResource pctx) (Ctx pctx) state false w
      \/ (applyRule rule (NewResource pctx) (Ctx pctx) state pe w
          = ((noResourceSpec, None), w)
          /\ exists obj : Unstructured,
               calls (snd (applyRule rule (NewResource pctx) (Ctx pctx) state false w))
               = calls w ++ [CreateResourceCall (Kind (GenSpec gen))
                               (Namespace (GenSpec gen)) obj false])).
Proof.
  intros Hbefore pe gen.
  assert (Hpe : pe = true) by (apply Z.ltb_lt; exact Hbefore).
  split; [exact Hpe|]. rewrite Hpe. split; [|split].
  - unfold applyGeneratePolicy. fold pe. rewrite Hpe.
    apply applyGenerateRules_processExisting.
  - apply applyRule_processExisting.
  - destruct (applyRule_cases rule (NewResource pctx) (Ctx pctx) state w)
      as [[r Hr] | [obj [Ht Hf]]].
    + left. rewrite !Hr. reflexivity.
    + right. split; [exact Ht|]. exists obj. rewrite Hf. fold gen.
      cbv zeta. destruct (CreateResource _ _ _ _ _). reflexivity.
Qed.
End GenerateClaims.

Section StatusClaims.
Context `{D : GenerateDeps} `{T : ErrorText}.

Lemma applyRule_data_error (rule : Rule) (resource : Unstructured)
    (ctx : EvalContext) (state : GenerateRequestState) (pe : bool) (w : World)
    (rdata : option JSONMap) (e : error) :
  let gen := variableSubsitutionForAttributes (RuleGeneration rule) ctx in
  isNil (Data gen) = false ->
  handleData (RuleName rule) gen (client w) resource ctx state = (rdata, Some e) ->
  applyRule rule resource ctx state pe w
  = (if isHandledDataError e
     then (mkResourceSpec (Kind (GenSpec gen)) (Namespace (GenSpec gen))
             (Name (GenSpec gen)), None)
     else (noResourceSpec, Some e), w).
Proof.
  intros gen Hdata Hhandle.
  pose proof (handleData_error_without_data _ _ _ _ _ _ _ _ Hhandle) as ->.
  unfold applyRule, bind, getClient, ret. fold gen.
  unfold dataBlock. rewrite Hdata, Hhandle.
  destruct (isHandledDataError e); reflexivity.
Qed.

(** C4.  The code where it departs from the specification.  The request
    comes for the first time, the policy has the one rule, in data mode,
    the target of the rule is missing and the template does not convert:
    [handleData] answers [ParseFailed].  [applyRule] does not return that
    error: it answers the [ResourceSpec] of the target and no error,
    without a call.  So the pass creates nothing, records no violation and
    ends with a [Success] status that lists the target among the generated
    resources. *)
Theorem parse_failure_is_answered_as_generated (gr : GenerateRequest) (w : World)
    (resource raw : Unstructured) (policy : ClusterPolicy) (rule : Rule)
    (missing cause : error) (rdata : option JSONMap) :
  let ctx := Ctx (contextFor policy resource raw gr) in
  let gen := variableSubsitutionForAttributes (RuleGeneration rule) ctx in
  getResource (client w) (SpecResource gr) = inl resource ->
  pListerGet (SpecPolicy gr) = inl policy ->
  MarshalJSON resource = inl raw ->
  RespRules (PolicyResp (GenerateNew (contextFor policy resource raw gr))) <> [] ->
  Rules policy = [rule] ->
  State gr = ""%string ->
  isNil (Data (RuleGeneration rule)) = false ->
  GetResource (client w) (Kind (GenSpec gen)) (Namespace (GenSpec gen))
    (Name (GenSpec gen)) = inr missing ->
  IsNotFound (Some missing) = true ->
  ToUnstructured (SubstituteVariables ctx (Data (RuleGeneration rule)))
    = (rdata, Some cause) ->
  handleData (RuleName rule) gen (client w) resource ctx ""
    = (None,
       Some (ParseFailed (SubstituteVariables ctx (Data (RuleGeneration rule))) cause))
  /\ (forall pe : bool,
        applyRule rule resource ctx "" pe w = ((targetOf gen, None), w))
  /\ processGR gr w
     = (statusControlSuccess gr [targetOf gen],
        mkWorld _ (client w)
          (calls w ++ [ReportEventsCall None gr resource;
                       StatusSuccessCall gr [targetOf gen]])).
Proof.
  intros ctx gen Hget Hpolicy Hraw Hresp Hrules Hstate Hdata Hmissing Hnf Hconv.
  assert (Hhandle : handleData (RuleName rule) gen (client w) resource ctx ""
                    = (None,
                       Some (ParseFailed
                               (SubstituteVariables ctx (Data (RuleGeneration rule)))
                               cause))).
  { unfold handleData. cbv zeta. rewrite Hmissing, Hnf.
    change (Data gen) with (Data (RuleGeneration rule)). rewrite Hconv.
    reflexivity. }
  assert (Hrule : forall pe : bool,
             applyRule rule resource ctx "" pe w = ((targetOf gen, None), w)).
  { intros pe.
    rewrite (applyRule_data_error rule resource ctx "" pe w None _ Hdata Hhandle).
    reflexivity. }
  split; [exact Hhandle | split; [exact Hrule |]].
  assert (Hgen : HasGenerate rule = true).
  { unfold HasGenerate. cbv zeta. rewrite Hdata, !andb_false_r. reflexivity. }
  assert (Happly : applyGenerate resource gr w = (([targetOf gen], None), w)).
  { unfold applyGenerate. rewrite Hpolicy, Hraw.
    change (mkPolicyContext policy resource (UserRequestInfo gr) _)
      with (contextFor policy resource raw gr).
    destruct (RespRules (PolicyResp (GenerateNew (contextFor policy resource raw gr))))
      as [|rr rrs]; [contradiction|].
    cbn [length Nat.eqb]. unfold applyGeneratePolicy.
    change (Policy (contextFor policy resource raw gr)) with policy.
    change (NewResource (contextFor policy resource raw gr)) with resource.
    fold ctx. rewrite Hrules, Hstate. cbn [applyGenerateRules].
    rewrite Hgen. cbn [negb]. unfold bind.
    rewrite (Hrule _). reflexivity. }
  rewrite (processGR_located gr w w resource [targetOf gen] None Hget Happly).
  reflexivity.
Qed.

Lemma applyGenerateRules_success (rules : list Rule) (resource : Unstructured)
    (ctx : EvalContext) (state : GenerateRequestState) (pe : bool)
    (gens gens' : list ResourceSpec) (w w' : World) :
  applyGenerateRules rules resource ctx state pe gens w = ((gens', None), w') ->
  length gens' = (length gens + length (List.filter HasGenerate rules))%nat.
Proof.
  revert gens w. induction rules as [|rule rules IH]; intros gens w; simpl.
  - unfold ret. intros Heq; inversion Heq; subst. lia.
  - destruct (HasGenerate rule) eqn:Hgen; simpl; [|apply IH].
    unfold bind.
    destruct (applyRule rule resource ctx state pe w) as [[spec [e'|]] w1].
    + unfold ret. intros Heq; inversion Heq.
    + intros Heq. apply IH in Heq. rewrite Heq, length_app. simpl. lia.
Qed.

Lemma omap_stateWritten_creates (cs : list Call) :
  forallb isCreate cs = true -> omap stateWritten cs = [].
Proof.
  induction cs as [|c cs IH]; simpl; [reflexivity|].
  intros Hall. apply andb_true_iff in Hall as [Hc Hcs].
  destruct c; try discriminate. simpl. apply IH. exact Hcs.
Qed.

Lemma creates_are_no_status_writes (cs : list Call) :
  forallb isCreate cs = true ->
  forallb (fun c => negb (isStatusWrite c)) cs = true.
Proof.
  induction cs as [|c cs IH]; simpl; [reflexivity|].
  intros Hall. apply andb_true_iff in Hall as [Hc Hcs].
  rewrite (IH Hcs). destruct c; try discriminate. reflexivity.
Qed.

(** C7, amended.  A pass that cannot locate the triggering resource writes
    no status and returns the error.  A pass that locates it ends with one
    status call, after the calls of the rules, the violation record and the
    events: [Failed] with the message of the error and an empty list of
    generated resources when [applyGenerate] returned an error, whatever
    the rules before the failing one generated; [Success] with the list
    [applyGenerate] returned otherwise, and that list has an entry for
    every generate rule the loop of [applyGeneratePolicy] went through. *)
Theorem terminal_status_of_a_pass (gr : GenerateRequest) (w : World) :
  (forall err : error,
     getResource (client w) (SpecResource gr) = inr err ->
     processGR gr w = (Some err, w))
  /\ (forall (resource : Unstructured) (gens : list ResourceSpec)
        (err : option error) (w1 : World),
        getResource (client w) (SpecResource gr) = inl resource ->
        applyGenerate resource gr w = ((gens, err), w1) ->
        (err <> None -> gens = [])
        /\ fst (processGR gr w)
           = match err with
             | Some e => statusControlFailed gr (Error e) []
             | None => statusControlSuccess gr gens
             end
        /\ exists others : list Call,
             calls (snd (processGR gr w))
             = calls w ++ others
               ++ [match err with
                   | Some e => StatusFailedCall gr (Error e) []
                   | None => StatusSuccessCall gr gens
                   end]
             /\ forallb (fun c => negb (isStatusWrite c)) others = true)
  /\ (forall (pctx : PolicyContext) (state : GenerateRequestState)
        (gens : list ResourceSpec) (w1 : World),
        applyGeneratePolicy pctx state w = ((gens, None), w1) ->
        length gens = length (List.filter HasGenerate (Rules (Policy pctx)))).
Proof.
  split; [|split].
  - intros err. apply processGR_not_located.
  - intros resource gens err w1 Hget Happly.
    assert (Hgens : err <> None -> gens = []).
    { destruct err as [e|]; [|congruence].
      intros _. exact (applyGenerate_error resource gr gens e w w1 Happly). }
    rewrite (processGR_located gr w w1 resource gens err Hget Happly).
    destruct (applyGenerate_calls resource gr w) as [cs [Hcs Hcreate]].
    rewrite Happly in Hcs. simpl in Hcs. simpl.
    split; [exact Hgens | split].
    + destruct err as [e|]; [|reflexivity].
      rewrite (Hgens ltac:(discriminate)). reflexivity.
    + exists (cs ++ violationCalls gr resource err ++ [ReportEventsCall err gr resource]).
      split.
      * rewrite Hcs. unfold statusCall.
        destruct err as [e|].
        -- rewrite (Hgens ltac:(discriminate)). rewrite <- !app_assoc. reflexivity.
        -- rewrite <- !app_assoc. reflexivity.
      * rewrite !forallb_app, (creates_are_no_status_writes cs Hcreate).
        unfold violationCalls. destruct err as [[]|]; reflexivity.
  - intros pctx state gens w1 Happly.
    unfold applyGeneratePolicy in Happly.
    apply applyGenerateRules_success in Happly. exact Happly.
Qed.

Lemma stateAfter_pass (gr : GenerateRequest) (resource : Unstructured)
    (cs : list Call) (err : option error) (gens : list ResourceSpec) :
  forallb isCreate cs = true ->
  stateAfter gr (cs ++ violationCalls gr resource err
                 ++ [ReportEventsCall err gr resource; statusCall gr err gens])
  = match err with Some _ => Failed | None => Completed end.
Proof.
  intros Hcreate. unfold stateAfter.
  rewrite !omap_app, (omap_stateWritten_creates cs Hcreate).
  replace (omap stateWritten (violationCalls gr resource err)) with (@nil string)
    by (unfold violationCalls; destruct err as [[]|]; reflexivity).
  destruct err; reflexivity.
Qed.

(** C8, amended.  A pass that locates the triggering resource leaves the
    request Failed when it ended with an error and Completed when it did
    not, whatever the state of the request was: besides New to Completed
    and New to Failed, a request that comes again goes from Completed to
    Failed, from Failed to Completed, or keeps its state.  No pass leaves
    the request New; a pass that cannot locate the triggering resource
    makes no call and leaves the state as it was.  A request that comes
    again with a state that is not New is a replay for a rule in data mode
    whose target is missing: a [Violation], and no call. *)
Theorem terminal_state_follows_the_pass (gr : GenerateRequest) (w : World) :
  (forall err : error,
     getResource (client w) (SpecResource gr) = inr err ->
     snd (processGR gr w) = w /\ stateAfter gr [] = State gr)
  /\ (forall (resource : Unstructured) (gens : list ResourceSpec)
        (err : option error) (w1 : World),
        getResource (client w) (SpecResource gr) = inl resource ->
        applyGenerate resource gr w = ((gens, err), w1) ->
        exists added : list Call,
          calls (snd (processGR gr w)) = calls w ++ added
          /\ stateAfter gr added
             = match err with Some _ => Failed | None => Completed end
          /\ stateAfter gr added <> ""%string)
  /\ (forall (rule : Rule) (resource : Unstructured) (ctx : EvalContext)
        (pe : bool) (e : error),
        State gr <> ""%string ->
        isNil (Data (variableSubsitutionForAttributes (RuleGeneration rule) ctx))
          = false ->
        GetResource (client w)
          (Kind (GenSpec (variableSubsitutionForAttributes (RuleGeneration rule) ctx)))
          (Namespace (GenSpec (variableSubsitutionForAttributes (RuleGeneration rule) ctx)))
          (Name (GenSpec (variableSubsitutionForAttributes (RuleGeneration rule) ctx)))
          = inr e ->
        IsNotFound (Some e) = true ->
        exists cause : error,
          applyRule rule resource ctx (State gr) pe w
          = ((noResourceSpec, Some (Violation (RuleName rule) cause)), w)).
Proof.
  split; [|split].
  - intros err Hget. rewrite (processGR_not_located gr w err Hget).
    split; reflexivity.
  - intros resource gens err w1 Hget Happly.
    rewrite (processGR_located gr w w1 resource gens err Hget Happly).
    destruct (applyGenerate_calls resource gr w) as [cs [Hcs Hcreate]].
    rewrite Happly in Hcs. simpl in Hcs. simpl.
    exists (cs ++ violationCalls gr resource err
            ++ [ReportEventsCall err gr resource; statusCall gr err gens]).
    rewrite (stateAfter_pass gr resource cs err gens Hcreate).
    split; [rewrite Hcs, <- app_assoc; reflexivity | split; [reflexivity|]].
    destruct err; discriminate.
  - intros rule resource ctx pe e Hstate Hdata Hget Hnf.
    eexists.
    exact (applyRule_replay rule resource ctx (State gr) pe w e Hdata Hget Hnf Hstate).
Qed.
End StatusClaims.

Section GenerateExamples.
Import InMemory Examples.

Lemma replay_raises_violation_without_create_witness :
  @GetResource dataDeps (client firstWorld) "ConfigMap" "dev" "defaults"
    = inr missingConfigMap
  /\ IsNotFound (Some missingConfigMap) = true
  /\ fst (@applyRule dataDeps dataRule (namespaceAt 200)
            (contextOf (namespaceAt 200)) Completed false
            (@mkWorld dataDeps (storeWith 200)
               (calls (snd (@applyRule dataDeps dataRule (namespaceAt 200)
                              (contextOf (namespaceAt 200)) "" false firstWorld)))))
     = (noResourceSpec,
        Some (Violation "default-config" (NotFound "ConfigMap" "dev" "defaults")))
  /\ length (filter isCreate
               (calls (snd (@applyRule dataDeps dataRule (namespaceAt 200)
                  (contextOf (namespaceAt 200)) Completed false
                  (@mkWorld dataDeps (storeWith 200)
                     (calls (snd (@applyRule dataDeps dataRule
                                    (namespaceAt 200) (contextOf (namespaceAt 200))
                                    "" false firstWorld))))))))
     = 1%nat.
Proof.
  pose proof (@replay_raises_violation_without_create dataDeps dataRule
                (namespaceAt 200) (contextOf (namespaceAt 200)) firstWorld false
                Completed (storeWith 200) missingConfigMap missingConfigMap
                [("data", VMapping [("k", VString "v")])]
                eq_refl eq_refl eq_refl eq_refl eq_refl (or_introl eq_refl)
                eq_refl eq_refl) as [Hanswer [_ [_ Hcount]]].
  split; [reflexivity | split; [reflexivity | split]].
  - exact Hanswer.
  - exact Hcount.
Defined.

Lemma processExisting_suppresses_create_witness :
  @GetCreationTimestamp dataDeps (NewResource (requestContext 50))
    < PolicyCreationTimestamp (Policy (requestContext 50))
  /\ snd (@applyGeneratePolicy dataDeps (requestContext 50) "" oldWorld)
     = oldWorld
  /\ snd (@applyRule dataDeps dataRule (NewResource (requestContext 50))
            (Ctx (requestContext 50)) ""
            (@processExistingOf dataDeps (Policy (requestContext 50))
               (NewResource (requestContext 50))) oldWorld)
     = oldWorld.
Proof.
  assert (Hold : @GetCreationTimestamp dataDeps (NewResource (requestContext 50))
                 < PolicyCreationTimestamp (Policy (requestContext 50)))
    by (vm_compute; reflexivity).
  pose proof (@processExisting_suppresses_create dataDeps
                (requestContext 50) "" dataRule oldWorld Hold)
    as [_ [Hpass [Hrule _]]].
  split; [exact Hold | split; [exact Hpass | exact Hrule]].
Defined.

(** With [processExisting] the rule answers the empty [ResourceSpec]. *)
Example old_resource_is_not_generated_for :
  fst (@applyRule dataDeps dataRule (namespaceAt 50) (contextOf (namespaceAt 50))
         "" true oldWorld)
  = (noResourceSpec, None)
  /\ calls (snd (@applyRule dataDeps dataRule (namespaceAt 50)
                   (contextOf (namespaceAt 50)) "" true oldWorld))
     = [].
Proof. split; vm_compute; reflexivity. Qed.

(** Without [processExisting] the same rule creates the ConfigMap. *)
Example first_delivery_creates :
  map isCreate
    (calls (snd (@applyRule dataDeps dataRule (namespaceAt 200)
                   (contextOf (namespaceAt 200)) "" false firstWorld)))
  = [true]
  /\ fst (@applyRule dataDeps dataRule (namespaceAt 200)
            (contextOf (namespaceAt 200)) "" false firstWorld)
     = (configMapSpec, None).
Proof. split; vm_compute; reflexivity. Qed.

Lemma parse_failure_is_answered_as_generated_witness :
  State (requestIn "") = ""%string
  /\ isNil (Data (RuleGeneration listRule)) = false
  /\ @ToUnstructured listDeps
       (@SubstituteVariables listDeps (contextOf (namespaceAt 200))
          (Data (RuleGeneration listRule)))
     = (None, Some noMap)
  /\ @handleData listDeps (RuleName listRule)
       (@variableSubsitutionForAttributes listDeps (RuleGeneration listRule)
          (contextOf (namespaceAt 200)))
       (client listWorld) (namespaceAt 200) (contextOf (namespaceAt 200)) ""
     = (None,
        Some (ParseFailed
                (VSequence [VMapping [("data", VMapping [("k", VString "v")])]])
                noMap))
  /\ fst (@applyRule listDeps listRule (namespaceAt 200) (contextOf (namespaceAt 200))
            "" false listWorld)
     = (notesSpec, None)
  /\ fst (@processGR listDeps errorText (requestIn "") listWorld) = None
  /\ calls (snd (@processGR listDeps errorText (requestIn "") listWorld))
     = [ReportEventsCall None (requestIn "") (namespaceAt 200);
        StatusSuccessCall (requestIn "") [notesSpec]].
Proof.
  pose proof (@parse_failure_is_answered_as_generated listDeps errorText
                (requestIn "") listWorld (namespaceAt 200) (namespaceAt 200)
                (policyOf [listRule]) listRule missingNotes noMap None
                eq_refl eq_refl eq_refl ltac:(discriminate) eq_refl eq_refl eq_refl
                eq_refl eq_refl eq_refl)
    as [Hhandle [Hrule Hpass]].
  split; [reflexivity | split; [reflexivity | split; [reflexivity |]]].
  split; [exact Hhandle |].
  split; [exact (f_equal fst (Hrule false)) |].
  split; [exact (f_equal fst Hpass) | exact (f_equal (fun r => calls (snd r)) Hpass)].
Defined.

Lemma terminal_status_of_a_pass_witness :
  @getResource pairDeps (client pairWorld) (SpecResource (requestIn ""))
    = inl (namespaceAt 200)
  /\ fst (@applyGenerate pairDeps (namespaceAt 200) (requestIn "") pairWorld)
     = ([], Some missingSource)
  /\ fst (@processGR pairDeps errorText (requestIn "") pairWorld)
     = @statusControlFailed pairDeps (requestIn "") (Error missingSource) [].
Proof.
  assert (Hget : @getResource pairDeps (client pairWorld) (SpecResource (requestIn ""))
                 = inl (namespaceAt 200)) by reflexivity.
  assert (Hfst : fst (@applyGenerate pairDeps (namespaceAt 200) (requestIn "") pairWorld)
                 = ([], Some missingSource)) by (vm_compute; reflexivity).
  split; [exact Hget | split; [exact Hfst |]].
  refine (proj1 (proj2 (proj1 (proj2 (@terminal_status_of_a_pass pairDeps errorText
                                        (requestIn "") pairWorld))
                          (namespaceAt 200) [] (Some missingSource)
                          (snd (@applyGenerate pairDeps (namespaceAt 200)
                                  (requestIn "") pairWorld))
                          Hget _))).
  rewrite <- Hfst. apply surjective_pairing.
Defined.

(** C7 as stated fails.  The first rule creates the ConfigMap and answers
    its [ResourceSpec]; the second rule fails, the source of the clone
    being absent.  The [Failed] status of the pass carries an empty list,
    not the ConfigMap the pass generated. *)
Lemma failed_status_drops_generated_resources :
  @applyRule pairDeps dataRule (namespaceAt 200) (contextOf (namespaceAt 200))
    "" false pairWorld
  = ((configMapSpec, None), pairWorldAfter)
  /\ fst (@applyRule pairDeps cloneRule (namespaceAt 200)
            (contextOf (namespaceAt 200)) "" false pairWorldAfter)
     = (noResourceSpec, Some missingSource)
  /\ filter isCreate
       (calls (snd (@processGR pairDeps errorText (requestIn "") pairWorld)))
     = [CreateResourceCall "ConfigMap" "dev" configMap false]
  /\ last (calls (snd (@processGR pairDeps errorText (requestIn "") pairWorld)))
     = Some (StatusFailedCall (requestIn "")
               "resource Secret/default/regcred not present" []).
Proof. repeat split; vm_compute; reflexivity. Qed.

Lemma terminal_state_follows_the_pass_witness :
  @getResource dataDeps (client firstWorld) (SpecResource (requestIn Completed))
    = inl (namespaceAt 200)
  /\ fst (@applyGenerate dataDeps (namespaceAt 200) (requestIn Completed) firstWorld)
     = ([], Some (Violation "default-config" (NotFound "ConfigMap" "dev" "defaults")))
  /\ exists added : list Call,
       calls (snd (@processGR dataDeps errorText (requestIn Completed) firstWorld))
       = calls firstWorld ++ added
       /\ stateAfter (requestIn Completed) added = Failed
       /\ stateAfter (requestIn Completed) added <> ""%string.
Proof.
  assert (Hget : @getResource dataDeps (client firstWorld)
                   (SpecResource (requestIn Completed))
                 = inl (namespaceAt 200)) by reflexivity.
  assert (Hfst : fst (@applyGenerate dataDeps (namespaceAt 200) (requestIn Completed)
                        firstWorld)
                 = ([], Some (Violation "default-config"
                                (NotFound "ConfigMap" "dev" "defaults"))))
    by (vm_compute; reflexivity).
  split; [exact Hget | split; [exact Hfst |]].
  refine (proj1 (proj2 (@terminal_state_follows_the_pass dataDeps errorText
                          (requestIn Completed) firstWorld))
            (namespaceAt 200) []
            (Some (Violation "default-config" (NotFound "ConfigMap" "dev" "defaults")))
            (snd (@applyGenerate dataDeps (namespaceAt 200) (requestIn Completed)
                    firstWorld))
            Hget _).
  rewrite <- Hfst. apply surjective_pairing.
Defined.

(** C8 as stated fails.  A request that is Completed comes again while its
    target is missing: the pass leaves it Failed.  A request that is Failed
    comes again while its target exists with the content of the template:
    the pass leaves it Completed. *)
Lemma state_changes_after_a_terminal_state :
  State (requestIn Completed) = Completed
  /\ stateAfter (requestIn Completed)
       (calls (snd (@processGR dataDeps errorText (requestIn Completed) firstWorld)))
     = Failed
  /\ State (requestIn Failed) = Failed
  /\ stateAfter (requestIn Failed)
       (calls (snd (@processGR dataDeps errorText (requestIn Failed) configMapWorld)))
     = Completed.
Proof. repeat split; vm_compute; reflexivity. Qed.
End GenerateExamples.

(** ** The work queue: retries *)

Section ControllerFacts.
Context `{C : ControllerDeps}.





Lemma enqueued_ready (key : string) : enqueued key = readyController key ∅.
Proof.
  unfold enqueued, readyController, Add, emptyWorkQueue. simpl.
  rewrite !bool_decide_eq_false_2 by apply not_elem_of_empty. reflexivity.
Qed.

Lemma difference_self (key : string) :
  ({[key]} ∪ ∅) ∖ {[key]} = (∅ : gset string).
Proof. rewrite union_empty_r_L. apply difference_diag_L. Qed.

Section Run.
Variable key : string.
Variable e : error.
Hypothesis Hsync : syncHandler (VString key) = (Some e, []).





End Run.

End ControllerFacts.

Section ControllerExamples.
Import InMemory Examples.


(** With the limit three, the key is counted once more by each of the
    first three handlings, and the fourth forgets it. *)
Example requeue_counts :
  map (fun n => NumRequeues "policy" (pcQueue (@turns controller n (enqueued "policy"))))
    [0; 1; 2; 3; 4; 5]%nat
  = [0; 1; 2; 3; 0; 0].
Proof. vm_compute. reflexivity. Qed.
End ControllerExamples.

(** * Further properties of the code *)

(** ** [Mutate]: what every run keeps *)

Section MutateInvariants.
Context `{E : EngineDeps} `{T : ErrorText}.

Lemma header_appendRule (rr : RuleResponse) (resp : PolicyResponse) :
  header (appendRule rr resp) = header resp.
Proof. reflexivity. Qed.

Lemma header_increment (resp : PolicyResponse) :
  header (incrementAppliedRuleCount resp) = header resp.
Proof. reflexivity. Qed.

Lemma header_autogenPhase (pc : PolicyContext) (rule : Rule) (st : mutateState) :
  header (fst (autogenPhase pc rule st)) = header (fst st).
Proof.
  unfold autogenPhase. destruct st as [resp patched].
  destruct (bool_decide (AdmissionInfo pc = emptyRequestInfo)); [reflexivity|].
  destruct (Contains PodControllers (GetKind (NewResource pc))); [|reflexivity].
  destruct (ProcessOverlay (RuleName rule) (OverlayRule podTemplateRule) patched)
    as [rr patched'].
  destruct (Success rr); simpl; [|reflexivity].
  destruct (isNone (RespPatches rr)); reflexivity.
Qed.

Lemma header_patchesPhase (rule : Rule) (st : mutateState) :
  header (fst (patchesPhase rule st)) = header (fst st).
Proof.
  unfold patchesPhase. destruct st as [resp patched].
  destruct (isNone (Patches (RuleMutation rule))); [reflexivity|].
  destruct (ProcessPatches rule patched). reflexivity.
Qed.

Lemma header_overlayPhase (ctx : EvalContext) (rule : Rule) (st : mutateState) :
  header (fst (flowState (overlayPhase ctx rule st))) = header (fst st).
Proof.
  unfold overlayPhase. destruct st as [resp patched].
  destruct (isNil (Overlay (RuleMutation rule))); [reflexivity|].
  destruct (SubstituteVars ctx (Overlay (RuleMutation rule))) as [overlay' | err];
    [|reflexivity].
  destruct (ProcessOverlay (RuleName rule) (OverlayValue overlay') patched)
    as [rr patched'].
  destruct (Success rr && isNone (RespPatches rr)); reflexivity.
Qed.

Lemma header_mutateRule (pc : PolicyContext) (st : mutateState) (rule : Rule) :
  header (fst (mutateRule pc st rule)) = header (fst st).
Proof.
  destruct (ruleGate pc rule) eqn:Hgate.
  - rewrite (mutateRule_gate_true pc st rule Hgate).
    pose proof (header_overlayPhase (Ctx pc) rule st) as Hov.
    destruct (overlayPhase (Ctx pc) rule st) as [st' | st']; simpl in Hov.
    + exact Hov.
    + rewrite header_autogenPhase, header_patchesPhase. exact Hov.
  - rewrite (mutateRule_gate_false pc st rule Hgate). reflexivity.
Qed.

Lemma header_fold (pc : PolicyContext) (rules : list Rule) (st : mutateState) :
  header (fst (fold_left (mutateRule pc) rules st)) = header (fst st).
Proof.
  revert st. induction rules as [|rule rules IH]; intros st; simpl.
  - reflexivity.
  - rewrite IH. apply header_mutateRule.
Qed.

(** X1.  The response of [Mutate] names the policy of the request and the
    resource of the request as it came in: its kind, namespace, name and
    API version are those of the original resource, whatever the rules
    have patched. *)
Theorem Mutate_response_names_the_request (pc : PolicyContext) :
  RespPolicy (PolicyResp (Mutate pc)) = PolicyName (Policy pc)
  /\ RespResource (PolicyResp (Mutate pc))
     = mkResourceSpec (GetKind (NewResource pc)) (GetNamespace (NewResource pc))
         (GetName (NewResource pc))
  /\ RespAPIVersion (PolicyResp (Mutate pc)) = GetAPIVersion (NewResource pc).
Proof.
  pose proof (header_fold pc (Rules (Policy pc))
                (startMutateResultResponse zeroPolicyResponse (Policy pc)
                   (NewResource pc), NewResource pc)) as Hh.
  unfold Mutate.
  destruct (fold_left (mutateRule pc) (Rules (Policy pc)) _) as [resp patched].
  unfold header in Hh. simpl in *. inversion Hh. repeat split; assumption.
Qed.

Lemma fold_mutateRule_gated_out (pc : PolicyContext) (rules : list Rule)
    (st : mutateState) :
  (forall rule, In rule rules -> ruleGate pc rule = false) ->
  fold_left (mutateRule pc) rules st = st.
Proof.
  revert st. induction rules as [|rule rules IH]; intros st Hgate; simpl.
  - reflexivity.
  - rewrite (mutateRule_gate_false pc st rule (Hgate rule (or_introl eq_refl))).
    apply IH. intros r Hr. apply Hgate. right. exact Hr.
Qed.

(** X2.  When no rule of the policy passes the gates (the rule has no
    mutation and the kind is no pod controller, or the matcher refuses the
    resource, or the conditions do not hold), [Mutate] answers the resource
    of the request unchanged, records no response and counts nothing. *)
Theorem Mutate_without_applicable_rule (pc : PolicyContext) :
  (forall rule, In rule (Rules (Policy pc)) -> ruleGate pc rule = false) ->
  PatchedResource (Mutate pc) = NewResource pc
  /\ RespRules (PolicyResp (Mutate pc)) = []
  /\ RulesAppliedCount (PolicyResp (Mutate pc)) = 0.
Proof.
  intros Hgate. unfold Mutate.
  rewrite (fold_mutateRule_gated_out pc (Rules (Policy pc)) _ Hgate).
  repeat split.
Qed.
End MutateInvariants.

Section MutateBounds.
Context `{E : EngineDeps} `{T : ErrorText}.

Lemma extends_refl (resp : PolicyResponse) : extends 0 0 resp resp.
Proof.
  exists [], 0%nat. rewrite app_nil_r. simpl. repeat split; lia.
Qed.

Lemma extends_weaken (n m n' m' : nat) (resp resp' : PolicyResponse) :
  (n <= n')%nat -> (m <= m')%nat ->
  extends n m resp resp' -> extends n' m' resp resp'.
Proof.
  intros Hn Hm (added & k & Hrules & Hlen & Hk & Hkm & Hcount).
  exists added, k. repeat split; try assumption; lia.
Qed.

Lemma extends_trans (n m n' m' : nat) (resp resp' resp'' : PolicyResponse) :
  extends n m resp resp' -> extends n' m' resp' resp'' ->
  extends (n + n') (m + m') resp resp''.
Proof.
  intros (added & k & Hrules & Hlen & Hk & Hkm & Hcount)
         (added' & k' & Hrules' & Hlen' & Hk' & Hkm' & Hcount').
  exists (added ++ added'), (k' + k)%nat.
  rewrite Hrules', Hrules, Hcount', Hcount, length_app, <- app_assoc.
  unfold incremented. rewrite Nat.iter_add. repeat split; lia.
Qed.

Lemma extends_append (rr : RuleResponse) (resp : PolicyResponse) :
  extends 1 0 resp (appendRule rr resp).
Proof. exists [rr], 0%nat. simpl. repeat split; lia. Qed.

Lemma extends_append_increment (rr : RuleResponse) (resp : PolicyResponse) :
  extends 1 1 resp (incrementAppliedRuleCount (appendRule rr resp)).
Proof. exists [rr], 1%nat. simpl. repeat split; lia. Qed.

Lemma extends_overlayPhase (ctx : EvalContext) (rule : Rule) (st : mutateState) :
  extends 1 1 (fst st) (fst (flowState (overlayPhase ctx rule st))).
Proof.
  unfold overlayPhase. destruct st as [resp patched].
  destruct (isNil (Overlay (RuleMutation rule)));
    [apply (extends_weaken 0 0); [lia | lia | apply extends_refl]|].
  destruct (SubstituteVars ctx (Overlay (RuleMutation rule))) as [overlay' | err].
  - destruct (ProcessOverlay (RuleName rule) (OverlayValue overlay') patched)
      as [rr patched'].
    destruct (Success rr && isNone (RespPatches rr)); simpl.
    + apply (extends_weaken 0 0); [lia | lia | apply extends_refl].
    + apply extends_append_increment.
  - simpl. apply (extends_weaken 1 0); [lia | lia | apply extends_append].
Qed.

Lemma extends_patchesPhase (rule : Rule) (st : mutateState) :
  extends 1 1 (fst st) (fst (patchesPhase rule st)).
Proof.
  unfold patchesPhase. destruct st as [resp patched].
  destruct (isNone (Patches (RuleMutation rule)));
    [apply (extends_weaken 0 0); [lia | lia | apply extends_refl]|].
  destruct (ProcessPatches rule patched) as [rr patched']. simpl.
  apply extends_append_increment.
Qed.

Lemma extends_autogenPhase (pc : PolicyContext) (rule : Rule) (st : mutateState) :
  extends 1 0 (fst st) (fst (autogenPhase pc rule st)).
Proof.
  unfold autogenPhase. destruct st as [resp patched].
  destruct (bool_decide (AdmissionInfo pc = emptyRequestInfo));
    [apply (extends_weaken 0 0); [lia | lia | apply extends_refl]|].
  destruct (Contains PodControllers (GetKind (NewResource pc)));
    [|apply (extends_weaken 0 0); [lia | lia | apply extends_refl]].
  destruct (ProcessOverlay (RuleName rule) (OverlayRule podTemplateRule) patched)
    as [rr patched'].
  destruct (Success rr); simpl;
    [|apply (extends_weaken 0 0); [lia | lia | apply extends_refl]].
  destruct (isNone (RespPatches rr)); simpl.
  - apply (extends_weaken 0 0); [lia | lia | apply extends_refl].
  - apply extends_append.
Qed.

Lemma extends_mutateRule (pc : PolicyContext) (st : mutateState) (rule : Rule) :
  extends 3 2 (fst st) (fst (mutateRule pc st rule)).
Proof.
  destruct (ruleGate pc rule) eqn:Hgate.
  - rewrite (mutateRule_gate_true pc st rule Hgate).
    pose proof (extends_overlayPhase (Ctx pc) rule st) as Hov.
    destruct (overlayPhase (Ctx pc) rule st) as [st' | st']; simpl in Hov.
    + apply (extends_weaken 1 1); [lia | lia | exact Hov].
    + apply (extends_trans 2 2 1 0 _ (fst (patchesPhase rule st')) _);
        [|apply extends_autogenPhase].
      apply (extends_trans 1 1 1 1 _ (fst st') _);
        [exact Hov | apply extends_patchesPhase].
  - rewrite (mutateRule_gate_false pc st rule Hgate).
    apply (extends_weaken 0 0); [lia | lia | apply extends_refl].
Qed.

Lemma extends_fold (pc : PolicyContext) (rules : list Rule) (st : mutateState) :
  extends (3 * length rules) (2 * length rules) (fst st)
    (fst (fold_left (mutateRule pc) rules st)).
Proof.
  revert st. induction rules as [|rule rules IH]; intros st.
  - apply extends_refl.
  - simpl fold_left.
    apply (extends_weaken (3 + 3 * length rules) (2 + 2 * length rules));
      [simpl; lia | simpl; lia |].
    apply (extends_trans 3 2 _ _ _ (fst (mutateRule pc st rule)));
      [apply extends_mutateRule | apply IH].
Qed.

(** X3.  [Mutate] only ever appends to the responses recorded so far, at
    most three for a rule (overlay, literal patches, autogen), and it
    increments the applied count at most twice for a rule and never more
    often than it records a response. *)
Theorem Mutate_records_and_counts_within_bounds (pc : PolicyContext) :
  (forall (rules : list Rule) (st : mutateState),
     exists added : list RuleResponse,
       RespRules (fst (fold_left (mutateRule pc) rules st))
       = RespRules (fst st) ++ added)
  /\ (length (RespRules (PolicyResp (Mutate pc)))
      <= 3 * length (Rules (Policy pc)))%nat
  /\ exists k : nat,
       (k <= length (RespRules (PolicyResp (Mutate pc))))%nat
       /\ (k <= 2 * length (Rules (Policy pc)))%nat
       /\ RulesAppliedCount (PolicyResp (Mutate pc)) = incremented k 0.
Proof.
  split.
  - intros rules st.
    destruct (extends_fold pc rules st) as (added & k & Hrules & _).
    exists added. exact Hrules.
  - destruct (extends_fold pc (Rules (Policy pc))
                (startMutateResultResponse zeroPolicyResponse (Policy pc)
                   (NewResource pc), NewResource pc))
      as (added & k & Hrules & Hlen & Hk & Hkm & Hcount).
    unfold Mutate.
    destruct (fold_left (mutateRule pc) (Rules (Policy pc)) _) as [resp patched].
    simpl in *. rewrite Hrules. simpl. split; [exact Hlen|].
    exists k. repeat split; assumption.
Qed.

Lemma mutateRule_without_mutation (pc : PolicyContext) (st : mutateState)
    (rule : Rule) :
  AdmissionInfo pc = emptyRequestInfo
  \/ Contains PodControllers (GetKind (NewResource pc)) = false ->
  HasMutate rule = false ->
  mutateRule pc st rule = st.
Proof.
  intros Hskip Hmut. destruct (ruleGate pc rule) eqn:Hgate.
  - rewrite (mutateRule_gate_true pc st rule Hgate).
    destruct (HasMutate_false rule Hmut) as [Hov Hpa].
    rewrite (overlayPhase_no_overlay _ rule _ Hov).
    rewrite (patchesPhase_no_patches rule _ Hpa).
    apply autogenPhase_skipped. exact Hskip.
  - apply mutateRule_gate_false. exact Hgate.
Qed.

Lemma fold_mutateRule_filter (pc : PolicyContext) (rules : list Rule)
    (st : mutateState) :
  AdmissionInfo pc = emptyRequestInfo
  \/ Contains PodControllers (GetKind (NewResource pc)) = false ->
  fold_left (mutateRule pc) rules st
  = fold_left (mutateRule pc) (List.filter HasMutate rules) st.
Proof.
  intros Hskip. revert st. induction rules as [|rule rules IH]; intros st; simpl.
  - reflexivity.
  - destruct (HasMutate rule) eqn:Hmut; simpl.
    + apply IH.
    + rewrite (mutateRule_without_mutation pc st rule Hskip Hmut). apply IH.
Qed.

Lemma mutateRule_withRules (pc : PolicyContext) (rules : list Rule) :
  mutateRule (withRules rules pc) = mutateRule pc.
Proof. reflexivity. Qed.

(** X4.  For a request without caller identity, and for a resource whose
    kind does not occur in the pod-controller constant, the rules without a
    mutation have no effect at all: [Mutate] answers what it answers for
    the policy with those rules removed. *)
Theorem Mutate_ignores_rules_without_mutation (pc : PolicyContext) :
  AdmissionInfo pc = emptyRequestInfo
  \/ Contains PodControllers (GetKind (NewResource pc)) = false ->
  Mutate pc = Mutate (withRules (List.filter HasMutate (Rules (Policy pc))) pc).
Proof.
  intros Hskip. unfold Mutate. simpl.
  rewrite mutateRule_withRules.
  rewrite <- (fold_mutateRule_filter pc (Rules (Policy pc)) _ Hskip).
  reflexivity.
Qed.

(** X5.  A rule whose overlay phase ends the rule never gets its literal
    patches or the autogen overlay applied.  When the variables of the
    overlay do not substitute, the failure is recorded without the name of
    the rule and the threaded resource stays as it was; when the resource
    satisfies the overlay already, nothing is recorded.  In both cases the
    applied count stays, and [ProcessPatches] is not consulted even if the
    rule has patches. *)
Theorem overlay_end_skips_the_later_phases (pc : PolicyContext) (rule : Rule)
    (resp : PolicyResponse) (patched : Unstructured) :
  ruleGate pc rule = true ->
  isNil (Overlay (RuleMutation rule)) = false ->
  (forall err : error,
     SubstituteVars (Ctx pc) (Overlay (RuleMutation rule)) = inr err ->
     mutateRule pc (resp, patched) rule
     = (appendRule (mkRuleResponse "" "" (Error err) None false) resp, patched))
  /\ (forall (overlay' : value) (rr : RuleResponse) (patched' : Unstructured),
        SubstituteVars (Ctx pc) (Overlay (RuleMutation rule)) = inl overlay' ->
        ProcessOverlay (RuleName rule) (OverlayValue overlay') patched
          = (rr, patched') ->
        Success rr = true -> RespPatches rr = None ->
        mutateRule pc (resp, patched) rule = (resp, patched')).
Proof.
  intros Hgate Hov. rewrite (mutateRule_gate_true pc _ rule Hgate). split.
  - intros err Hsub.
    rewrite (overlayPhase_substitution_fails (Ctx pc) rule resp patched err Hov Hsub).
    reflexivity.
  - intros overlay' rr patched' Hsub Hpo Hsucc Hnil.
    rewrite (overlayPhase_processed (Ctx pc) rule resp patched patched' overlay' rr
               Hov Hsub Hpo).
    rewrite Hsucc, Hnil. reflexivity.
Qed.
End MutateBounds.

(** ** The reconciler: one rule, case by case *)

Section RuleCases.
Context `{D : GenerateDeps}.

(** X6.  A rule whose target exists makes no call.  In data mode the
    answer is the verdict of the validator on the existing object: the
    [ResourceSpec] of the target when the template is a subset of it, and
    the validator's own error otherwise ([handleData] makes no
    [ConfigNotFound] of its own, the branch for it cannot be reached).  In
    clone mode the answer is the [ResourceSpec] of the target, and the
    source of the clone is not even looked up. *)
Theorem existing_target_is_left_alone (rule : Rule) (resource : Unstructured)
    (ctx : EvalContext) (state : GenerateRequestState) (pe : bool) (w : World)
    (obj : Unstructured) :
  let gen := variableSubsitutionForAttributes (RuleGeneration rule) ctx in
  let newData := SubstituteVariables ctx (Data gen) in
  GetResource (client w) (Kind (GenSpec gen)) (Namespace (GenSpec gen))
    (Name (GenSpec gen)) = inl obj ->
  handleData (RuleName rule) gen (client w) resource ctx state
    = (None, snd (ValidateResourceWithPattern ctx obj newData))
  /\ (isNil (Data gen) = false ->
      snd (ValidateResourceWithPattern ctx obj newData) = None ->
      applyRule rule resource ctx state pe w = ((targetOf gen, None), w))
  /\ (forall verr : error,
        isNil (Data gen) = false ->
        snd (ValidateResourceWithPattern ctx obj newData) = Some verr ->
        isHandledDataError verr = false ->
        applyRule rule resource ctx state pe w = ((noResourceSpec, Some verr), w))
  /\ (isNil (Data gen) = true ->
      CloneFrom_isZero (Clone gen) = false ->
      applyRule rule resource ctx state pe w = ((targetOf gen, None), w)).
Proof.
  intros gen newData Hget.
  assert (Hhandle : handleData (RuleName rule) gen (client w) resource ctx state
                    = (None, snd (ValidateResourceWithPattern ctx obj newData))).
  { unfold handleData, checkResource. rewrite Hget. fold newData.
    destruct (ValidateResourceWithPattern ctx obj newData) as [path [verr|]];
      reflexivity. }
  split; [exact Hhandle | split; [|split]].
  - intros Hdata Hok.
    unfold applyRule, bind, getClient, ret. fold gen.
    unfold dataBlock. rewrite Hdata, Hhandle, Hok. reflexivity.
  - intros verr Hdata Hbad Hplain.
    unfold applyRule, bind, getClient, ret. fold gen.
    unfold dataBlock. rewrite Hdata, Hhandle, Hbad, Hplain. reflexivity.
  - intros Hdata Hclone.
    unfold applyRule, bind, getClient, ret. fold gen.
    unfold dataBlock. rewrite Hdata.
    unfold cloneBlock, handleClone. rewrite Hclone, Hget. reflexivity.
Qed.

(** X7.  Clone mode with the target missing and the source missing too:
    the rule answers the [NotFound] error of the source and makes no
    call. *)
Theorem clone_without_source_fails (rule : Rule) (resource : Unstructured)
    (ctx : EvalContext) (state : GenerateRequestState) (pe : bool) (w : World)
    (e e' : error) :
  let gen := variableSubsitutionForAttributes (RuleGeneration rule) ctx in
  isNil (Data gen) = true ->
  CloneFrom_isZero (Clone gen) = false ->
  GetResource (client w) (Kind (GenSpec gen)) (Namespace (GenSpec gen))
    (Name (GenSpec gen)) = inr e ->
  IsNotFound (Some e) = true ->
  GetResource (client w) (Kind (GenSpec gen)) (CloneNamespace (Clone gen))
    (CloneName (Clone gen)) = inr e' ->
  IsNotFound (Some e') = true ->
  applyRule rule resource ctx state pe w
  = ((noResourceSpec,
      Some (NotFound (Kind (GenSpec gen)) (CloneNamespace (Clone gen))
              (CloneName (Clone gen)))), w).
Proof.
  intros gen Hdata Hclone Hget Hnf Hsrc Hnf'.
  unfold applyRule, bind, getClient, ret. fold gen.
  unfold dataBlock. rewrite Hdata.
  unfold cloneBlock, handleClone. rewrite Hclone, Hget, Hnf. cbn [negb].
  rewrite Hsrc, Hnf'. reflexivity.
Qed.

Lemma applyRule_clone_state (rule : Rule) (resource : Unstructured)
    (ctx : EvalContext) (state state' : GenerateRequestState) (pe : bool)
    (w : World) :
  isNil (Data (variableSubsitutionForAttributes (RuleGeneration rule) ctx)) = true ->
  applyRule rule resource ctx state pe w = applyRule rule resource ctx state' pe w.
Proof.
  intros Hdata. unfold applyRule, bind, getClient, ret.
  unfold dataBlock. rewrite Hdata. reflexivity.
Qed.

(** X8.  Clone mode does not look at the state of the request.  A rule
    without a template answers the same for every state; so when its
    target is missing and its source exists, it calls [CreateResource]
    with the content of the source under the name and the namespace of the
    target, on a replay as on the first delivery. *)
Theorem clone_mode_ignores_the_state (rule : Rule) (resource : Unstructured)
    (ctx : EvalContext) (state : GenerateRequestState) (w : World)
    (e : error) (source : Unstructured) :
  let gen := variableSubsitutionForAttributes (RuleGeneration rule) ctx in
  isNil (Data gen) = true ->
  CloneFrom_isZero (Clone gen) = false ->
  GetResource (client w) (Kind (GenSpec gen)) (Namespace (GenSpec gen))
    (Name (GenSpec gen)) = inr e ->
  IsNotFound (Some e) = true ->
  GetResource (client w) (Kind (GenSpec gen)) (CloneNamespace (Clone gen))
    (CloneName (Clone gen)) = inl source ->
  (forall (state' : GenerateRequestState) (pe : bool),
     applyRule rule resource ctx state' pe w = applyRule rule resource ctx state pe w)
  /\ calls (snd (applyRule rule resource ctx state false w))
     = calls w ++ [CreateResourceCall (Kind (GenSpec gen)) (Namespace (GenSpec gen))
                     (newResourceOf gen (UnstructuredContent source)) false].
Proof.
  intros gen Hdata Hclone Hget Hnf Hsrc. split.
  - intros state' pe. apply applyRule_clone_state. exact Hdata.
  - unfold applyRule, bind, getClient, ret, createResource. fold gen.
    unfold dataBlock. rewrite Hdata.
    unfold cloneBlock, handleClone. rewrite Hclone, Hget, Hnf. cbn [negb].
    rewrite Hsrc. unfold newResourceOf. cbn [UnstructuredContent isNone].
    destruct (CreateResource (client w) _ _ _ false) as [c' [cerr|]]; reflexivity.
Qed.

(** X9.  The creation in data mode.  On the first delivery, with the
    target missing and a template that converts, the rule calls
    [CreateResource] once, with the converted template under the name and
    the namespace of the target and without a resource version.  It
    answers the [ResourceSpec] of the target when the store accepts the
    object, and the empty [ResourceSpec] with the error of the store when
    it does not. *)
Theorem data_mode_creates_the_template (rule : Rule) (resource : Unstructured)
    (ctx : EvalContext) (w : World) (e : error) (m : JSONMap)
    (c' : Client) (cerr : option error) :
  let gen := variableSubsitutionForAttributes (RuleGeneration rule) ctx in
  isNil (Data gen) = false ->
  CloneFrom_isZero (Clone gen) = true ->
  GetResource (client w) (Kind (GenSpec gen)) (Namespace (GenSpec gen))
    (Name (GenSpec gen)) = inr e ->
  IsNotFound (Some e) = true ->
  ToUnstructured (SubstituteVariables ctx (Data gen)) = (Some m, None) ->
  CreateResource (client w) (Kind (GenSpec gen)) (Namespace (GenSpec gen))
    (newResourceOf gen (Some m)) false = (c', cerr) ->
  applyRule rule resource ctx "" false w
  = (match cerr with
     | Some ce => (noResourceSpec, Some ce)
     | None => (targetOf gen, None)
     end,
     mkWorld _ c'
       (calls w ++ [CreateResourceCall (Kind (GenSpec gen)) (Namespace (GenSpec gen))
                      (newResourceOf gen (Some m)) false])).
Proof.
  intros gen Hdata Hclone Hget Hnf Hconv Hcreate.
  unfold applyRule, bind, getClient, ret, createResource. fold gen.
  unfold dataBlock. rewrite Hdata.
  rewrite (handleData_first_time _ gen _ resource ctx e m Hget Hnf Hconv).
  cbn [isNone]. unfold cloneBlock. rewrite Hclone.
  unfold newResourceOf in *. rewrite Hcreate.
  destruct cerr; reflexivity.
Qed.

(** X10.  An error of the store on the lookup of the target that is not a
    not-found error goes to the caller as it is, and the rule makes no
    call: in data mode when the error is none of the three handled kinds,
    in clone mode always. *)
Theorem lookup_error_is_returned (rule : Rule) (resource : Unstructured)
    (ctx : EvalContext) (state : GenerateRequestState) (pe : bool) (w : World)
    (e : error) :
  let gen := variableSubsitutionForAttributes (RuleGeneration rule) ctx in
  GetResource (client w) (Kind (GenSpec gen)) (Namespace (GenSpec gen))
    (Name (GenSpec gen)) = inr e ->
  IsNotFound (Some e) = false ->
  (isNil (Data gen) = false -> isHandledDataError e = false ->
   applyRule rule resource ctx state pe w = ((noResourceSpec, Some e), w))
  /\ (isNil (Data gen) = true -> CloneFrom_isZero (Clone gen) = false ->
      applyRule rule resource ctx state pe w = ((noResourceSpec, Some e), w)).
Proof.
  intros gen Hget Hnf. split.
  - intros Hdata Hplain.
    unfold applyRule, bind, getClient, ret. fold gen.
    unfold dataBlock, handleData. rewrite Hdata, Hget, Hnf, Hplain. reflexivity.
  - intros Hdata Hclone.
    unfold applyRule, bind, getClient, ret. fold gen.
    unfold dataBlock. rewrite Hdata.
    unfold cloneBlock, handleClone. rewrite Hclone, Hget, Hnf. reflexivity.
Qed.
End RuleCases.

(** ** The reconciler: the loop over the rules and the pass *)

Section PassCases.
Context `{D : GenerateDeps} `{T : ErrorText}.

Lemma applyGenerateRules_app (rules rules' : list Rule) (resource : Unstructured)
    (ctx : EvalContext) (state : GenerateRequestState) (pe : bool)
    (gens gens1 : list ResourceSpec) (w w1 : World) :
  applyGenerateRules rules resource ctx state pe gens w = ((gens1, None), w1) ->
  applyGenerateRules (rules ++ rules') resource ctx state pe gens w
  = applyGenerateRules rules' resource ctx state pe gens1 w1.
Proof.
  revert gens w. induction rules as [|rule rules IH]; intros gens w; simpl.
  - unfold ret. intros Heq; inversion Heq; reflexivity.
  - destruct (HasGenerate rule); simpl; [|apply IH].
    unfold bind.
    destruct (applyRule rule resource ctx state pe w) as [[spec [e|]] w'].
    + unfold ret. intros Heq; inversion Heq.
    + apply IH.
Qed.

(** X11.  The loop over the rules stops at the first generate rule that
    fails: the rules after it are not applied and make no call, the
    [ResourceSpec]s of the rules before it are dropped, and the world is
    the one the failing rule left. *)
Theorem pass_stops_at_the_first_failure (rules rules' : list Rule) (rule : Rule)
    (resource : Unstructured) (ctx : EvalContext) (state : GenerateRequestState)
    (pe : bool) (gens gens1 : list ResourceSpec) (spec : ResourceSpec)
    (e : error) (w w1 w2 : World) :
  HasGenerate rule = true ->
  applyGenerateRules rules resource ctx state pe gens w = ((gens1, None), w1) ->
  applyRule rule resource ctx state pe w1 = ((spec, Some e), w2) ->
  applyGenerateRules (rules ++ rule :: rules') resource ctx state pe gens w
  = (([], Some e), w2).
Proof.
  intros Hgen Hbefore Hfail.
  rewrite (applyGenerateRules_app rules (rule :: rules') resource ctx state pe
             gens gens1 w w1 Hbefore).
  simpl. rewrite Hgen. simpl. unfold bind. rewrite Hfail. reflexivity.
Qed.

Lemma applyGenerateRules_filter (rules : list Rule) (resource : Unstructured)
    (ctx : EvalContext) (state : GenerateRequestState) (pe : bool)
    (gens : list ResourceSpec) (w : World) :
  applyGenerateRules rules resource ctx state pe gens w
  = applyGenerateRules (List.filter HasGenerate rules) resource ctx state pe gens w.
Proof.
  revert gens w. induction rules as [|rule rules IH]; intros gens w; simpl.
  - reflexivity.
  - destruct (HasGenerate rule) eqn:Hgen; simpl; [|apply IH].
    rewrite Hgen. simpl. unfold bind.
    destruct (applyRule rule resource ctx state pe w) as [[spec [e|]] w'].
    + reflexivity.
    + apply IH.
Qed.

Lemma applyGenerateRules_creates (rules : list Rule) (resource : Unstructured)
    (ctx : EvalContext) (state : GenerateRequestState) (pe : bool)
    (gens : list ResourceSpec) (w : World) :
  exists cs : list Call,
    calls (snd (applyGenerateRules rules resource ctx state pe gens w)) = calls w ++ cs
    /\ forallb isCreate cs = true
    /\ (length cs <= length (List.filter HasGenerate rules))%nat.
Proof.
  revert gens w. induction rules as [|rule rules IH]; intros gens w; simpl.
  - exists []. rewrite app_nil_r. simpl. repeat split; lia.
  - destruct (HasGenerate rule); simpl; [|apply IH].
    unfold bind.
    destruct (applyRule_calls rule resource ctx state pe w)
      as [cs [Hcs [Hcreate Hone]]].
    destruct (applyRule rule resource ctx state pe w) as [[spec [e'|]] w1];
      simpl in Hcs.
    + exists cs. simpl. repeat split; [assumption | assumption | lia].
    + destruct (IH (gens ++ [spec]) w1) as [cs' [Hcs' [Hcreate' Hlen']]].
      exists (cs ++ cs'). rewrite Hcs', Hcs, app_assoc, length_app.
      split; [reflexivity | split; [|lia]].
      rewrite forallb_app, Hcreate, Hcreate'. reflexivity.
Qed.

(** X12.  A pass over the rules of a policy visits the generate rules
    only, and it makes no call but [CreateResource], at most one for each
    generate rule of the policy. *)
Theorem pass_creates_at_most_once_per_rule (pctx : PolicyContext)
    (state : GenerateRequestState) (w : World) :
  applyGeneratePolicy pctx state w
  = applyGeneratePolicy
      (withRules (List.filter HasGenerate (Rules (Policy pctx))) pctx) state w
  /\ exists cs : list Call,
       calls (snd (applyGeneratePolicy pctx state w)) = calls w ++ cs
       /\ forallb isCreate cs = true
       /\ (length cs <= length (List.filter HasGenerate (Rules (Policy pctx))))%nat.
Proof.
  split.
  - unfold applyGeneratePolicy. simpl. apply applyGenerateRules_filter.
  - unfold applyGeneratePolicy. apply applyGenerateRules_creates.
Qed.

(** X13.  A request whose policy the lister does not find is completed: the
    error of the lister is dropped, no rule is applied, no resource is
    created, and the pass writes a [Success] status with an empty list of
    generated resources. *)
Theorem request_without_policy_is_completed (gr : GenerateRequest) (w : World)
    (resource : Unstructured) (perr : error) :
  getResource (client w) (SpecResource gr) = inl resource ->
  pListerGet (SpecPolicy gr) = inr perr ->
  processGR gr w
  = (statusControlSuccess gr [],
     mkWorld _ (client w)
       (calls w ++ [ReportEventsCall None gr resource; StatusSuccessCall gr []])).
Proof.
  intros Hget Hpolicy.
  assert (Happly : applyGenerate resource gr w = (([], None), w))
    by (unfold applyGenerate; rewrite Hpolicy; reflexivity).
  rewrite (processGR_located gr w w resource [] None Hget Happly).
  reflexivity.
Qed.

(** X14.  A request whose policy no longer applies to the triggering
    resource ([GenerateNew] answers no rule response) fails without a rule
    being applied: no resource is created, no violation is recorded, and
    the pass writes a [Failed] status with the text that the policy does
    not apply. *)
Theorem request_whose_policy_does_not_apply_fails (gr : GenerateRequest)
    (w : World) (resource raw : Unstructured) (policy : ClusterPolicy) :
  getResource (client w) (SpecResource gr) = inl resource ->
  pListerGet (SpecPolicy gr) = inl policy ->
  MarshalJSON resource = inl raw ->
  RespRules (PolicyResp (GenerateNew (contextFor policy resource raw gr))) = [] ->
  processGR gr w
  = (statusControlFailed gr (Error (notApplyError (SpecPolicy gr) (SpecResource gr))) [],
     mkWorld _ (client w)
       (calls w
        ++ [ReportEventsCall (Some (notApplyError (SpecPolicy gr) (SpecResource gr)))
              gr resource;
            StatusFailedCall gr
              (Error (notApplyError (SpecPolicy gr) (SpecResource gr))) []])).
Proof.
  intros Hget Hpolicy Hraw Hrules.
  assert (Happly : applyGenerate resource gr w
                   = (([], Some (notApplyError (SpecPolicy gr) (SpecResource gr))), w)).
  { unfold applyGenerate. rewrite Hpolicy, Hraw.
    unfold contextFor in Hrules. rewrite Hrules. reflexivity. }
  rewrite (processGR_located gr w w resource [] _ Hget Happly).
  reflexivity.
Qed.

Lemma filter_isPVAdd_creates (cs : list Call) :
  forallb isCreate cs = true -> List.filter isPVAdd cs = [].
Proof.
  induction cs as [|c cs IH]; simpl; [reflexivity|].
  intros Hall. apply andb_true_iff in Hall as [Hc Hcs].
  destruct c; try discriminate. simpl. apply IH. exact Hcs.
Qed.

(** X15.  A pass that located the triggering resource records a policy
    violation exactly when [applyGenerate] ended with a [Violation], and
    then one, for the rule the [Violation] names; every other error, and
    success, record none. *)
Theorem violation_record_only_for_a_Violation (gr : GenerateRequest)
    (w w1 : World) (resource : Unstructured) (gens : list ResourceSpec)
    (err : option error) :
  getResource (client w) (SpecResource gr) = inl resource ->
  applyGenerate resource gr w = ((gens, err), w1) ->
  exists added : list Call,
    calls (snd (processGR gr w)) = calls w ++ added
    /\ List.filter isPVAdd added
       = match err with
         | Some (Violation rule cause) =>
             [PVAddCall (mkPVInfo false (SpecPolicy gr) resource
                           [mkViolatedRule rule "Generation"
                              (Error (Violation rule cause))])]
         | _ => []
         end.
Proof.
  intros Hget Happly.
  rewrite (processGR_located gr w w1 resource gens err Hget Happly).
  destruct (applyGenerate_calls resource gr w) as [cs [Hcs Hcreate]].
  rewrite Happly in Hcs. simpl in Hcs. simpl.
  exists (cs ++ violationCalls gr resource err
          ++ [ReportEventsCall err gr resource; statusCall gr err gens]).
  split; [rewrite Hcs, <- app_assoc; reflexivity|].
  rewrite !List.filter_app, (filter_isPVAdd_creates cs Hcreate).
  unfold violationCalls, statusCall, generatePV.
  destruct err as [[]|]; reflexivity.
Qed.
End PassCases.

(** ** The work queue: the handler and the keys *)

Section HandlerFacts.
Context `{C : ControllerDeps}.

(** X16.  The error handler works on its key alone.  Whatever the error,
    it leaves the requeue count of every other key as it was, and it never
    touches the items ready to be handed out nor the sets the queue keeps
    of them: a key comes back only through the rate limiter. *)
Theorem handleErr_touches_its_key_only (err : option error) (key key' : string)
    (pc : PolicyController) :
  key <> key' ->
  NumRequeues key' (pcQueue (handleErr err key pc)) = NumRequeues key' (pcQueue pc)
  /\ queue (pcQueue (handleErr err key pc)) = queue (pcQueue pc)
  /\ dirty (pcQueue (handleErr err key pc)) = dirty (pcQueue pc)
  /\ processing (pcQueue (handleErr err key pc)) = processing (pcQueue pc)
  /\ (forall k : string,
        In k (waiting (pcQueue (handleErr err key pc))) ->
        In k (waiting (pcQueue pc)) \/ k = key).
Proof.
  intros Hne. unfold handleErr, NumRequeues.
  destruct err as [e|];
    [destruct (_ <? policyWorkQueueRetryLimit)|]; simpl;
    rewrite ?lookup_insert_ne, ?lookup_delete_ne by exact Hne;
    repeat split; try reflexivity; intros k Hk; try (left; exact Hk).
  apply in_app_or in Hk as [Hk | [Hk | []]]; [left; exact Hk | right; congruence].
Qed.

(** X17.  [syncHandler] returns an error in two cases only.  The item is
    not a string: the error says so, and neither the splitter nor the
    lister decides anything.  Or the item is a key that splits and the
    lister fails for the name with an error that is not a not-found error:
    the error returned is the lister's.  An error that is returned is not
    handed to [utilruntime.HandleError] by [syncHandler].  A key that does
    not split and a policy that is gone are each handed to
    [utilruntime.HandleError] as one error and answered with nil; for a
    policy that is found nothing is handed on. *)
Theorem syncHandler_returns_and_reports (obj : value) (e : error) :
  (fst (syncHandler obj) = Some e
   <-> ((forall key : string, obj <> VString key)
        /\ e = ErrorString ("expected string in workqueue but got "
                            +:+ formatGoSyntax obj))
       \/ exists (key namespace name : string),
            obj = VString key
            /\ SplitMetaNamespaceKey key = inl (namespace, name)
            /\ policyListerGet name = inr e
            /\ IsNotFound (Some e) = false)
  /\ (fst (syncHandler obj) = Some e -> snd (syncHandler obj) = [])
  /\ (forall (key : string) (serr : error),
        obj = VString key ->
        SplitMetaNamespaceKey key = inr serr ->
        syncHandler obj = (None, [ErrorString ("invalid policy key: " +:+ key)]))
  /\ (forall (key namespace name : string) (lerr : error),
        obj = VString key ->
        SplitMetaNamespaceKey key = inl (namespace, name) ->
        policyListerGet name = inr lerr ->
        IsNotFound (Some lerr) = true ->
        syncHandler obj
        = (None, [ErrorString ("policy '" +:+ key
                               +:+ "' in work queue no longer exists")]))
  /\ (forall (key namespace name : string) (policy : ClusterPolicy),
        obj = VString key ->
        SplitMetaNamespaceKey key = inl (namespace, name) ->
        policyListerGet name = inl policy ->
        syncHandler obj = (None, [])).
Proof.
  split; [split | split; [| split; [| split]]].
  - unfold syncHandler.
    destruct obj as [| b | n | key | l | m];
      try (intros Heq; inversion Heq; left; split; [discriminate | reflexivity]).
    destruct (SplitMetaNamespaceKey key) as [[namespace name] | serr] eqn:Hs;
      [|discriminate].
    destruct (policyListerGet name) as [policy | lerr] eqn:Hl; [discriminate|].
    destruct (IsNotFound (Some lerr)) eqn:Hnf; [discriminate|].
    simpl. intros Heq. inversion Heq; subst.
    right. exists key, namespace, name. repeat split; assumption.
  - intros [[Hno He] | (key & namespace & name & Hobj & Hs & Hl & Hnf)].
    + subst e. unfold syncHandler.
      destruct obj as [| b | n | key | l | m]; try reflexivity.
      exfalso. exact (Hno key eq_refl).
    + subst obj. unfold syncHandler. rewrite Hs, Hl, Hnf. reflexivity.
  - unfold syncHandler.
    destruct obj as [| b | n | key | l | m]; try reflexivity.
    destruct (SplitMetaNamespaceKey key) as [[namespace name] | serr];
      [|discriminate].
    destruct (policyListerGet name) as [policy | lerr]; [discriminate|].
    destruct (IsNotFound (Some lerr)); [discriminate | reflexivity].
  - intros key serr -> Hs. unfold syncHandler. rewrite Hs. reflexivity.
  - intros key namespace name lerr -> Hs Hl Hnf. unfold syncHandler.
    rewrite Hs, Hl, Hnf. reflexivity.
  - intros key namespace name policy -> Hs Hl. unfold syncHandler.
    rewrite Hs, Hl. reflexivity.
Qed.

Lemma turn_ready_nil (key : string) (h : list error) (f : gmap string nat) :
  syncHandler (VString key) = (None, h) ->
  workerTurn (readyController key f)
  = mkPolicyController (mkWorkQueue [] ∅ ∅ (delete key f) [] false) h.
Proof.
  intros Hsync.
  unfold workerTurn, readyController, elapse, processNextWorkItem, Get. simpl.
  rewrite Hsync. unfold handleErr, Done, Forget. simpl.
  rewrite !difference_self, bool_decide_eq_false_2 by apply not_elem_of_empty.
  reflexivity.
Qed.

(** X18.  A key whose sync returns nil is handled once: after its first
    turn it is forgotten, the queue is empty and nothing waits, and no
    later turn of a worker changes that.  This is the lot of a key that
    does not split and of a key whose policy is gone, as well as of a
    policy that was processed. *)
Theorem synced_key_is_handled_once (key : string) (h : list error) (n : nat) :
  syncHandler (VString key) = (None, h) ->
  (1 <= n)%nat ->
  turns n (enqueued key) = mkPolicyController emptyWorkQueue h.
Proof.
  intros Hsync Hn. induction n as [|n IH]; [lia|].
  unfold turns in *. simpl. destruct n as [|n].
  - simpl. rewrite enqueued_ready, (turn_ready_nil key h ∅ Hsync), delete_empty.
    reflexivity.
  - rewrite IH by lia. reflexivity.
Qed.
End HandlerFacts.

(** ** [processPolicy]: the resources a policy is applied to *)

Section ProcessPolicyFacts.
Context `{P : ProcessDeps}.

Lemma selectResource_chosen (rule : AlphaRule) (resources : list resourceInfo)
    (resource : Unstructured) :
  selectResource rule resources resource = resources ++ chosen rule resource.
Proof.
  unfold selectResource, chosen.
  destruct (MarshalResource resource) as [raw | merr]; [|symmetry; apply app_nil_r].
  destruct (AlphaResourceName rule) as [pattern|]; [|reflexivity].
  destruct (wildcardMatch pattern (GetName resource)); simpl;
    [reflexivity | symmetry; apply app_nil_r].
Qed.

Lemma fold_selectResource (rule : AlphaRule) (items : list Unstructured)
    (resources : list resourceInfo) :
  fold_left (selectResource rule) items resources
  = resources ++ flat_map (chosen rule) items.
Proof.
  revert resources. induction items as [|item items IH]; intros resources; simpl.
  - symmetry. apply app_nil_r.
  - rewrite IH, selectResource_chosen, <- app_assoc. reflexivity.
Qed.

Lemma selectKind_listed (rule : AlphaRule) (resources : list resourceInfo)
    (k : string) :
  selectKind rule resources k
  = resources ++ flat_map (chosen rule) (listed rule k).
Proof.
  unfold selectKind, listed.
  destruct (ListResource (GetGVRFromKind k) "" (AlphaSelector rule)) as [items | lerr].
  - apply fold_selectResource.
  - symmetry. apply app_nil_r.
Qed.

Lemma fold_selectKind (rule : AlphaRule) (kinds : list string)
    (resources : list resourceInfo) :
  fold_left (selectKind rule) kinds resources
  = resources
    ++ flat_map (fun k => flat_map (chosen rule) (listed rule k)) kinds.
Proof.
  revert resources. induction kinds as [|k kinds IH]; intros resources; simpl.
  - symmetry. apply app_nil_r.
  - rewrite IH, selectKind_listed, <- app_assoc. reflexivity.
Qed.

Lemma fold_selectRule (rules : list AlphaRule) (resources : list resourceInfo) :
  fold_left selectRule rules resources
  = resources
    ++ flat_map (fun rule =>
                   flat_map (fun k => flat_map (chosen rule) (listed rule k))
                     (AlphaKinds rule)) rules.
Proof.
  revert resources. induction rules as [|rule rules IH]; intros resources; simpl.
  - symmetry. apply app_nil_r.
  - rewrite IH. unfold selectRule at 1. rewrite fold_selectKind, <- app_assoc.
    reflexivity.
Qed.

(** X19.  [processPolicy] applies the policy to the listed resources in
    the order of the rules, of the kinds of each rule and of each listing,
    once for every time a resource is listed: a resource listed under two
    rules or two kinds is processed twice.  A kind whose listing fails, a
    resource that does not marshal and a resource whose name does not
    match the pattern of the rule contribute nothing and stop nothing. *)
Theorem processPolicy_applies_in_listing_order (p : AlphaPolicy) :
  processPolicy p
  = map (fun r => ApplyPolicyCall p (rawResource r) (gvk r))
      (flat_map (fun rule =>
                   flat_map (fun k => flat_map (chosen rule) (listed rule k))
                     (AlphaKinds rule))
         (AlphaRules p)).
Proof.
  unfold processPolicy, selectedResources. rewrite fold_selectRule. reflexivity.
Qed.

(** X20.  The policy is applied to a resource exactly when some rule of
    the policy has a kind whose listing succeeds and contains the
    resource, the resource marshals, and its name matches the name pattern
    of that rule if the rule has one. *)
Theorem processPolicy_applies_to_the_matching_resources (p : AlphaPolicy)
    (raw : Unstructured) (g : GroupVersionKind) :
  In (ApplyPolicyCall p raw g) (processPolicy p)
  <-> exists (rule : AlphaRule) (k : string) (items : list Unstructured)
        (resource : Unstructured),
        In rule (AlphaRules p)
        /\ In k (AlphaKinds rule)
        /\ ListResource (GetGVRFromKind k) "" (AlphaSelector rule) = inl items
        /\ In resource items
        /\ MarshalResource resource = inl raw
        /\ GetGroupVersionKind resource = g
        /\ (forall pattern : string,
              AlphaResourceName rule = Some pattern ->
              wildcardMatch pattern (GetName resource) = true).
Proof.
  unfold processPolicy, selectedResources. rewrite fold_selectRule. simpl.
  rewrite in_map_iff. split.
  - intros (ri & Hcall & Hin). inversion Hcall; subst.
    apply in_flat_map in Hin as (rule & Hrule & Hin).
    apply in_flat_map in Hin as (k & Hk & Hin).
    apply in_flat_map in Hin as (resource & Hres & Hin).
    unfold listed in Hres.
    destruct (ListResource (GetGVRFromKind k) "" (AlphaSelector rule))
      as [items | lerr] eqn:Hlist; [|destruct Hres].
    unfold chosen in Hin.
    destruct (MarshalResource resource) as [raw' | merr] eqn:Hm; [|destruct Hin].
    destruct (AlphaResourceName rule) as [pattern|] eqn:Hname.
    + destruct (wildcardMatch pattern (GetName resource)) eqn:Hw; [|destruct Hin].
      destruct Hin as [<- | []]. simpl.
      exists rule, k, items, resource. repeat split; try assumption.
      intros pattern' Hp. rewrite Hname in Hp. inversion Hp; subst. exact Hw.
    + destruct Hin as [<- | []]. simpl.
      exists rule, k, items, resource. repeat split; try assumption.
      intros pattern' Hp. rewrite Hname in Hp. discriminate Hp.
  - intros (rule & k & items & resource & Hrule & Hk & Hlist & Hres & Hm & Hg & Hw).
    exists (mkResourceInfo raw g). split; [reflexivity|].
    apply in_flat_map. exists rule. split; [exact Hrule|].
    apply in_flat_map. exists k. split; [exact Hk|].
    apply in_flat_map. exists resource. split.
    + unfold listed. rewrite Hlist. exact Hres.
    + unfold chosen. rewrite Hm, Hg.
      destruct (AlphaResourceName rule) as [pattern|].
      * rewrite (Hw pattern eq_refl). left. reflexivity.
      * left. reflexivity.
Qed.
End ProcessPolicyFacts.

(** ** The further properties at concrete requests *)

Section FurtherExamples.
Import InMemory Examples MoreExamples.

Lemma Mutate_without_applicable_rule_witness :
  (forall rule, In rule (Rules (Policy (requestFor [addLabel] deployment admin))) ->
                ruleGate (requestFor [addLabel] deployment admin) rule = false)
  /\ PatchedResource (Mutate (requestFor [addLabel] deployment admin)) = deployment
  /\ RespRules (PolicyResp (Mutate (requestFor [addLabel] deployment admin))) = [].
Proof.
  assert (Hgate : forall rule,
             In rule (Rules (Policy (requestFor [addLabel] deployment admin))) ->
             ruleGate (requestFor [addLabel] deployment admin) rule = false)
    by (intros rule [<- | []]; reflexivity).
  pose proof (Mutate_without_applicable_rule
                (requestFor [addLabel] deployment admin) Hgate) as [Hres [Hrules _]].
  split; [exact Hgate | split; [exact Hres | exact Hrules]].
Defined.

Lemma Mutate_ignores_rules_without_mutation_witness :
  Contains PodControllers
    (GetKind (NewResource (requestFor [checkOnly "Pod"; addLabel] pod admin))) = false
  /\ Mutate (requestFor [checkOnly "Pod"; addLabel] pod admin)
     = Mutate (withRules [addLabel] (requestFor [checkOnly "Pod"; addLabel] pod admin)).
Proof.
  assert (Hkind : Contains PodControllers
                    (GetKind (NewResource
                                (requestFor [checkOnly "Pod"; addLabel] pod admin)))
                  = false) by reflexivity.
  split; [exact Hkind |].
  exact (Mutate_ignores_rules_without_mutation
           (requestFor [checkOnly "Pod"; addLabel] pod admin) (or_intror Hkind)).
Defined.

Lemma overlay_end_skips_the_later_phases_witness :
  ruleGate (requestFor [compliant] pod admin) compliant = true
  /\ ProcessOverlay (RuleName compliant)
       (OverlayValue (Overlay (RuleMutation compliant))) pod
     = (compliantResponse, pod)
  /\ mutateRule (requestFor [compliant] pod admin) (zeroPolicyResponse, pod) compliant
     = (zeroPolicyResponse, pod).
Proof.
  split; [reflexivity | split; [reflexivity |]].
  exact (proj2 (overlay_end_skips_the_later_phases (requestFor [compliant] pod admin)
                  compliant zeroPolicyResponse pod eq_refl eq_refl)
           (Overlay (RuleMutation compliant)) compliantResponse pod
           eq_refl eq_refl eq_refl eq_refl).
Defined.

Lemma existing_target_is_left_alone_witness :
  @GetResource dataDeps (client configMapWorld) "ConfigMap" "dev" "defaults"
    = inl configMap
  /\ @applyRule dataDeps dataRule (namespaceAt 200) (contextOf (namespaceAt 200))
       Completed false configMapWorld
     = ((configMapSpec, None), configMapWorld).
Proof.
  split; [reflexivity |].
  exact (proj1 (proj2 (@existing_target_is_left_alone dataDeps dataRule
                         (namespaceAt 200) (contextOf (namespaceAt 200))
                         Completed false configMapWorld configMap eq_refl))
           eq_refl eq_refl).
Defined.

Lemma clone_without_source_fails_witness :
  @GetResource dataDeps (client firstWorld) "Secret" "default" "regcred"
    = inr (StatusError StatusReasonNotFound "Secret default/regcred not found")
  /\ @applyRule dataDeps cloneRule (namespaceAt 200) (contextOf (namespaceAt 200))
       "" false firstWorld
     = ((noResourceSpec, Some missingSource), firstWorld).
Proof.
  split; [reflexivity |].
  exact (@clone_without_source_fails dataDeps cloneRule (namespaceAt 200)
           (contextOf (namespaceAt 200)) "" false firstWorld
           (StatusError StatusReasonNotFound "Secret dev/regcred not found")
           (StatusError StatusReasonNotFound "Secret default/regcred not found")
           eq_refl eq_refl eq_refl eq_refl eq_refl eq_refl).
Defined.

Lemma clone_mode_ignores_the_state_witness :
  @GetResource dataDeps (client cloneWorld) "Secret" "default" "regcred" = inl regcred
  /\ map isCreate
       (calls (snd (@applyRule dataDeps cloneRule (namespaceAt 200)
                      (contextOf (namespaceAt 200)) Completed false cloneWorld)))
     = [true].
Proof.
  split; [reflexivity |].
  rewrite (proj2 (@clone_mode_ignores_the_state dataDeps cloneRule (namespaceAt 200)
                    (contextOf (namespaceAt 200)) Completed cloneWorld
                    (StatusError StatusReasonNotFound "Secret dev/regcred not found")
                    regcred eq_refl eq_refl eq_refl eq_refl eq_refl)).
  reflexivity.
Defined.

(** The copy carries the name and the namespace of the target and no
    resource version. *)
Example clone_payload :
  @newResourceOf dataDeps
    (@variableSubsitutionForAttributes dataDeps (RuleGeneration cloneRule)
       (contextOf (namespaceAt 200)))
    (UnstructuredContent regcred)
  = [("apiVersion", VString "v1"); ("kind", VString "Secret");
     ("metadata", VMapping [("name", VString "regcred");
                            ("namespace", VString "dev")]);
     ("data", VMapping [("token", VString "c2VjcmV0")])].
Proof. vm_compute. reflexivity. Qed.

Lemma data_mode_creates_the_template_witness :
  @ToUnstructured dataDeps
    (@SubstituteVariables dataDeps (contextOf (namespaceAt 200)) configTemplate)
    = (Some [("data", VMapping [("k", VString "v")])], None)
  /\ fst (@applyRule dataDeps dataRule (namespaceAt 200) (contextOf (namespaceAt 200))
            "" false firstWorld)
     = (configMapSpec, None)
  /\ calls (snd (@applyRule dataDeps dataRule (namespaceAt 200)
                   (contextOf (namespaceAt 200)) "" false firstWorld))
     = [CreateResourceCall "ConfigMap" "dev" configMap false].
Proof.
  split; [reflexivity |].
  assert (Hcreate :
            @CreateResource dataDeps (client firstWorld) "ConfigMap" "dev" configMap false
            = (fst (@CreateResource dataDeps (client firstWorld) "ConfigMap" "dev"
                      configMap false), None)).
  { assert (Hsnd : snd (@CreateResource dataDeps (client firstWorld) "ConfigMap" "dev"
                          configMap false) = None) by reflexivity.
    etransitivity; [apply surjective_pairing | f_equal; exact Hsnd]. }
  rewrite (@data_mode_creates_the_template dataDeps dataRule (namespaceAt 200)
             (contextOf (namespaceAt 200)) firstWorld missingConfigMap
             [("data", VMapping [("k", VString "v")])] _ None
             eq_refl eq_refl eq_refl eq_refl eq_refl Hcreate).
  split; reflexivity.
Defined.

Lemma lookup_error_is_returned_witness :
  @GetResource unreachableDeps (client unreachableWorld) "ConfigMap" "dev" "defaults"
    = inr timeout
  /\ IsNotFound (Some timeout) = false
  /\ @applyRule unreachableDeps dataRule (namespaceAt 200)
       (contextOf (namespaceAt 200)) "" false unreachableWorld
     = ((noResourceSpec, Some timeout), unreachableWorld).
Proof.
  split; [reflexivity | split; [reflexivity |]].
  exact (proj1 (@lookup_error_is_returned unreachableDeps dataRule (namespaceAt 200)
                  (contextOf (namespaceAt 200)) "" false unreachableWorld timeout
                  eq_refl eq_refl)
           eq_refl eq_refl).
Defined.
Lemma pass_stops_at_the_first_failure_witness :
  HasGenerate cloneRule = true
  /\ fst (@applyGenerateRules pairDeps [dataRule] (namespaceAt 200)
            (contextOf (namespaceAt 200)) "" false [] pairWorld)
     = ([configMapSpec], None)
  /\ fst (@applyGenerateRules pairDeps ([dataRule] ++ cloneRule :: [listRule])
            (namespaceAt 200) (contextOf (namespaceAt 200)) "" false [] pairWorld)
     = ([], Some missingSource).
Proof.
  assert (Hbefore : fst (@applyGenerateRules pairDeps [dataRule] (namespaceAt 200)
                           (contextOf (namespaceAt 200)) "" false [] pairWorld)
                    = ([configMapSpec], None)) by (vm_compute; reflexivity).
  assert (Hfail : fst (@applyRule pairDeps cloneRule (namespaceAt 200)
                         (contextOf (namespaceAt 200)) "" false
                         (snd (@applyGenerateRules pairDeps [dataRule] (namespaceAt 200)
                                 (contextOf (namespaceAt 200)) "" false [] pairWorld)))
                  = (noResourceSpec, Some missingSource)) by (vm_compute; reflexivity).
  split; [reflexivity | split; [exact Hbefore |]].
  rewrite (@pass_stops_at_the_first_failure pairDeps [dataRule] [listRule] cloneRule
             (namespaceAt 200) (contextOf (namespaceAt 200)) "" false []
             [configMapSpec] noResourceSpec missingSource pairWorld _ _ eq_refl
             (eq_trans (surjective_pairing _) (f_equal (fun r => (r, _)) Hbefore))
             (eq_trans (surjective_pairing _) (f_equal (fun r => (r, _)) Hfail))).
  reflexivity.
Defined.

Lemma request_without_policy_is_completed_witness :
  @getResource noPolicyDeps (client noPolicyWorld) (SpecResource (requestIn ""))
    = inl (namespaceAt 200)
  /\ @pListerGet noPolicyDeps (SpecPolicy (requestIn ""))
     = inr (StatusError StatusReasonNotFound "policy generate-defaults not found")
  /\ calls (snd (@processGR noPolicyDeps errorText (requestIn "") noPolicyWorld))
     = [ReportEventsCall None (requestIn "") (namespaceAt 200);
        StatusSuccessCall (requestIn "") []].
Proof.
  split; [reflexivity | split; [reflexivity |]].
  rewrite (@request_without_policy_is_completed noPolicyDeps errorText (requestIn "")
             noPolicyWorld (namespaceAt 200)
             (StatusError StatusReasonNotFound "policy generate-defaults not found")
             eq_refl eq_refl).
  reflexivity.
Defined.

Lemma request_whose_policy_does_not_apply_fails_witness :
  RespRules (PolicyResp (@GenerateNew podPolicyDeps
                           (contextFor (policyOf [podRule]) (namespaceAt 200)
                              (namespaceAt 200) (requestIn "")))) = []
  /\ calls (snd (@processGR podPolicyDeps errorText (requestIn "") podPolicyWorld))
     = [ReportEventsCall
          (Some (notApplyError "generate-defaults" (SpecResource (requestIn ""))))
          (requestIn "") (namespaceAt 200);
        StatusFailedCall (requestIn "")
          "policy generate-defaults, dont not apply to resource {Namespace  dev}" []].
Proof.
  split; [reflexivity |].
  rewrite (@request_whose_policy_does_not_apply_fails podPolicyDeps errorText
             (requestIn "") podPolicyWorld (namespaceAt 200) (namespaceAt 200)
             (policyOf [podRule]) eq_refl eq_refl eq_refl eq_refl).
  reflexivity.
Defined.

Lemma violation_record_only_for_a_Violation_witness :
  fst (@applyGenerate dataDeps (namespaceAt 200) (requestIn Completed) firstWorld)
    = ([], Some (Violation "default-config" (NotFound "ConfigMap" "dev" "defaults")))
  /\ exists added : list Call,
       calls (snd (@processGR dataDeps errorText (requestIn Completed) firstWorld))
       = calls firstWorld ++ added
       /\ List.filter isPVAdd added
          = [PVAddCall
               (mkPVInfo false "generate-defaults" (namespaceAt 200)
                  [mkViolatedRule "default-config" "Generation"
                     (Error (Violation "default-config"
                               (NotFound "ConfigMap" "dev" "defaults")))])].
Proof.
  assert (Hfst : fst (@applyGenerate dataDeps (namespaceAt 200) (requestIn Completed)
                        firstWorld)
                 = ([], Some (Violation "default-config"
                                (NotFound "ConfigMap" "dev" "defaults"))))
    by (vm_compute; reflexivity).
  split; [exact Hfst |].
  exact (@violation_record_only_for_a_Violation dataDeps errorText
           (requestIn Completed) firstWorld _ (namespaceAt 200) []
           (Some (Violation "default-config" (NotFound "ConfigMap" "dev" "defaults")))
           eq_refl
           (eq_trans (surjective_pairing _) (f_equal (fun r => (r, _)) Hfst))).
Defined.

Lemma handleErr_touches_its_key_only_witness :
  "policy-a"%string <> "policy-b"%string
  /\ NumRequeues "policy-b"
       (pcQueue (@handleErr controller (Some (ErrorString "sync failed")) "policy-a"
                   (requeued 2 "policy-b")))
     = 2.
Proof.
  assert (Hne : "policy-a"%string <> "policy-b"%string) by discriminate.
  split; [exact Hne |].
  rewrite (proj1 (@handleErr_touches_its_key_only controller
                    (Some (ErrorString "sync failed")) "policy-a" "policy-b"
                    (requeued 2 "policy-b") Hne)).
  reflexivity.
Defined.

Lemma synced_key_is_handled_once_witness :
  @syncHandler goneController (VString "policy") = (None, [gonePolicy])
  /\ @turns goneController 3 (enqueued "policy")
     = mkPolicyController emptyWorkQueue [gonePolicy].
Proof.
  assert (Hsync : @syncHandler goneController (VString "policy") = (None, [gonePolicy]))
    by reflexivity.
  split; [exact Hsync |].
  exact (@synced_key_is_handled_once goneController "policy" [gonePolicy] 3%nat Hsync
           ltac:(lia)).
Defined.
(** The pod [web-1] is processed twice, once under each rule; the kind
    that cannot be listed stops nothing. *)
Example processPolicy_on_listingPolicy :
  map (fun c => match c with
                | ApplyPolicyCall _ raw gvk =>
                    (GetName raw, (Group gvk, Version gvk, GVKKind gvk))
                end)
    (@processPolicy processDeps listingPolicy)
  = [("web-1", ("", "v1", "Pod")); ("web", ("apps", "v1", "Deployment"));
     ("web-1", ("", "v1", "Pod")); ("db-1", ("", "v1", "Pod"))]%string.
Proof. vm_compute. reflexivity. Qed.

(** An item that is no string is answered with an error at once. *)
Example item_that_is_no_string :
  @syncHandler goneController (VNumber 7)
  = (Some (ErrorString "expected string in workqueue but got 7"), []).
Proof. vm_compute. reflexivity. Qed.
End FurtherExamples.
